(** * The CAG core of KnowledgePersistence-AI

    A shallow embedding of the cache warmer, the priority scorer, the layer
    classifier, the token estimator, the context compiler and the engine of
    [cag_cache_warmer.py], [cag_context_manager.py], [cag_engine.py] (the
    direct-store variant) and of [cag_mcp_integrated.py] (the tool-invocation
    variant), of the query analysis and the layer loaders of the two context
    managers and of the knowledge client [MCPKnowledgeClient], followed by the
    properties checked against them.

    Conventions.
    - Python [float] is IEEE 754 binary64: Rocq's primitive [float].
    - Python [int] is unbounded: [Z].
    - A [datetime] is the number of microseconds since an arbitrary epoch, a
      [Z]; time zones are dropped as [replace(tzinfo=None)] does.
    - [time.time()] readings and the durations and averages computed from
      them are binary64 like every other [float].
    - A Python [dict] that is iterated over is an insertion-ordered
      association list ([Py.dict]); the session registry, only ever tested for
      membership, is a [gmap].
    - Whatever the knowledge store, the tool registry and the clock answer
      during one call is an explicit argument of the call (a [world]). *)

From Stdlib Require Import ZArith QArith Qfield List String Ascii Permutation.
From Stdlib Require Import Sorting.Sorted.
From Stdlib Require Import Floats.PrimFloat Numbers.Cyclic.Int63.Uint63.
From Stdlib Require Import Floats.SpecFloat Floats.FloatOps Floats.FloatAxioms.
From stdpp Require Import base tactics option list gmap strings pretty.

Set Warnings "-inexact-float".
Local Open Scope Z_scope.

(** ** Python primitives *)

Module Py.

(** Exceptions and fallible results. *)
Inductive exn : Type :=
  | KeyError (key : string)
  | ClientError (msg : string).

Inductive result (A : Type) : Type :=
  | Ok (a : A)
  | Raise (e : exn).
Arguments Ok {A} a.
Arguments Raise {A} e.

(** [d[key]] on a value that may be absent. *)
Definition getitem {A} (key : string) (o : option A) : result A :=
  match o with
  | Some a => Ok a
  | None => Raise (KeyError key)
  end.

(** A computation over a mutable object of type [S] that may raise; the
    mutations made before the exception stay. *)
Definition M (S A : Type) : Type := S -> result A * S.

Definition ret {S A} (a : A) : M S A := fun s => (Ok a, s).

Definition bind {S A B} (m : M S A) (k : A -> M S B) : M S B :=
  fun s =>
    match m s with
    | (Ok a, s') => k a s'
    | (Raise e, s') => (Raise e, s')
    end.

Definition get {S} : M S S := fun s => (Ok s, s).
Definition modify {S} (f : S -> S) : M S unit := fun s => (Ok tt, f s).
Definition lift_result {S A} (r : result A) : M S A := fun s => (r, s).

(** Running a computation on a component [proj s] of [s]. *)
Definition zoom {S T A} (proj : S -> T) (upd : T -> S -> S) (m : M T A) : M S A :=
  fun s => let '(r, t) := m (proj s) in (r, upd t s).

(** [try: m  except Exception: h]. *)
Definition try_except {S A} (m : M S A) (h : exn -> M S A) : M S A :=
  fun s =>
    match m s with
    | (Ok a, s') => (Ok a, s')
    | (Raise e, s') => h e s'
    end.

(** *** dict: insertion-ordered, one binding per key *)
Definition dict (V : Type) : Type := list (string * V).

Fixpoint dict_get {V} (d : dict V) (k : string) : option V :=
  match d with
  | [] => None
  | (k', v) :: d' => if String.eqb k' k then Some v else dict_get d' k
  end.

(** [d[k] = v]: an existing key keeps its position. *)
Fixpoint dict_set {V} (d : dict V) (k : string) (v : V) : dict V :=
  match d with
  | [] => [(k, v)]
  | (k', v') :: d' =>
      if String.eqb k' k then (k, v) :: d' else (k', v') :: dict_set d' k v
  end.

(** [d.get(k, default)]. *)
Definition dict_get_default {V} (d : dict V) (k : string) (default : V) : V :=
  match dict_get d k with
  | Some v => v
  | None => default
  end.

(** *** str *)
Definition newline : string := String (ascii_of_nat 10) EmptyString.

(** [ch.isspace()] on the ASCII range. *)
Definition isspace (c : ascii) : bool :=
  let n := nat_of_ascii c in
  ((9 <=? n)%nat && (n <=? 13)%nat) || ((28 <=? n)%nat && (n <=? 32)%nat).

(** [len(text.split())]: the number of maximal runs of non-whitespace. The
    flag tells whether the scan is inside a word. *)
Fixpoint count_words (inside : bool) (text : string) : Z :=
  match text with
  | EmptyString => 0
  | String c rest =>
      if isspace c then count_words false rest
      else (if inside then 0 else 1) + count_words true rest
  end.

Definition upper_char (c : ascii) : ascii :=
  let n := nat_of_ascii c in
  if ((97 <=? n)%nat && (n <=? 122)%nat)%bool then ascii_of_nat (n - 32) else c.

(** [s.upper()] on ASCII text. *)
Fixpoint upper (s : string) : string :=
  match s with
  | EmptyString => EmptyString
  | String c rest => String (upper_char c) (upper rest)
  end.

(** [sep.join(parts)]. *)
Fixpoint join (sep : string) (parts : list string) : string :=
  match parts with
  | [] => EmptyString
  | [p] => p
  | p :: rest => p +:+ sep +:+ join sep rest
  end.

(** [s.startswith(p)]. *)
Definition startswith (s p : string) : bool := String.prefix p s.

(** [needle in haystack]. *)
Fixpoint contains (haystack needle : string) : bool :=
  String.prefix needle haystack ||
  match haystack with
  | EmptyString => false
  | String _ rest => contains rest needle
  end.

(** [bool(s)]. *)
Definition truthy (s : string) : bool :=
  match s with
  | EmptyString => false
  | String _ _ => true
  end.

(** *** float *)

(** [float(n)], for [|n| < 2^63]. *)
Definition float_of_Z (n : Z) : float :=
  if n <? 0 then PrimFloat.opp (PrimFloat.of_uint63 (Uint63.of_Z (- n)))
  else PrimFloat.of_uint63 (Uint63.of_Z n).

(** [a / b] on two ints (true division). *)
Definition truediv (a b : Z) : float :=
  PrimFloat.div (float_of_Z a) (float_of_Z b).

(** [max(0, x)]: the first argument unless the second is greater. *)
Definition max0 (x : float) : float :=
  if PrimFloat.ltb 0 x then x else 0%float.

(** [min(1.0, x)]: the first argument unless the second is smaller. *)
Definition min1 (x : float) : float :=
  if PrimFloat.ltb x 1 then x else 1%float.

(** [a >= b]. *)
Definition ge (a b : float) : bool := PrimFloat.leb b a.

(** *** sorted(xs, key=..., reverse=True)

    A stable sort into descending key order: elements with equal keys keep
    their relative order. *)
Section Sorted.
Context {A : Type} (key : A -> float).

Fixpoint insert_desc (x : A) (l : list A) : list A :=
  match l with
  | [] => [x]
  | y :: l' =>
      if PrimFloat.ltb (key x) (key y) then y :: insert_desc x l'
      else x :: y :: l'
  end.

Fixpoint sorted_desc (l : list A) : list A :=
  match l with
  | [] => []
  | x :: l' => insert_desc x (sorted_desc l')
  end.
End Sorted.

(** [l[:stop]]: a negative [stop] counts from the end of the list. *)
Definition slice_to {A} (stop : Z) (l : list A) : list A :=
  if stop <? 0 then firstn (Z.to_nat (Z.of_nat (length l) + stop)) l
  else firstn (Z.to_nat stop) l.

(** [timedelta.days] of [later - earlier]. *)
Definition microseconds_per_day : Z := 86400 * 1000000.
Definition timedelta_days (later earlier : Z) : Z :=
  (later - earlier) / microseconds_per_day.

End Py.
Import Py.

#[export] Instance M_ret {S} : MRet (M S) := @ret S.
#[export] Instance M_bind {S} : MBind (M S) := fun A B k m => @bind S A B m k.

(** ** Knowledge items *)

(** A row of the knowledge store or an item of the tool registry. A field is
    [None] when the key is absent from the Python dict. *)
Record knowledge_item : Type := {
  item_id : string;
  item_knowledge_type : option string;
  item_category : option string;
  item_title : string;
  item_content : string;
  item_created_at : option Z;
  item_importance_score : option Z;
  item_access_count : option Z
}.

Definition knowledge_type_of (it : knowledge_item) : string :=
  default "factual"%string (item_knowledge_type it).

(** [days_old] of both scorers. A call reads [datetime.now()] twice in a row,
    for the default of ['created_at'] and for the age; both readings are the
    one instant [now]. A ['created_at'] given as an ISO string is taken as
    already parsed. *)
Definition days_old (now : Z) (it : knowledge_item) : Z :=
  timedelta_days now (default now (item_created_at it)).

Definition recency (now : Z) (it : knowledge_item) : float :=
  max0 (PrimFloat.sub 1 (truediv (days_old now it) 30)).

Definition type_weights : dict float :=
  [ ("procedural"%string, 0.9%float);
    ("technical_discovery"%string, 0.8%float);
    ("experiential"%string, 0.7%float);
    ("contextual"%string, 0.6%float);
    ("factual"%string, 0.5%float);
    ("relational"%string, 0.4%float) ].

(** ** cag_cache_warmer.py: scorer and classifier of the direct-store variant *)

Module CacheWarmingEngineScoring.

Definition strategic_values : dict float :=
  [ ("technical_discovery"%string, 0.9%float);
    ("procedural"%string, 0.8%float);
    ("experiential"%string, 0.7%float);
    ("contextual"%string, 0.6%float);
    ("factual"%string, 0.5%float);
    ("relational"%string, 0.4%float) ].

Definition calculate_cache_priority (now : Z) (it : knowledge_item) : float :=
  let priority_score := 0%float in
  let priority_score := (priority_score + recency now it * 0.3)%float in
  let strategic_value :=
    dict_get_default strategic_values (knowledge_type_of it) 0.5%float in
  let priority_score := (priority_score + strategic_value * 0.25)%float in
  let access_count := default 1 (item_access_count it) in
  let frequency := min1 (truediv access_count 10) in
  let priority_score := (priority_score + frequency * 0.25)%float in
  let type_weight :=
    dict_get_default type_weights (knowledge_type_of it) 0.5%float in
  let priority_score := (priority_score + type_weight * 0.2)%float in
  min1 priority_score.

Definition determine_cache_layer (it : knowledge_item) : string :=
  let knowledge_type := knowledge_type_of it in
  if (String.eqb knowledge_type "procedural"
      || String.eqb knowledge_type "technical_discovery")%bool then "domain"
  else if String.eqb knowledge_type "experiential" then "experience"
  else if String.eqb knowledge_type "contextual" then "session"
  else "dynamic".

End CacheWarmingEngineScoring.

(** ** cag_mcp_integrated.py: scorer and classifier of the tool variant *)

Module CAGCacheWarmerMCPScoring.

Definition calculate_cache_priority (now : Z) (it : knowledge_item) : float :=
  let priority_score := 0%float in
  let importance := truediv (default 50 (item_importance_score it)) 100 in
  let priority_score := (priority_score + importance * 0.4)%float in
  let type_weight :=
    dict_get_default type_weights (knowledge_type_of it) 0.5%float in
  let priority_score := (priority_score + type_weight * 0.3)%float in
  let priority_score := (priority_score + recency now it * 0.3)%float in
  min1 priority_score.

Definition determine_cache_layer (it : knowledge_item) : string :=
  let knowledge_type := knowledge_type_of it in
  let importance := default 50 (item_importance_score it) in
  if 80 <? importance then "strategic"
  else if (String.eqb knowledge_type "procedural"
           || String.eqb knowledge_type "technical_discovery")%bool then "domain"
  else if String.eqb knowledge_type "experiential" then "experience"
  else if String.eqb knowledge_type "contextual" then "session"
  else "dynamic".

End CAGCacheWarmerMCPScoring.

(** ** The warm cache and the warmer object, shared by both variants *)

(** An item prepared for the cache by a loader. *)
Record cache_item : Type := {
  ci_id : string;
  ci_knowledge_type : string;
  ci_category : string;
  ci_title : string;
  ci_content : string;
  ci_created_at : Z;
  cache_priority : float;
  cache_layer : string;
  prediction_confidence : option float
}.

(** A value of the warm cache. [entry_source] is the ['source'] key that only
    the tool variant writes. *)
Record cache_entry : Type := {
  entry_content : string;
  entry_title : string;
  entry_knowledge_type : string;
  priority : float;
  loaded_at : Z;
  entry_source : option string
}.

(** Instrumentation, not in the source: every entry into and every normal
    return from [warm_cache_for_session] is recorded. *)
Inductive warming_event : Type :=
  | WarmingStarted (session_id : string)
  | WarmingCompleted (session_id : string).

#[export] Instance warming_event_eq_dec : EqDecision warming_event.
Proof. solve_decision. Defined.

(** The attributes of a [CacheWarmingEngine] / [CAGCacheWarmerMCP] object.
    [pattern_recognizer] (is one installed?) exists in the direct-store
    variant only. *)
Record warmer : Type := {
  warm_cache : dict cache_entry;
  cache_priority_threshold : float;
  max_cache_items : Z;
  pattern_recognizer : bool;
  warming_log : list warming_event
}.

Definition set_warm_cache (c : dict cache_entry) (wm : warmer) : warmer :=
  {| warm_cache := c;
     cache_priority_threshold := cache_priority_threshold wm;
     max_cache_items := max_cache_items wm;
     pattern_recognizer := pattern_recognizer wm;
     warming_log := warming_log wm |}.

Definition log_event (ev : warming_event) : M warmer unit :=
  modify (fun wm =>
    {| warm_cache := warm_cache wm;
       cache_priority_threshold := cache_priority_threshold wm;
       max_cache_items := max_cache_items wm;
       pattern_recognizer := pattern_recognizer wm;
       warming_log := warming_log wm ++ [ev] |}).

(** [__init__] of both warmers. *)
Definition new_warmer (recognizer : bool) : warmer :=
  {| warm_cache := [];
     cache_priority_threshold := 0.3%float;
     max_cache_items := 100;
     pattern_recognizer := recognizer;
     warming_log := [] |}.

(** [f"{item['cache_layer']}:{item['id']}"]. *)
Definition cache_key (item : cache_item) : string :=
  cache_layer item +:+ ":" +:+ ci_id item.

(** [preload_to_context]; [source] is the provenance tag of the entry. *)
Definition preload_item (source : option string) (now : Z)
    (wm : warmer) (item : cache_item) : warmer :=
  if ge (cache_priority item) (cache_priority_threshold wm) then
    set_warm_cache
      (dict_set (warm_cache wm) (cache_key item)
         {| entry_content := ci_content item;
            entry_title := ci_title item;
            entry_knowledge_type := ci_knowledge_type item;
            priority := cache_priority item;
            loaded_at := now;
            entry_source := source |})
      wm
  else wm.

Definition preload_items (source : option string) (now : Z)
    (knowledge_items : list cache_item) : M warmer unit :=
  modify (fun wm => fold_left (preload_item source now) knowledge_items wm).

(** [user_context]: a dict with the optional keys ['keywords'], ['project']. *)
Record user_context : Type := {
  keywords : option (list string);
  project : option string
}.

(** The [cache_stats] dict returned by [warm_cache_for_session]. *)
Record cache_stats : Type := {
  phases_completed : Z;
  items_loaded : Z;
  cache_size : Z;
  warming_time : float;
  stats_mcp_integrated : option bool
}.

Definition len {A} (l : list A) : Z := Z.of_nat (length l).

(** Sequencing inside [result]. *)
Definition result_bind {A B} (r : result A) (k : A -> result B) : result B :=
  match r with
  | Ok a => k a
  | Raise e => Raise e
  end.

Fixpoint result_map {A B} (f : A -> result B) (l : list A) : result (list B) :=
  match l with
  | [] => Ok []
  | x :: l' =>
      result_bind (f x) (fun y =>
      result_bind (result_map f l') (fun ys => Ok (y :: ys)))
  end.

(** ** cag_cache_warmer.py: [CacheWarmingEngine] *)

Module CacheWarmingEngine.
Include CacheWarmingEngineScoring.

(** The SQL statements the warmer and the engine send to the store. *)
Inductive store_query : Type :=
  | CoreKnowledgeQuery
  | KeywordQuery (context_keywords : list string) (project_name : string)
  | RecentQuery
  | PatternQuery
  | StrategicQuery
  | DomainQuery (domain : string).

(** What the store and the clocks answer during one call: [fetch q] is the
    outcome of connecting, executing [q] and [fetchall()]. *)
Record world : Type := {
  datetime_now : Z;
  t_query_start : float;
  t_warming_start : float;
  t_warming_end : float;
  t_context_start : float;
  t_context_end : float;
  t_response : float;
  fetch : store_query -> result (list knowledge_item);
  session_history_text : string;
  domain_knowledge_text : string;
  experience_text : string;
  strategic_insights_text : string;
  dynamic_content_text : string
}.

(** The [cache_item] dict literal of the four loaders and of
    [warm_domain_cache]; the rows are indexed with [item[...]]. *)
Definition make_cache_item (now : Z) (layer : knowledge_item -> string)
    (confidence : option float) (item : knowledge_item) : result cache_item :=
  result_bind (getitem "knowledge_type" (item_knowledge_type item)) (fun kt =>
  result_bind (getitem "category" (item_category item)) (fun cat =>
  result_bind (getitem "created_at" (item_created_at item)) (fun created =>
  Ok {| ci_id := item_id item;
        ci_knowledge_type := kt;
        ci_category := cat;
        ci_title := item_title item;
        ci_content := item_content item;
        ci_created_at := created;
        cache_priority := calculate_cache_priority now item;
        cache_layer := layer item;
        prediction_confidence := confidence |}))).

Definition load_core_knowledge (w : world) : M warmer (list cache_item) :=
  results ← lift_result (fetch w CoreKnowledgeQuery);
  core_knowledge ← lift_result
    (result_map (make_cache_item (datetime_now w) determine_cache_layer None) results);
  mret (sorted_desc cache_priority core_knowledge).

Definition predict_session_knowledge (w : world) (uc : user_context)
    : M warmer (list cache_item) :=
  let context_keywords := default [] (keywords uc) in
  let project_name := default "KnowledgePersistence-AI"%string (project uc) in
  let query :=
    match context_keywords with
    | [] => RecentQuery
    | _ :: _ => KeywordQuery context_keywords project_name
    end in
  results ← lift_result (fetch w query);
  session_knowledge ← lift_result
    (result_map (make_cache_item (datetime_now w) determine_cache_layer None) results);
  mret (sorted_desc cache_priority session_knowledge).

Definition pattern_predict_knowledge (w : world) (session_id : string)
    : M warmer (list cache_item) :=
  wm ← get;
  if negb (pattern_recognizer wm) then mret []
  else
    results ← lift_result (fetch w PatternQuery);
    lift_result
      (result_map
         (make_cache_item (datetime_now w) (fun _ => "experience"%string)
            (Some 0.7%float))
         results).

Definition load_strategic_insights (w : world) : M warmer (list cache_item) :=
  results ← lift_result (fetch w StrategicQuery);
  lift_result
    (result_map
       (make_cache_item (datetime_now w) (fun _ => "strategic"%string) None)
       results).

Definition preload_to_context (w : world) (knowledge_items : list cache_item)
    : M warmer unit :=
  preload_items None (datetime_now w) knowledge_items.

Definition background_preload (w : world) (knowledge_items : list cache_item)
    : M warmer unit :=
  preload_to_context w knowledge_items.

Definition default_user_context : user_context :=
  {| keywords := Some ["CAG"; "implementation"]%string;
     project := Some "KnowledgePersistence-AI"%string |}.

Definition warm_cache_for_session (w : world) (session_id : string)
    (uc : option user_context) : M warmer cache_stats :=
  let uc := default default_user_context uc in
  _ ← log_event (WarmingStarted session_id);
  let warming_start := t_warming_start w in
  let phases := 0 in
  let loaded := 0 in
  (* Phase 1 *)
  core_knowledge ← load_core_knowledge w;
  _ ← preload_to_context w core_knowledge;
  let phases := phases + 1 in
  let loaded := loaded + len core_knowledge in
  (* Phase 2 *)
  session_knowledge ← predict_session_knowledge w uc;
  _ ← preload_to_context w session_knowledge;
  let phases := phases + 1 in
  let loaded := loaded + len session_knowledge in
  (* Phase 3 *)
  predicted_knowledge ← pattern_predict_knowledge w session_id;
  _ ← background_preload w predicted_knowledge;
  let phases := phases + 1 in
  let loaded := loaded + len predicted_knowledge in
  (* Phase 4 *)
  strategic_knowledge ← load_strategic_insights w;
  _ ← background_preload w strategic_knowledge;
  let phases := phases + 1 in
  let loaded := loaded + len strategic_knowledge in
  wm ← get;
  _ ← log_event (WarmingCompleted session_id);
  mret {| phases_completed := phases;
          items_loaded := loaded;
          cache_size := len (warm_cache wm);
          warming_time := (t_warming_end w - warming_start)%float;
          stats_mcp_integrated := None |}.

(** [get_cached_knowledge(layer, limit)]: [layer = None] is the default;
    each returned pair stands for the dict [{'key': k, **v}]. *)
Definition get_cached_knowledge (layer : option string) (limit : Z)
    (wm : warmer) : list (string * cache_entry) :=
  let filtered_cache :=
    match layer with
    | Some l =>
        if truthy l then
          List.filter (fun kv => startswith (fst kv) (l +:+ ":")) (warm_cache wm)
        else warm_cache wm
    | None => warm_cache wm
    end in
  let sorted_items := sorted_desc (fun kv => priority (snd kv)) filtered_cache in
  slice_to limit sorted_items.

Definition default_limit : Z := 10.

End CacheWarmingEngine.

(** ** The context layers ([ContextLayer] of both variants) *)

Inductive ContextLayer : Type :=
  | SYSTEM | PROJECT | SESSION | DOMAIN | EXPERIENCE | STRATEGIC | DYNAMIC
  | RESPONSE.

Definition value (layer : ContextLayer) : string :=
  match layer with
  | SYSTEM => "system"
  | PROJECT => "project"
  | SESSION => "session"
  | DOMAIN => "domain"
  | EXPERIENCE => "experience"
  | STRATEGIC => "strategic"
  | DYNAMIC => "dynamic"
  | RESPONSE => "response"
  end.

(** [for layer in ContextLayer]: the members in definition order. *)
Definition all_layers : list ContextLayer :=
  [SYSTEM; PROJECT; SESSION; DOMAIN; EXPERIENCE; STRATEGIC; DYNAMIC; RESPONSE].

(** The code shared by the two context managers, with the header line of a
    layer as a parameter. *)
Section ContextManager.
Variable header : string -> string.

Definition count_tokens (text : string) : float :=
  (float_of_Z (count_words false text) * 1.3)%float.

Definition calculate_remaining_tokens (max_context_tokens : Z)
    (context : dict string) : float :=
  let used_tokens :=
    fold_left
      (fun used kv =>
         if existsb (String.eqb (fst kv)) (map value all_layers)
         then (used + count_tokens (snd kv))%float
         else used)
      context 0%float in
  max0 (float_of_Z max_context_tokens - used_tokens)%float.

(** [load_dynamic_content]: [text] is what the fetch and its formatting (or
    its [except] branch) produce when there is room. *)
Definition load_dynamic_content (text : string) (available_tokens : float)
    : string :=
  if PrimFloat.ltb available_tokens 1000 then "Limited space for dynamic content"
  else text.

Definition compile_context (context : dict string) : string :=
  let compiled :=
    fold_left
      (fun compiled layer =>
         let layer_name := value layer in
         match dict_get context layer_name with
         | Some body =>
             if truthy body
             then compiled ++ [header layer_name; body; ""%string]
             else compiled
         | None => compiled
         end)
      all_layers [] in
  join newline compiled.
End ContextManager.

(** ** cag_context_manager.py: [CAGContextManager] *)

Module CAGContextManager.
Import CacheWarmingEngine.

Definition header (layer_name : string) : string :=
  "=== " +:+ upper layer_name +:+ " CONTEXT ===".

Definition count_tokens (text : string) : float := count_tokens text.
Definition compile_context (context : dict string) : string :=
  compile_context header context.

Definition load_system_instructions : string :=
  "CAG-Enabled AI Assistant with KnowledgePersistence-AI integration." +:+ newline +:+
  "Revolutionary Cache-Augmented Generation system providing instant knowledge access." +:+ newline +:+
  "Strategic partnership capabilities with continuous learning and pattern recognition.".

Definition load_project_context : string :=
  "Project: KnowledgePersistence-AI" +:+ newline +:+
  "Status: Phase 5 - CAG Implementation Active" +:+ newline +:+
  "Architecture: PostgreSQL + pgvector, 336+ knowledge items" +:+ newline +:+
  "Framework: Complete session storage, redirection analysis operational" +:+ newline +:+
  "Current Focus: Cache-Augmented Generation implementation".

(** [load_context_for_query]. The loaders of the session, domain, experience,
    strategic and dynamic layers catch every exception and return a string:
    their answers are fields of the world. *)
Definition load_context_for_query (max_context_tokens : Z) (w : world)
    (query session_id : string) : string :=
  let context : dict string := [] in
  let context := dict_set context (value SYSTEM) load_system_instructions in
  let context := dict_set context (value PROJECT) load_project_context in
  let context := dict_set context (value SESSION) (session_history_text w) in
  let context := dict_set context (value DOMAIN) (domain_knowledge_text w) in
  let context := dict_set context (value EXPERIENCE) (experience_text w) in
  let context := dict_set context (value STRATEGIC) (strategic_insights_text w) in
  let remaining_tokens := calculate_remaining_tokens max_context_tokens context in
  let context :=
    dict_set context (value DYNAMIC)
      (load_dynamic_content (dynamic_content_text w) remaining_tokens) in
  compile_context context.

End CAGContextManager.

(** ** cag_mcp_integrated.py: [CAGCacheWarmerMCP] and [CAGContextManagerMCP] *)

Module CAGCacheWarmerMCP.
Include CAGCacheWarmerMCPScoring.

(** What the knowledge client ([MCPKnowledgeClient] or a subclass) and the
    clocks answer during one call. The loaders of the context manager that
    catch every exception answer with a string; [load_project_context] does
    not catch, its answer may be an exception. *)
Record world : Type := {
  datetime_now : Z;
  t_query_start : float;
  t_warming_start : float;
  t_warming_end : float;
  t_context_start : float;
  t_context_end : float;
  t_response : float;
  get_contextual_knowledge : string -> Z -> result (list knowledge_item);
  search_knowledge :
    string -> option (list string) -> Z -> result (list knowledge_item);
  store_knowledge : string -> string -> string -> Z -> result string;
  project_context_text : result string;
  session_history_text : string;
  domain_knowledge_text : string;
  experience_text : string;
  strategic_insights_text : string;
  dynamic_content_text : string
}.

(** The [cache_item] dict literal of the three loaders: ['category'] is read
    with [get], the other keys with [item[...]]. *)
Definition make_cache_item (now : Z) (default_category : string)
    (layer : knowledge_item -> string) (item : knowledge_item)
    : result cache_item :=
  result_bind (getitem "knowledge_type" (item_knowledge_type item)) (fun kt =>
  result_bind (getitem "created_at" (item_created_at item)) (fun created =>
  Ok {| ci_id := item_id item;
        ci_knowledge_type := kt;
        ci_category := default default_category (item_category item);
        ci_title := item_title item;
        ci_content := item_content item;
        ci_created_at := created;
        cache_priority := calculate_cache_priority now item;
        cache_layer := layer item;
        prediction_confidence := None |})).

Definition load_core_knowledge (w : world) : M warmer (list cache_item) :=
  results ← lift_result
    (get_contextual_knowledge w
       "CAG core knowledge warming - essential system knowledge" 20);
  core_knowledge ← lift_result
    (result_map (make_cache_item (datetime_now w) "core" determine_cache_layer)
       results);
  mret (sorted_desc cache_priority core_knowledge).

Definition predict_session_knowledge (w : world) (uc : user_context)
    : M warmer (list cache_item) :=
  let keywords := default ["CAG"; "implementation"]%string (keywords uc) in
  let project := default "KnowledgePersistence-AI"%string (project uc) in
  let search_query := (project +:+ " ") +:+ join " " keywords in
  results ← lift_result (search_knowledge w search_query None 15);
  session_knowledge ← lift_result
    (result_map (make_cache_item (datetime_now w) "session" determine_cache_layer)
       results);
  mret (sorted_desc cache_priority session_knowledge).

Definition load_strategic_insights (w : world) : M warmer (list cache_item) :=
  results ← lift_result
    (search_knowledge w "strategic insights architecture implementation"
       (Some ["procedural"; "technical_discovery"]%string) 8);
  let strategic_items :=
    List.filter (fun item => 60 <? default 0 (item_importance_score item))
      results in
  lift_result
    (result_map
       (make_cache_item (datetime_now w) "strategic" (fun _ => "strategic"%string))
       strategic_items).

Definition preload_to_context (w : world) (knowledge_items : list cache_item)
    : M warmer unit :=
  preload_items (Some "mcp_integrated"%string) (datetime_now w) knowledge_items.

Definition default_user_context : user_context :=
  {| keywords := Some ["CAG"; "MCP"; "integration"]%string;
     project := Some "KnowledgePersistence-AI"%string |}.

Definition warm_cache_for_session (w : world) (session_id : string)
    (uc : option user_context) : M warmer cache_stats :=
  let uc := default default_user_context uc in
  _ ← log_event (WarmingStarted session_id);
  let warming_start := t_warming_start w in
  let phases := 0 in
  let loaded := 0 in
  (* Phase 1 *)
  core_knowledge ← load_core_knowledge w;
  _ ← preload_to_context w core_knowledge;
  let phases := phases + 1 in
  let loaded := loaded + len core_knowledge in
  (* Phase 2 *)
  session_knowledge ← predict_session_knowledge w uc;
  _ ← preload_to_context w session_knowledge;
  let phases := phases + 1 in
  let loaded := loaded + len session_knowledge in
  (* Phase 3 *)
  strategic_knowledge ← load_strategic_insights w;
  _ ← preload_to_context w strategic_knowledge;
  let phases := phases + 1 in
  let loaded := loaded + len strategic_knowledge in
  wm ← get;
  _ ← log_event (WarmingCompleted session_id);
  mret {| phases_completed := phases;
          items_loaded := loaded;
          cache_size := len (warm_cache wm);
          warming_time := (t_warming_end w - warming_start)%float;
          stats_mcp_integrated := Some true |}.

End CAGCacheWarmerMCP.

Module CAGContextManagerMCP.
Import CAGCacheWarmerMCP.

Definition header (layer_name : string) : string :=
  "=== " +:+ upper layer_name +:+ " CONTEXT (MCP-INTEGRATED) ===".

Definition count_tokens (text : string) : float := count_tokens text.
Definition compile_context (context : dict string) : string :=
  compile_context header context.

Definition load_system_instructions : string :=
  "CAG-MCP Integrated AI Assistant with KnowledgePersistence-AI." +:+ newline +:+
  "Revolutionary Cache-Augmented Generation using standardized MCP framework." +:+ newline +:+
  "Strategic partnership capabilities with unified knowledge access.".

Definition load_context_for_query (max_context_tokens : Z) (w : world)
    (query session_id : string) : result string :=
  let context : dict string := [] in
  let context := dict_set context (value SYSTEM) load_system_instructions in
  result_bind (project_context_text w) (fun project_context =>
  let context := dict_set context (value PROJECT) project_context in
  let context := dict_set context (value SESSION) (session_history_text w) in
  let context := dict_set context (value DOMAIN) (domain_knowledge_text w) in
  let context := dict_set context (value EXPERIENCE) (experience_text w) in
  let context := dict_set context (value STRATEGIC) (strategic_insights_text w) in
  let remaining_tokens := calculate_remaining_tokens max_context_tokens context in
  let context :=
    dict_set context (value DYNAMIC)
      (load_dynamic_content (dynamic_content_text w) remaining_tokens) in
  Ok (compile_context context)).

End CAGContextManagerMCP.

(** ** The engine state, shared by both variants *)

(** A value of the session warming registry. *)
Record warming_record : Type := {
  warmed_at : Z;
  record_cache_stats : cache_stats;
  record_mcp_integrated : option bool
}.

(** [performance_metrics]; ['mcp_calls'] exists in the tool variant only. *)
Record metrics : Type := {
  cache_hits : Z;
  cache_misses : Z;
  average_response_time : float;
  total_queries : Z;
  mcp_calls : option Z
}.

Record engine : Type := {
  max_tokens : Z;
  cache_warmer : warmer;
  session_cache_warmed : gmap string warming_record;
  performance_metrics : metrics
}.

Definition set_cache_warmer (wm : warmer) (e : engine) : engine :=
  {| max_tokens := max_tokens e;
     cache_warmer := wm;
     session_cache_warmed := session_cache_warmed e;
     performance_metrics := performance_metrics e |}.

Definition set_session_cache_warmed (reg : gmap string warming_record)
    (e : engine) : engine :=
  {| max_tokens := max_tokens e;
     cache_warmer := cache_warmer e;
     session_cache_warmed := reg;
     performance_metrics := performance_metrics e |}.

Definition set_performance_metrics (m : metrics) (e : engine) : engine :=
  {| max_tokens := max_tokens e;
     cache_warmer := cache_warmer e;
     session_cache_warmed := session_cache_warmed e;
     performance_metrics := m |}.

(** [session_id in self.session_cache_warmed]. *)
Definition is_warmed (session_id : string) (e : engine) : bool :=
  bool_decide (is_Some (session_cache_warmed e !! session_id)).

(** The ['performance'] dict of the envelope. *)
Record performance : Type := {
  context_load_time : float;
  total_processing_time : float;
  cache_hit : bool;
  perf_mcp_integrated : option bool
}.

(** The envelope returned by [process_query]. [context_layers] is present in
    the direct-store variant, [mcp_integration] in the tool variant. *)
Record response : Type := {
  resp_query : string;
  resp_session_id : string;
  context_loaded : bool;
  context_size_tokens : float;
  cached_knowledge_items : Z;
  resp_performance : performance;
  context_layers : option (dict bool);
  mcp_integration : option (dict bool);
  full_context : string
}.

(** [_update_performance_metrics] of both engines; [calls_per_query] is the
    estimate the tool variant adds to ['mcp_calls']. *)
Definition update_metrics (calls_per_query : Z) (p : performance) (m : metrics)
    : metrics :=
  let total := total_queries m + 1 in
  let calls := (fun c => c + calls_per_query) <$> mcp_calls m in
  let hits := if cache_hit p then cache_hits m + 1 else cache_hits m in
  let misses := if cache_hit p then cache_misses m else cache_misses m + 1 in
  let current_avg := average_response_time m in
  let new_time := total_processing_time p in
  {| cache_hits := hits;
     cache_misses := misses;
     average_response_time :=
       ((current_avg * float_of_Z (total - 1) + new_time) / float_of_Z total)%float;
     total_queries := total;
     mcp_calls := calls |}.

(** ** cag_engine.py: [CAGEngine] *)

Module CAGEngine.
Import CacheWarmingEngine.

(** [__init__]: the warmer is built without a pattern recognizer. *)
Definition new (max_tokens : Z) : engine :=
  {| max_tokens := max_tokens;
     cache_warmer := new_warmer false;
     session_cache_warmed := ∅;
     performance_metrics :=
       {| cache_hits := 0; cache_misses := 0; average_response_time := 0;
          total_queries := 0; mcp_calls := None |} |}.

Definition default_max_tokens : Z := 128000.

Definition default_user_context : user_context :=
  {| keywords := Some ["CAG"; "implementation"; "knowledge"]%string;
     project := Some "KnowledgePersistence-AI"%string |}.

Definition ensure_cache_warmed (w : world) (session_id : string)
    (uc : option user_context) : M engine bool :=
  e ← get;
  if is_warmed session_id e then mret true
  else
    let uc := default default_user_context uc in
    cache_stats ← zoom cache_warmer set_cache_warmer
                    (warm_cache_for_session w session_id (Some uc));
    _ ← modify (fun e =>
          set_session_cache_warmed
            (<[session_id := {| warmed_at := datetime_now w;
                               record_cache_stats := cache_stats;
                               record_mcp_integrated := None |}]>
               (session_cache_warmed e)) e);
    mret true.

Definition _analyze_context_layers (context : string) : dict bool :=
  fold_left
    (fun layers layer =>
       let layer_marker := "=== " +:+ upper (value layer) +:+ " CONTEXT ===" in
       dict_set layers (value layer) (contains context layer_marker))
    all_layers [].

Definition _update_performance_metrics (p : performance) : M engine unit :=
  modify (fun e =>
    set_performance_metrics (update_metrics 0 p (performance_metrics e)) e).

Definition process_query (w : world) (query session_id : string)
    (uc : option user_context) : M engine response :=
  let query_start := t_query_start w in
  _ ← ensure_cache_warmed w session_id uc;
  let context_start := t_context_start w in
  e ← get;
  let context :=
    CAGContextManager.load_context_for_query (max_tokens e) w query session_id in
  let context_time := (t_context_end w - context_start)%float in
  let resp :=
    {| resp_query := query;
       resp_session_id := session_id;
       context_loaded := true;
       context_size_tokens := CAGContextManager.count_tokens context;
       cached_knowledge_items := len (warm_cache (cache_warmer e));
       resp_performance :=
         {| context_load_time := context_time;
            total_processing_time := (t_response w - query_start)%float;
            cache_hit := is_warmed session_id e;
            perf_mcp_integrated := None |};
       context_layers := Some (_analyze_context_layers context);
       mcp_integration := None;
       full_context := context |} in
  _ ← _update_performance_metrics (resp_performance resp);
  mret resp.

(** [warm_domain_cache]: the whole body is inside [try]; the [except] branch
    returns the dict with ['success'] false. The result is [Some
    items_loaded] on success. *)
Definition warm_domain_cache (w : world) (domain : string)
    : M engine (option Z) :=
  try_except
    (results ← lift_result (fetch w (DomainQuery domain));
     domain_knowledge ← lift_result
       (result_map
          (make_cache_item (datetime_now w) (fun _ => "domain"%string) None)
          results);
     _ ← zoom cache_warmer set_cache_warmer
           (preload_to_context w domain_knowledge);
     mret (Some (len domain_knowledge)))
    (fun _ => mret None).

End CAGEngine.

(** ** cag_mcp_integrated.py: [CAGEngineMCP] *)

Module CAGEngineMCP.
Import CAGCacheWarmerMCP.

Definition new (max_tokens : Z) : engine :=
  {| max_tokens := max_tokens;
     cache_warmer := new_warmer false;
     session_cache_warmed := ∅;
     performance_metrics :=
       {| cache_hits := 0; cache_misses := 0; average_response_time := 0;
          total_queries := 0; mcp_calls := Some 0 |} |}.

Definition default_max_tokens : Z := 128000.

Definition default_user_context : user_context :=
  {| keywords := Some ["CAG"; "MCP"; "integration"]%string;
     project := Some "KnowledgePersistence-AI"%string |}.

Definition ensure_cache_warmed (w : world) (session_id : string)
    (uc : option user_context) : M engine bool :=
  e ← get;
  if is_warmed session_id e then mret true
  else
    let uc := default default_user_context uc in
    cache_stats ← zoom cache_warmer set_cache_warmer
                    (warm_cache_for_session w session_id (Some uc));
    _ ← modify (fun e =>
          set_session_cache_warmed
            (<[session_id := {| warmed_at := datetime_now w;
                               record_cache_stats := cache_stats;
                               record_mcp_integrated := Some true |}]>
               (session_cache_warmed e)) e);
    mret true.

Definition _update_performance_metrics (p : performance) : M engine unit :=
  modify (fun e =>
    set_performance_metrics (update_metrics 5 p (performance_metrics e)) e).

(** [_store_interaction_via_mcp]: the write-back, inside [try]; the content
    of the stored item (the formatted timings) is left out of the request. *)
Definition _store_interaction_via_mcp (w : world) (query : string)
    : M engine unit :=
  try_except
    (_ ← lift_result
           (store_knowledge w "contextual"
              ("CAG-MCP Query: " +:+ String.substring 0 50 query +:+ "...")
              "cag_interaction" 30);
     mret tt)
    (fun _ => mret tt).

Definition process_query (w : world) (query session_id : string)
    (uc : option user_context) : M engine response :=
  let query_start := t_query_start w in
  _ ← ensure_cache_warmed w session_id uc;
  let context_start := t_context_start w in
  e ← get;
  context ← lift_result
    (CAGContextManagerMCP.load_context_for_query (max_tokens e) w query session_id);
  let context_time := (t_context_end w - context_start)%float in
  let resp :=
    {| resp_query := query;
       resp_session_id := session_id;
       context_loaded := true;
       context_size_tokens := CAGContextManagerMCP.count_tokens context;
       cached_knowledge_items := len (warm_cache (cache_warmer e));
       resp_performance :=
         {| context_load_time := context_time;
            total_processing_time := (t_response w - query_start)%float;
            cache_hit := is_warmed session_id e;
            perf_mcp_integrated := Some true |};
       context_layers := None;
       mcp_integration :=
         Some [ ("framework_used"%string, true);
                ("direct_db_access"%string, false);
                ("standardized_access"%string, true) ];
       full_context := context |} in
  _ ← _update_performance_metrics (resp_performance resp);
  _ ← _store_interaction_via_mcp w query;
  mret resp.

End CAGEngineMCP.

(** ** Sequences of calls on an engine *)

(** The envelope of a call that returned one. *)
Definition envelope_of {A} (r : result A) : list A :=
  match r with
  | Ok a => [a]
  | Raise _ => []
  end.

Module DirectRun.
Import CacheWarmingEngine.

Inductive call : Type :=
  | ProcessQuery (w : world) (query session_id : string) (uc : option user_context)
  | EnsureCacheWarmed (w : world) (session_id : string) (uc : option user_context)
  | WarmDomainCache (w : world) (domain : string).

(** One call: the envelope, when [process_query] returned one, and the
    engine after the call. *)
Definition exec (c : call) (e : engine) : list response * engine :=
  match c with
  | ProcessQuery w query session_id uc =>
      let '(r, e') := CAGEngine.process_query w query session_id uc e in
      (envelope_of r, e')
  | EnsureCacheWarmed w session_id uc =>
      ([], snd (CAGEngine.ensure_cache_warmed w session_id uc e))
  | WarmDomainCache w domain =>
      ([], snd (CAGEngine.warm_domain_cache w domain e))
  end.

(** The envelopes returned so far, oldest first, and the engine. *)
Fixpoint run (calls : list call) (e : engine) : list response * engine :=
  match calls with
  | [] => ([], e)
  | c :: calls' =>
      let '(rs, e') := exec c e in
      let '(rs', e'') := run calls' e' in
      (rs ++ rs', e'')
  end.

End DirectRun.

Module McpRun.
Import CAGCacheWarmerMCP.

Inductive call : Type :=
  | ProcessQuery (w : world) (query session_id : string) (uc : option user_context)
  | EnsureCacheWarmed (w : world) (session_id : string) (uc : option user_context).

Definition exec (c : call) (e : engine) : list response * engine :=
  match c with
  | ProcessQuery w query session_id uc =>
      let '(r, e') := CAGEngineMCP.process_query w query session_id uc e in
      (envelope_of r, e')
  | EnsureCacheWarmed w session_id uc =>
      ([], snd (CAGEngineMCP.ensure_cache_warmed w session_id uc e))
  end.

Fixpoint run (calls : list call) (e : engine) : list response * engine :=
  match calls with
  | [] => ([], e)
  | c :: calls' =>
      let '(rs, e') := exec c e in
      let '(rs', e'') := run calls' e' in
      (rs ++ rs', e'')
  end.

End McpRun.

(** ** The compiled-context format, as the specification words it *)

Definition layer_body (context : dict string) (layer : ContextLayer) : string :=
  dict_get_default context (value layer) "".

(** The layers a compilation emits: the non-empty ones, in canonical order. *)
Definition emitted_layers (context : dict string) : list ContextLayer :=
  List.filter (fun layer => truthy (layer_body context layer)) all_layers.

(** The header line, then the body; the separator that follows in
    [compiled_format] makes the blank line. *)
Definition layer_block (header : string -> string) (context : dict string)
    (layer : ContextLayer) : string :=
  header (value layer) +:+ newline +:+ layer_body context layer +:+ newline.

Definition compiled_format (header : string -> string) (context : dict string)
    : string :=
  join newline (map (layer_block header context) (emitted_layers context)).

(** The arithmetic mean of a list of durations. *)
Definition arithmetic_mean (times : list Q) : Q :=
  match times with
  | [] => 0
  | _ :: _ => (fold_right Qplus 0%Q times / inject_Z (len times))%Q
  end.

(** ** Sample inputs *)

(** The item of the layer-classification scenario, created at the instant
    [now]; the fields the scenario leaves open are parameters. *)
Definition scenario_item (id title content : string) (category : option string)
    (now : Z) : knowledge_item :=
  {| item_id := id;
     item_knowledge_type := Some "procedural"%string;
     item_category := category;
     item_title := title;
     item_content := content;
     item_created_at := Some now;
     item_importance_score := Some 40;
     item_access_count := Some 5 |}.

Definition fifteen_days : Z := 15 * microseconds_per_day.
Definition one_hour : Z := 3600 * 1000000.

Definition system_only_context : dict string := [("system"%string, "x"%string)].

Definition domain_entry : cache_entry :=
  {| entry_content := "c"; entry_title := "t";
     entry_knowledge_type := "procedural"; priority := 0.5%float;
     loaded_at := 0; entry_source := None |}.

Definition domain_item (id : string) : cache_item :=
  {| ci_id := id; ci_knowledge_type := "procedural"; ci_category := "general";
     ci_title := "t"; ci_content := "c"; ci_created_at := 0;
     cache_priority := 0.5%float; cache_layer := "domain";
     prediction_confidence := None |}.

(** A warmer whose cache holds eleven entries of the layer 'domain'. *)
Definition crowded_warmer : warmer :=
  snd (preload_items None 0
         (map domain_item ["0"; "1"; "2"; "3"; "4"; "5"; "6"; "7"; "8"; "9"; "10"]%string)
         (new_warmer false)).

(** A store with no rows, and clocks that advance by one second. *)
Definition empty_store_world : CacheWarmingEngine.world :=
  {| CacheWarmingEngine.datetime_now := 0;
     CacheWarmingEngine.t_query_start := 0;
     CacheWarmingEngine.t_warming_start := 0;
     CacheWarmingEngine.t_warming_end := 1;
     CacheWarmingEngine.t_context_start := 1;
     CacheWarmingEngine.t_context_end := 2;
     CacheWarmingEngine.t_response := 2;
     CacheWarmingEngine.fetch := fun _ => Ok [];
     CacheWarmingEngine.session_history_text := "No session history found";
     CacheWarmingEngine.domain_knowledge_text := "No domain knowledge found";
     CacheWarmingEngine.experience_text := "No experience memory available";
     CacheWarmingEngine.strategic_insights_text := "No strategic insights available";
     CacheWarmingEngine.dynamic_content_text := "" |}.

(** The empty store, with queries that take a tenth of a second. *)
Definition tenth_of_a_second_world : CacheWarmingEngine.world :=
  {| CacheWarmingEngine.datetime_now := 0;
     CacheWarmingEngine.t_query_start := 0;
     CacheWarmingEngine.t_warming_start := 0;
     CacheWarmingEngine.t_warming_end := 0;
     CacheWarmingEngine.t_context_start := 0;
     CacheWarmingEngine.t_context_end := 0.1;
     CacheWarmingEngine.t_response := 0.1;
     CacheWarmingEngine.fetch := fun _ => Ok [];
     CacheWarmingEngine.session_history_text := "No session history found";
     CacheWarmingEngine.domain_knowledge_text := "No domain knowledge found";
     CacheWarmingEngine.experience_text := "No experience memory available";
     CacheWarmingEngine.strategic_insights_text := "No strategic insights available";
     CacheWarmingEngine.dynamic_content_text := "" |}.

(** A store that answers every statement with the scenario item. *)
Definition one_row_world : CacheWarmingEngine.world :=
  {| CacheWarmingEngine.datetime_now := 0;
     CacheWarmingEngine.t_query_start := 0;
     CacheWarmingEngine.t_warming_start := 0;
     CacheWarmingEngine.t_warming_end := 1;
     CacheWarmingEngine.t_context_start := 1;
     CacheWarmingEngine.t_context_end := 2;
     CacheWarmingEngine.t_response := 2;
     CacheWarmingEngine.fetch :=
       fun _ => Ok [scenario_item "k1" "t" "c" (Some "general"%string) 0];
     CacheWarmingEngine.session_history_text := "No session history found";
     CacheWarmingEngine.domain_knowledge_text := "[procedural] t: c...";
     CacheWarmingEngine.experience_text := "No experience memory available";
     CacheWarmingEngine.strategic_insights_text := "[procedural] t: c...";
     CacheWarmingEngine.dynamic_content_text := "[procedural] t: c..." |}.

(** The same store, except that the statement of Phase 1 fails. *)
Definition failing_core_world : CacheWarmingEngine.world :=
  {| CacheWarmingEngine.datetime_now := 0;
     CacheWarmingEngine.t_query_start := 0;
     CacheWarmingEngine.t_warming_start := 0;
     CacheWarmingEngine.t_warming_end := 1;
     CacheWarmingEngine.t_context_start := 1;
     CacheWarmingEngine.t_context_end := 2;
     CacheWarmingEngine.t_response := 2;
     CacheWarmingEngine.fetch :=
       fun q =>
         match q with
         | CacheWarmingEngine.CoreKnowledgeQuery =>
             Raise (ClientError "connection refused")
         | _ => Ok [scenario_item "k1" "t" "c" (Some "general"%string) 0]
         end;
     CacheWarmingEngine.session_history_text := "Session history error: connection refused";
     CacheWarmingEngine.domain_knowledge_text := "[procedural] t: c...";
     CacheWarmingEngine.experience_text := "No experience memory available";
     CacheWarmingEngine.strategic_insights_text := "[procedural] t: c...";
     CacheWarmingEngine.dynamic_content_text := "[procedural] t: c..." |}.

(** A knowledge client with nothing to return. *)
Definition empty_client_world : CAGCacheWarmerMCP.world :=
  {| CAGCacheWarmerMCP.datetime_now := 0;
     CAGCacheWarmerMCP.t_query_start := 0;
     CAGCacheWarmerMCP.t_warming_start := 0;
     CAGCacheWarmerMCP.t_warming_end := 1;
     CAGCacheWarmerMCP.t_context_start := 1;
     CAGCacheWarmerMCP.t_context_end := 2;
     CAGCacheWarmerMCP.t_response := 2;
     CAGCacheWarmerMCP.get_contextual_knowledge := fun _ _ => Ok [];
     CAGCacheWarmerMCP.search_knowledge := fun _ _ _ => Ok [];
     CAGCacheWarmerMCP.store_knowledge := fun _ _ _ _ => Ok "stored-1"%string;
     CAGCacheWarmerMCP.project_context_text := Ok "Project: KnowledgePersistence-AI"%string;
     CAGCacheWarmerMCP.session_history_text := "New session - no previous history";
     CAGCacheWarmerMCP.domain_knowledge_text := "No domain knowledge found";
     CAGCacheWarmerMCP.experience_text := "No experience memory available";
     CAGCacheWarmerMCP.strategic_insights_text := "No strategic insights available";
     CAGCacheWarmerMCP.dynamic_content_text := "" |}.

(** A knowledge client whose contextual lookup (Phase 1) fails while its
    search returns the scenario item. *)
Definition failing_core_client_world : CAGCacheWarmerMCP.world :=
  {| CAGCacheWarmerMCP.datetime_now := 0;
     CAGCacheWarmerMCP.t_query_start := 0;
     CAGCacheWarmerMCP.t_warming_start := 0;
     CAGCacheWarmerMCP.t_warming_end := 1;
     CAGCacheWarmerMCP.t_context_start := 1;
     CAGCacheWarmerMCP.t_context_end := 2;
     CAGCacheWarmerMCP.t_response := 2;
     CAGCacheWarmerMCP.get_contextual_knowledge :=
       fun _ _ => Raise (ClientError "tool unavailable");
     CAGCacheWarmerMCP.search_knowledge :=
       fun _ _ _ => Ok [scenario_item "k1" "t" "c" (Some "general"%string) 0];
     CAGCacheWarmerMCP.store_knowledge := fun _ _ _ _ => Ok "stored-1"%string;
     CAGCacheWarmerMCP.project_context_text := Ok "Project: KnowledgePersistence-AI"%string;
     CAGCacheWarmerMCP.session_history_text := "New session - no previous history";
     CAGCacheWarmerMCP.domain_knowledge_text := "[procedural] t: c...";
     CAGCacheWarmerMCP.experience_text := "No experience memory available";
     CAGCacheWarmerMCP.strategic_insights_text := "No strategic insights available";
     CAGCacheWarmerMCP.dynamic_content_text := "[procedural] t: c..." |}.

(** The cache entry the direct-store warmer makes of the scenario item. *)
Definition scenario_entry : cache_entry :=
  {| entry_content := "c"; entry_title := "t";
     entry_knowledge_type := "procedural"; priority := 0.805%float;
     loaded_at := 0; entry_source := None |}.

(** ** Predicates used in the proofs *)

(** What one iteration of the loop of [compile_context] appends. *)
Definition loop_appended (header : string -> string) (context : dict string)
    (layer : ContextLayer) : list string :=
  match dict_get context (value layer) with
  | Some body =>
      if truthy body then [header (value layer); body; ""%string] else []
  | None => []
  end.

(** [m] keeps [P], whether it returns or raises. *)
Definition preserves {S A} (P : S -> Prop) (m : M S A) : Prop :=
  forall s, P s -> P (snd (m s)).

(** The threshold is the constructor's, and every cached entry passed it. *)
Definition gate_holds (wm : warmer) : Prop :=
  cache_priority_threshold wm = 0.3%float /\
  Forall (fun kv => ge (priority (snd kv)) 0.3%float = true) (warm_cache wm).

Definition engine_gate (e : engine) : Prop := gate_holds (cache_warmer e).

(** The durations reported by a list of envelopes. *)
Definition processing_times (resps : list response) : list float :=
  map (fun r => total_processing_time (resp_performance r)) resps.

Definition total_time (times : list Q) : Q := fold_right Qplus 0%Q times.

(** The update [(avg * (n - 1) + new) / n] of [_update_performance_metrics],
    applied in binary64 to a list of durations in order; [n] queries were
    counted before, with the average [avg]. *)
Fixpoint rolling_from (n : Z) (avg : float) (times : list float) : float :=
  match times with
  | [] => avg
  | t :: times' =>
      rolling_from (n + 1) ((avg * float_of_Z n + t) / float_of_Z (n + 1))%float
        times'
  end.

Definition rolling_average (times : list float) : float :=
  rolling_from 0 0%float times.

(** The same update in exact arithmetic. *)
Fixpoint exact_rolling_from (n : Z) (avg : Q) (times : list Q) : Q :=
  match times with
  | [] => avg
  | t :: times' =>
      exact_rolling_from (n + 1) ((avg * inject_Z n + t) / inject_Z (n + 1))%Q
        times'
  end.

Definition exact_rolling_average (times : list Q) : Q :=
  exact_rolling_from 0 0%Q times.

(** The rational a finite binary64 number stands for (0 for the others). *)
Definition Q_of_float (x : float) : Q :=
  match Prim2SF x with
  | S754_finite s m e =>
      let v := (inject_Z (Z.pos m) * Qpower 2 e)%Q in
      if s then Qopp v else v
  | _ => 0%Q
  end.

Definition keeps_metrics (m0 : metrics) (e : engine) : Prop :=
  performance_metrics e = m0.

(** The counters add up and the average is the rolling average of
    [resps]. *)
Definition metrics_ok (resps : list response) (m : metrics) : Prop :=
  cache_hits m + cache_misses m = total_queries m /\
  total_queries m = len resps /\
  average_response_time m = rolling_average (processing_times resps).

(** How often [warm_cache_for_session] was entered, and how often it
    returned, for a session. *)
Definition started_warmings (session_id : string) (e : engine) : nat :=
  count_occ warming_event_eq_dec (warming_log (cache_warmer e))
    (WarmingStarted session_id).

Definition completed_warmings (session_id : string) (e : engine) : nat :=
  count_occ warming_event_eq_dec (warming_log (cache_warmer e))
    (WarmingCompleted session_id).

(** A completed warming is a recorded one, and there is at most one. *)
Definition registry_tracks_log (e : engine) : Prop :=
  forall session_id,
    (completed_warmings session_id e <= 1)%nat /\
    (is_warmed session_id e = false -> completed_warmings session_id e = 0%nat).

Definition log_is (L : list warming_event) (wm : warmer) : Prop :=
  warming_log wm = L.

(** On an entry log [L], [m] adds [done] when it returns and nothing when it
    raises. *)
Definition log_grows {A} (L done : list warming_event) (m : M warmer A) : Prop :=
  forall wm, log_is L wm ->
    match m wm with
    | (Ok _, wm') => log_is (L ++ done) wm'
    | (Raise _, wm') => log_is L wm'
    end.

(** The warmer and the registry are those of [e0]. *)
Definition same_warming_state (e0 e : engine) : Prop :=
  cache_warmer e = cache_warmer e0 /\
  session_cache_warmed e = session_cache_warmed e0.

(** ** Further definitions: items with one field replaced *)

Definition with_knowledge_type (knowledge_type : option string)
    (it : knowledge_item) : knowledge_item :=
  {| item_id := item_id it;
     item_knowledge_type := knowledge_type;
     item_category := item_category it;
     item_title := item_title it;
     item_content := item_content it;
     item_created_at := item_created_at it;
     item_importance_score := item_importance_score it;
     item_access_count := item_access_count it |}.

Definition with_created_at (created_at : option Z) (it : knowledge_item)
    : knowledge_item :=
  {| item_id := item_id it;
     item_knowledge_type := item_knowledge_type it;
     item_category := item_category it;
     item_title := item_title it;
     item_content := item_content it;
     item_created_at := created_at;
     item_importance_score := item_importance_score it;
     item_access_count := item_access_count it |}.

(** An item of the type "technical", the value of the enumeration member
    [KnowledgeType.TECHNICAL_DISCOVERY]. *)
Definition technical_item : knowledge_item :=
  {| item_id := "k"; item_knowledge_type := Some "technical"%string;
     item_category := None; item_title := "t"; item_content := "c";
     item_created_at := None; item_importance_score := None;
     item_access_count := None |}.

(** ** Further definitions: the contents of the cache *)

(** The entry [preload_to_context] writes for an item. *)
Definition entry_of (source : option string) (now : Z) (item : cache_item)
    : cache_entry :=
  {| entry_content := ci_content item;
     entry_title := ci_title item;
     entry_knowledge_type := ci_knowledge_type item;
     priority := cache_priority item;
     loaded_at := now;
     entry_source := source |}.

(** The text has no colon. *)
Fixpoint colon_free (s : string) : bool :=
  match s with
  | EmptyString => true
  | String c rest => negb (Ascii.eqb c ":") && colon_free rest
  end.

(** The layers the warmers write to. *)
Definition warmed_layers : list string :=
  ["domain"; "experience"; "session"; "dynamic"; "strategic"]%string.

(** The key is in the cache. *)
Definition cached (k : string) (wm : warmer) : Prop :=
  is_Some (dict_get (warm_cache wm) k).

(** The rows of a fetch that succeeded. *)
Definition fetched {A} (r : result (list A)) : list A :=
  match r with
  | Ok rows => rows
  | Raise _ => []
  end.

(** ** Further definitions: assertions on computations in [M] *)

(** From a state in [P], [m] returns [a] in a state with [Q a], or raises in
    a state with [E]. *)
Definition hoare {S A} (P : S -> Prop) (m : M S A) (Q : A -> S -> Prop)
    (E : S -> Prop) : Prop :=
  forall s, P s ->
    match m s with
    | (Ok a, s') => Q a s'
    | (Raise _, s') => E s'
    end.

(** A candidate in one of the warmed layers, with a priority of at most 1. *)
Definition item_ok (item : cache_item) : Prop :=
  In (cache_layer item) warmed_layers /\
  PrimFloat.leb (cache_priority item) 1 = true.

Definition entry_ok (kv : string * cache_entry) : Prop :=
  (exists layer, In layer warmed_layers /\
                 startswith (fst kv) (layer +:+ ":") = true) /\
  PrimFloat.leb (priority (snd kv)) 1 = true.

Definition cache_ok (wm : warmer) : Prop := Forall entry_ok (warm_cache wm).

(** The statement [predict_session_knowledge] sends for a user context. *)
Definition session_query (uc : user_context) : CacheWarmingEngine.store_query :=
  match default [] (keywords uc) with
  | [] => CacheWarmingEngine.RecentQuery
  | kw :: kws =>
      CacheWarmingEngine.KeywordQuery (kw :: kws)
        (default "KnowledgePersistence-AI"%string (project uc))
  end.

(** The search text [predict_session_knowledge] of the tool variant sends. *)
Definition session_search (uc : user_context) : string :=
  (default "KnowledgePersistence-AI"%string (project uc) +:+ " ")
  +:+ join " " (default ["CAG"; "implementation"]%string (keywords uc)).

(** The cache has between [n0] and [n0 + k] entries; the recognizer flag is
    [pr]. *)
Definition sized (pr : bool) (n0 k : Z) (wm : warmer) : Prop :=
  pattern_recognizer wm = pr /\
  n0 <= len (warm_cache wm) <= n0 + k.

(** Every key of [wm0] is a key of [wm], and [wm] holds at least as many. *)
Definition keeps_keys (wm0 wm : warmer) : Prop :=
  (forall k, cached k wm0 -> cached k wm) /\
  len (warm_cache wm0) <= len (warm_cache wm).

(** Nothing cached or recorded in [e0] is missing from [e]. *)
Definition engine_grows (e0 e : engine) : Prop :=
  keeps_keys (cache_warmer e0) (cache_warmer e) /\
  (forall session_id,
     is_warmed session_id e0 = true -> is_warmed session_id e = true).

(** The statistics of a warming on [one_row_world]. *)
Definition one_row_stats : cache_stats :=
  {| phases_completed := 4; items_loaded := 3; cache_size := 2;
     warming_time := 1; stats_mcp_integrated := None |}.

(** A client that answers every request with the scenario item. *)
Definition one_item_client_world : CAGCacheWarmerMCP.world :=
  {| CAGCacheWarmerMCP.datetime_now := 0;
     CAGCacheWarmerMCP.t_query_start := 0;
     CAGCacheWarmerMCP.t_warming_start := 0;
     CAGCacheWarmerMCP.t_warming_end := 1;
     CAGCacheWarmerMCP.t_context_start := 1;
     CAGCacheWarmerMCP.t_context_end := 2;
     CAGCacheWarmerMCP.t_response := 2;
     CAGCacheWarmerMCP.get_contextual_knowledge :=
       fun _ _ => Ok [scenario_item "k1" "t" "c" (Some "general"%string) 0];
     CAGCacheWarmerMCP.search_knowledge :=
       fun _ _ _ => Ok [scenario_item "k1" "t" "c" (Some "general"%string) 0];
     CAGCacheWarmerMCP.store_knowledge := fun _ _ _ _ => Ok "stored-1"%string;
     CAGCacheWarmerMCP.project_context_text := Ok "Project: KnowledgePersistence-AI"%string;
     CAGCacheWarmerMCP.session_history_text := "New session - no previous history";
     CAGCacheWarmerMCP.domain_knowledge_text := "[procedural] t: c...";
     CAGCacheWarmerMCP.experience_text := "No experience memory available";
     CAGCacheWarmerMCP.strategic_insights_text := "No strategic insights available";
     CAGCacheWarmerMCP.dynamic_content_text := "[procedural] t: c..." |}.

Definition one_item_client_stats : cache_stats :=
  {| phases_completed := 3; items_loaded := 2; cache_size := 1;
     warming_time := 1; stats_mcp_integrated := Some true |}.

(** ** Further definitions: worlds with one answer replaced *)

(** The world [w] with another answer of the ['store_knowledge'] tool. *)
Definition with_store_knowledge
    (answer : string -> string -> string -> Z -> result string)
    (w : CAGCacheWarmerMCP.world) : CAGCacheWarmerMCP.world :=
  {| CAGCacheWarmerMCP.datetime_now := CAGCacheWarmerMCP.datetime_now w;
     CAGCacheWarmerMCP.t_query_start := CAGCacheWarmerMCP.t_query_start w;
     CAGCacheWarmerMCP.t_warming_start := CAGCacheWarmerMCP.t_warming_start w;
     CAGCacheWarmerMCP.t_warming_end := CAGCacheWarmerMCP.t_warming_end w;
     CAGCacheWarmerMCP.t_context_start := CAGCacheWarmerMCP.t_context_start w;
     CAGCacheWarmerMCP.t_context_end := CAGCacheWarmerMCP.t_context_end w;
     CAGCacheWarmerMCP.t_response := CAGCacheWarmerMCP.t_response w;
     CAGCacheWarmerMCP.get_contextual_knowledge :=
       CAGCacheWarmerMCP.get_contextual_knowledge w;
     CAGCacheWarmerMCP.search_knowledge := CAGCacheWarmerMCP.search_knowledge w;
     CAGCacheWarmerMCP.store_knowledge := answer;
     CAGCacheWarmerMCP.project_context_text :=
       CAGCacheWarmerMCP.project_context_text w;
     CAGCacheWarmerMCP.session_history_text :=
       CAGCacheWarmerMCP.session_history_text w;
     CAGCacheWarmerMCP.domain_knowledge_text :=
       CAGCacheWarmerMCP.domain_knowledge_text w;
     CAGCacheWarmerMCP.experience_text := CAGCacheWarmerMCP.experience_text w;
     CAGCacheWarmerMCP.strategic_insights_text :=
       CAGCacheWarmerMCP.strategic_insights_text w;
     CAGCacheWarmerMCP.dynamic_content_text :=
       CAGCacheWarmerMCP.dynamic_content_text w |}.

(** The world [w] with another outcome of [load_project_context]. *)
Definition with_project_context (answer : result string)
    (w : CAGCacheWarmerMCP.world) : CAGCacheWarmerMCP.world :=
  {| CAGCacheWarmerMCP.datetime_now := CAGCacheWarmerMCP.datetime_now w;
     CAGCacheWarmerMCP.t_query_start := CAGCacheWarmerMCP.t_query_start w;
     CAGCacheWarmerMCP.t_warming_start := CAGCacheWarmerMCP.t_warming_start w;
     CAGCacheWarmerMCP.t_warming_end := CAGCacheWarmerMCP.t_warming_end w;
     CAGCacheWarmerMCP.t_context_start := CAGCacheWarmerMCP.t_context_start w;
     CAGCacheWarmerMCP.t_context_end := CAGCacheWarmerMCP.t_context_end w;
     CAGCacheWarmerMCP.t_response := CAGCacheWarmerMCP.t_response w;
     CAGCacheWarmerMCP.get_contextual_knowledge :=
       CAGCacheWarmerMCP.get_contextual_knowledge w;
     CAGCacheWarmerMCP.search_knowledge := CAGCacheWarmerMCP.search_knowledge w;
     CAGCacheWarmerMCP.store_knowledge := CAGCacheWarmerMCP.store_knowledge w;
     CAGCacheWarmerMCP.project_context_text := answer;
     CAGCacheWarmerMCP.session_history_text :=
       CAGCacheWarmerMCP.session_history_text w;
     CAGCacheWarmerMCP.domain_knowledge_text :=
       CAGCacheWarmerMCP.domain_knowledge_text w;
     CAGCacheWarmerMCP.experience_text := CAGCacheWarmerMCP.experience_text w;
     CAGCacheWarmerMCP.strategic_insights_text :=
       CAGCacheWarmerMCP.strategic_insights_text w;
     CAGCacheWarmerMCP.dynamic_content_text :=
       CAGCacheWarmerMCP.dynamic_content_text w |}.

(** A client whose session-context tool is down: [load_project_context]
    raises. *)
Definition failing_project_world : CAGCacheWarmerMCP.world :=
  with_project_context (Raise (ClientError "session_context unavailable"))
    empty_client_world.

(** A client whose contextual lookup returns an item without 'created_at'. *)
Definition undated_item_world : CAGCacheWarmerMCP.world :=
  {| CAGCacheWarmerMCP.datetime_now := 0;
     CAGCacheWarmerMCP.t_query_start := 0;
     CAGCacheWarmerMCP.t_warming_start := 0;
     CAGCacheWarmerMCP.t_warming_end := 1;
     CAGCacheWarmerMCP.t_context_start := 1;
     CAGCacheWarmerMCP.t_context_end := 2;
     CAGCacheWarmerMCP.t_response := 2;
     CAGCacheWarmerMCP.get_contextual_knowledge :=
       fun _ _ => Ok [scenario_item "k1" "t" "c" None 0; technical_item];
     CAGCacheWarmerMCP.search_knowledge := fun _ _ _ => Ok [];
     CAGCacheWarmerMCP.store_knowledge := fun _ _ _ _ => Ok "stored-1"%string;
     CAGCacheWarmerMCP.project_context_text := Ok "Project: KnowledgePersistence-AI"%string;
     CAGCacheWarmerMCP.session_history_text := "New session - no previous history";
     CAGCacheWarmerMCP.domain_knowledge_text := "No domain knowledge found";
     CAGCacheWarmerMCP.experience_text := "No experience memory available";
     CAGCacheWarmerMCP.strategic_insights_text := "No strategic insights available";
     CAGCacheWarmerMCP.dynamic_content_text := "" |}.

(** The counters of an engine that never counted a miss. *)
Definition only_hits (calls_per_query : option Z) (m : metrics) : Prop :=
  cache_misses m = 0 /\
  cache_hits m = total_queries m /\
  mcp_calls m = (fun c => c * total_queries m) <$> calls_per_query.

(** ** cag_context_manager.py and cag_mcp_integrated.py: query analysis *)

Definition lower_char (c : ascii) : ascii :=
  let n := nat_of_ascii c in
  if ((65 <=? n)%nat && (n <=? 90)%nat)%bool then ascii_of_nat (n + 32) else c.

(** [s.lower()] on ASCII text. *)
Fixpoint lower (s : string) : string :=
  match s with
  | EmptyString => EmptyString
  | String c rest => String (lower_char c) (lower rest)
  end.

(** [any(keyword in query_lower for keyword in keywords)]. *)
Definition any_keyword_in (query_lower : string) (keywords : list string) : bool :=
  existsb (fun keyword => contains query_lower keyword) keywords.

(** [analyze_query_domains] of both context managers, with the
    [domain_keywords] dict as a parameter. *)
Definition analyze_query_domains (domain_keywords : dict (list string))
    (query : string) : list string :=
  let query_lower := lower query in
  let domains :=
    fold_left
      (fun domains kv =>
         if any_keyword_in query_lower (snd kv) then domains ++ [fst kv]
         else domains)
      domain_keywords [] in
  match domains with
  | [] => ["general"%string]
  | _ :: _ => domains
  end.

Module CAGContextManagerQueries.

Definition domain_keywords : dict (list string) :=
  [ ("database", ["database"; "postgresql"; "sql"; "pgvector"]);
    ("architecture", ["architecture"; "design"; "system"; "framework"]);
    ("implementation", ["implement"; "code"; "develop"; "build"]);
    ("configuration", ["config"; "setup"; "install"; "deploy"]);
    ("testing", ["test"; "validate"; "verify"; "debug"]);
    ("knowledge", ["knowledge"; "learning"; "pattern"; "insight"]) ]%string.

Definition analyze_query_domains (query : string) : list string :=
  analyze_query_domains domain_keywords query.

End CAGContextManagerQueries.

Module CAGContextManagerMCPQueries.

Definition domain_keywords : dict (list string) :=
  [ ("database", ["database"; "postgresql"; "sql"; "pgvector"]);
    ("architecture", ["architecture"; "design"; "system"; "framework"]);
    ("implementation", ["implement"; "code"; "develop"; "build"]);
    ("configuration", ["config"; "setup"; "install"; "deploy"]);
    ("testing", ["test"; "validate"; "verify"; "debug"]);
    ("knowledge", ["knowledge"; "learning"; "pattern"; "insight"]);
    ("mcp", ["mcp"; "integration"; "tools"; "framework"]) ]%string.

Definition analyze_query_domains (query : string) : list string :=
  analyze_query_domains domain_keywords query.

End CAGContextManagerMCPQueries.

(** ** Further definitions: order and sums *)

(** No element is followed by one with a greater key. *)
Fixpoint descending {A} (key : A -> float) (l : list A) : Prop :=
  match l with
  | [] => True
  | x :: l' =>
      match l' with
      | [] => True
      | y :: _ => PrimFloat.ltb (key x) (key y) = false
      end /\ descending key l'
  end.

Definition sum_Z (l : list Z) : Z := fold_right Z.add 0 l.

(** The domains whose keywords occur in the lower-cased query. *)
Definition matching_domains (domain_keywords : dict (list string))
    (query : string) : list string :=
  map fst
    (List.filter (fun kv => any_keyword_in (lower query) (snd kv)) domain_keywords).

(** ** The layer loaders of the context managers *)

(** [str(e)] of a caught exception. *)
Definition str_exn (e : exn) : string :=
  match e with
  | KeyError key => "'" +:+ key +:+ "'"
  | ClientError msg => msg
  end.

(** [l[-n:]] for a positive [n]. *)
Definition last_n {A} (n : nat) (l : list A) : list A :=
  skipn (length l - n) l.

(** ["\n".join(lines) if lines else alternative]. *)
Definition join_or (alternative : string) (lines : list string) : string :=
  match lines with
  | [] => alternative
  | _ :: _ => join newline lines
  end.

(** What a [try] block that computes a string, with
    [except Exception as e: return f"<prefix>{str(e)}"], returns. *)
Definition or_error_text (prefix : string) (r : result string) : string :=
  match r with
  | Ok text => text
  | Raise e => prefix +:+ str_exn e
  end.

(** *** cag_context_manager.py: the loaders of [CAGContextManager] *)

Module CAGContextManagerLoaders.

(** An element of ['complete_chat_history']. *)
Record exchange : Type := {
  exchange_type : option string;
  exchange_content : option string
}.

(** The ['full_conversation_data'] of a session row. *)
Record session_data : Type := {
  complete_chat_history : option (list exchange)
}.

(** The database as one call of [load_context_for_query] meets it:
    [db_config] is the truth value of [self.db_config], [connect] the outcome
    of [psycopg.AsyncConnection.connect], and each of the other fields the
    outcome of executing one statement, fetching and closing. *)
Record database : Type := {
  db_config : bool;
  connect : result unit;
  session_row : string -> result (option session_data);
  domain_rows : string -> result (list knowledge_item);
  experience_rows : result (list knowledge_item);
  strategic_rows : result (list knowledge_item);
  dynamic_rows : result (list knowledge_item)
}.

Definition connect_db (db : database) : result (option unit) :=
  if negb (db_config db) then Ok None
  else result_bind (connect db) (fun conn => Ok (Some conn)).

(** One round of the loop of [load_session_history]. *)
Definition history_step (history : list string) (exchange : exchange)
    : result (list string) :=
  result_bind (getitem "type" (exchange_type exchange)) (fun type =>
  if String.eqb type "user_prompt" then
    result_bind (getitem "content" (exchange_content exchange)) (fun content =>
    Ok (history ++ ["USER: " +:+ content]))
  else if String.eqb type "ai_response" then
    result_bind (getitem "content" (exchange_content exchange)) (fun content =>
    Ok (history ++ ["AI: " +:+ content]))
  else Ok history).

Definition load_session_history (db : database) (session_id : string) : string :=
  if negb (db_config db)
  then "Session history unavailable - no database connection"
  else
    or_error_text "Session history error: "
      (result_bind (connect_db db) (fun conn =>
       match conn with
       | None => Ok "Session history unavailable"%string
       | Some _ =>
           result_bind (session_row db session_id) (fun result =>
           match result with
           | Some session_data =>
               result_bind
                 (getitem "complete_chat_history"
                    (complete_chat_history session_data)) (fun exchanges =>
               result_bind
                 (fold_left (fun history exchange =>
                               result_bind history (fun history =>
                               history_step history exchange))
                    exchanges (Ok [])) (fun history =>
               Ok (join newline (last_n 10 history))))
           | None => Ok "No session history found"%string
           end)
       end)).

(** [" OR ".join([f"category ILIKE '%{domain}%'" for domain in domains])]. *)
Definition domain_filter (domains : list string) : string :=
  join " OR " (map (fun domain => "category ILIKE '%" +:+ domain +:+ "%'") domains).

(** [f"[{item[tag_key]}] {item['title']}: {item['content'][:n]}..."]. *)
Definition row_line (tag_key : string) (tag : knowledge_item -> option string)
    (n : nat) (item : knowledge_item) : result string :=
  result_bind (getitem tag_key (tag item)) (fun tag =>
  Ok ("[" +:+ tag +:+ "] " +:+ item_title item +:+ ": "
      +:+ String.substring 0 n (item_content item) +:+ "...")).

Definition load_domain_knowledge (db : database) (domains : list string)
    : string :=
  if negb (db_config db)
  then "Domain knowledge unavailable - no database connection"
  else
    or_error_text "Domain knowledge error: "
      (result_bind (connect_db db) (fun conn =>
       match conn with
       | None => Ok "Domain knowledge unavailable"%string
       | Some _ =>
           result_bind (domain_rows db (domain_filter domains)) (fun results =>
           result_bind
             (result_map (row_line "knowledge_type" item_knowledge_type 200)
                results) (fun knowledge_items =>
           Ok (join_or "No domain knowledge found" knowledge_items)))
       end)).

Definition load_relevant_experience (db : database) (query : string) : string :=
  if negb (db_config db)
  then "Experience memory unavailable - no database connection"
  else
    or_error_text "Experience memory error: "
      (result_bind (connect_db db) (fun conn =>
       match conn with
       | None => Ok "Experience memory unavailable"%string
       | Some _ =>
           result_bind (experience_rows db) (fun results =>
           result_bind
             (result_map (row_line "category" item_category 150) results)
             (fun experiences =>
           Ok (join_or "No experience memory available" experiences)))
       end)).

Definition load_strategic_insights (db : database) (query : string) : string :=
  if negb (db_config db)
  then "Strategic insights unavailable - no database connection"
  else
    or_error_text "Strategic insights error: "
      (result_bind (connect_db db) (fun conn =>
       match conn with
       | None => Ok "Strategic insights unavailable"%string
       | Some _ =>
           result_bind (strategic_rows db) (fun results =>
           result_bind
             (result_map (row_line "knowledge_type" item_knowledge_type 150)
                results) (fun insights =>
           Ok (join_or "No strategic insights available" insights)))
       end)).

(** The part of [load_dynamic_content] below the test of the available
    tokens. *)
Definition dynamic_content (db : database) (query : string) : string :=
  or_error_text "Dynamic content error: "
    (result_bind (connect_db db) (fun conn =>
     match conn with
     | None => Ok "Dynamic content unavailable"%string
     | Some _ =>
         result_bind (dynamic_rows db) (fun results =>
         result_bind
           (result_map (row_line "knowledge_type" item_knowledge_type 100)
              results) (fun content =>
         Ok (join newline content)))
     end)).

(** The answers one call of [load_context_for_query] gets from its loaders;
    the clocks and the store of the warmer are those of [w]. *)
Definition loaded (w : CacheWarmingEngine.world) (db : database)
    (query session_id : string) : CacheWarmingEngine.world :=
  {| CacheWarmingEngine.datetime_now := CacheWarmingEngine.datetime_now w;
     CacheWarmingEngine.t_query_start := CacheWarmingEngine.t_query_start w;
     CacheWarmingEngine.t_warming_start := CacheWarmingEngine.t_warming_start w;
     CacheWarmingEngine.t_warming_end := CacheWarmingEngine.t_warming_end w;
     CacheWarmingEngine.t_context_start := CacheWarmingEngine.t_context_start w;
     CacheWarmingEngine.t_context_end := CacheWarmingEngine.t_context_end w;
     CacheWarmingEngine.t_response := CacheWarmingEngine.t_response w;
     CacheWarmingEngine.fetch := CacheWarmingEngine.fetch w;
     CacheWarmingEngine.session_history_text := load_session_history db session_id;
     CacheWarmingEngine.domain_knowledge_text :=
       load_domain_knowledge db
         (CAGContextManagerQueries.analyze_query_domains query);
     CacheWarmingEngine.experience_text := load_relevant_experience db query;
     CacheWarmingEngine.strategic_insights_text :=
       load_strategic_insights db query;
     CacheWarmingEngine.dynamic_content_text := dynamic_content db query |}.

(** [CAGContextManager.load_context_for_query] with its loaders. *)
Definition load_context_for_query (max_context_tokens : Z)
    (w : CacheWarmingEngine.world) (db : database) (query session_id : string)
    : string :=
  CAGContextManager.load_context_for_query max_context_tokens
    (loaded w db query session_id) query session_id.

(** [CAGEngine.process_query] with the loaders of its context manager. *)
Definition process_query (w : CacheWarmingEngine.world) (db : database)
    (query session_id : string) (uc : option user_context)
    : M engine response :=
  CAGEngine.process_query (loaded w db query session_id) query session_id uc.

End CAGContextManagerLoaders.

(** A database that is not configured, and one whose connection fails. *)
Definition no_database : CAGContextManagerLoaders.database :=
  {| CAGContextManagerLoaders.db_config := false;
     CAGContextManagerLoaders.connect := Raise (ClientError "no configuration");
     CAGContextManagerLoaders.session_row := fun _ => Ok None;
     CAGContextManagerLoaders.domain_rows := fun _ => Ok [];
     CAGContextManagerLoaders.experience_rows := Ok [];
     CAGContextManagerLoaders.strategic_rows := Ok [];
     CAGContextManagerLoaders.dynamic_rows := Ok [] |}.

Definition unreachable_database : CAGContextManagerLoaders.database :=
  {| CAGContextManagerLoaders.db_config := true;
     CAGContextManagerLoaders.connect := Raise (ClientError "connection refused");
     CAGContextManagerLoaders.session_row := fun _ => Ok None;
     CAGContextManagerLoaders.domain_rows := fun _ => Ok [];
     CAGContextManagerLoaders.experience_rows := Ok [];
     CAGContextManagerLoaders.strategic_rows := Ok [];
     CAGContextManagerLoaders.dynamic_rows := Ok [] |}.

(** The layers whose bodies the direct-store loaders never leave empty. *)
Definition always_loaded : list ContextLayer :=
  [SYSTEM; PROJECT; DOMAIN; EXPERIENCE; STRATEGIC].

(** *** cag_mcp_integrated.py: the loaders of [CAGContextManagerMCP] *)

Module CAGContextManagerMCPLoaders.
Import CAGCacheWarmerMCP.

(** [get_session_context(max_items, project)] of the knowledge client, as
    one call of [load_context_for_query] meets it. *)
Definition session_context : Type :=
  Z -> option string -> result (list knowledge_item).

Definition load_project_context (get_session_context : session_context)
    : result string :=
  result_bind (get_session_context 5 (Some "KnowledgePersistence-AI"%string))
    (fun context_items =>
  let project_context :=
    ["Project: KnowledgePersistence-AI";
     "Status: Phase 5 - CAG-MCP Integration Active";
     "Framework: MCP-integrated knowledge persistence"]%string in
  let project_context :=
    fold_left
      (fun project_context item =>
         project_context
         ++ ["- " +:+ item_title item +:+ ": "
             +:+ String.substring 0 100 (item_content item) +:+ "..."])
      context_items project_context in
  Ok (join newline project_context)).

(** One round of the loop of [load_session_history]. *)
Definition history_step (history : list string) (item : knowledge_item)
    : result (list string) :=
  result_bind (getitem "knowledge_type" (item_knowledge_type item))
    (fun knowledge_type =>
  if String.eqb knowledge_type "contextual"
  then Ok (history ++ ["Previous: "
                       +:+ String.substring 0 100 (item_content item) +:+ "..."])
  else Ok history).

Definition load_session_history (get_session_context : session_context)
    (session_id : string) : string :=
  or_error_text "Session history unavailable: "
    (result_bind (get_session_context 10 None) (fun session_items =>
     result_bind
       (fold_left (fun history item =>
                     result_bind history (fun history =>
                     history_step history item))
          session_items (Ok [])) (fun history =>
     Ok (match history with
         | [] => "New session - no previous history"%string
         | _ :: _ => join newline (last_n 5 history)
         end)))).

Definition load_domain_knowledge (w : world) (domains : list string) : string :=
  or_error_text "Domain knowledge error: "
    (let search_query := join " OR " domains in
     result_bind
       (search_knowledge w search_query
          (Some ["procedural"; "technical_discovery"]%string) 10) (fun results =>
     result_bind
       (result_map
          (CAGContextManagerLoaders.row_line "knowledge_type"
             item_knowledge_type 200) results) (fun knowledge_items =>
     Ok (join_or "No domain knowledge found" knowledge_items)))).

(** [f"[<tag>] {item['title']}: {item['content'][:150]}..."]. *)
Definition tagged_line (tag : string) (item : knowledge_item) : string :=
  "[" +:+ tag +:+ "] " +:+ item_title item +:+ ": "
  +:+ String.substring 0 150 (item_content item) +:+ "...".

Definition load_relevant_experience (w : world) (query : string) : string :=
  or_error_text "Experience memory error: "
    (result_bind
       (get_contextual_knowledge w ("Experience related to: " +:+ query) 5)
       (fun results =>
     let experiences :=
       fold_left
         (fun experiences item =>
            match item_knowledge_type item with
            | Some knowledge_type =>
                if String.eqb knowledge_type "experiential"
                then experiences ++ [tagged_line "Experience" item]
                else experiences
            | None => experiences
            end)
         results [] in
     Ok (join_or "No experience memory available" experiences))).

Definition load_strategic_insights (w : world) (query : string) : string :=
  or_error_text "Strategic insights error: "
    (result_bind
       (search_knowledge w ("strategic insights " +:+ query)
          (Some ["procedural"; "technical_discovery"]%string) 5) (fun results =>
     let strategic_items :=
       List.filter (fun item => 60 <? default 0 (item_importance_score item))
         results in
     let insights := map (tagged_line "Strategic") strategic_items in
     Ok (join_or "No strategic insights available" insights))).

(** The part of [load_dynamic_content] below the test of the available
    tokens. *)
Definition dynamic_content (w : world) (query : string) : string :=
  or_error_text "Dynamic content error: "
    (result_bind (search_knowledge w query None 3) (fun results =>
     result_bind
       (result_map
          (CAGContextManagerLoaders.row_line "knowledge_type"
             item_knowledge_type 100) results) (fun content =>
     Ok (join newline content)))).

(** The answers one call of [load_context_for_query] gets from its loaders;
    the clocks and the client of the warmer are those of [w]. *)
Definition loaded (w : world) (get_session_context : session_context)
    (query session_id : string) : world :=
  {| datetime_now := datetime_now w;
     t_query_start := t_query_start w;
     t_warming_start := t_warming_start w;
     t_warming_end := t_warming_end w;
     t_context_start := t_context_start w;
     t_context_end := t_context_end w;
     t_response := t_response w;
     get_contextual_knowledge := get_contextual_knowledge w;
     search_knowledge := search_knowledge w;
     store_knowledge := store_knowledge w;
     project_context_text := load_project_context get_session_context;
     session_history_text := load_session_history get_session_context session_id;
     domain_knowledge_text :=
       load_domain_knowledge w
         (CAGContextManagerMCPQueries.analyze_query_domains query);
     experience_text := load_relevant_experience w query;
     strategic_insights_text := load_strategic_insights w query;
     dynamic_content_text := dynamic_content w query |}.

(** [CAGContextManagerMCP.load_context_for_query] with its loaders. *)
Definition load_context_for_query (max_context_tokens : Z) (w : world)
    (get_session_context : session_context) (query session_id : string)
    : result string :=
  CAGContextManagerMCP.load_context_for_query max_context_tokens
    (loaded w get_session_context query session_id) query session_id.

(** [CAGEngineMCP.process_query] with the loaders of its context manager. *)
Definition process_query (w : world) (get_session_context : session_context)
    (query session_id : string) (uc : option user_context)
    : M engine response :=
  CAGEngineMCP.process_query (loaded w get_session_context query session_id)
    query session_id uc.

End CAGContextManagerMCPLoaders.

(** *** cag_mcp_integrated.py: [MCPKnowledgeClient] *)

Module MCPKnowledgeClient.

(** [range(n)]. *)
Definition range (n : Z) : list Z := map Z.of_nat (seq 0 (Z.to_nat n)).

(** The calls that build items; [clock call i] is the reading of
    [datetime.now()] for the [i]-th item of the call. *)
Inductive mock_call : Type :=
  | ContextualKnowledge (situation : string) (max_results : Z)
  | SearchKnowledge (query : string) (knowledge_types : option (list string))
      (limit : Z)
  | SessionContext (max_items : Z) (project : option string).

Definition clock : Type := mock_call -> Z -> Z.

Definition _mock_contextual_knowledge (now : clock) (situation : string)
    (max_results : Z) : list knowledge_item :=
  map (fun i =>
         {| item_id := "mock-context-" +:+ pretty i;
            item_knowledge_type := Some "contextual"%string;
            item_category := None;
            item_title :=
              "Context item " +:+ pretty i +:+ " for: "
              +:+ String.substring 0 20 situation +:+ "...";
            item_content :=
              "Mock contextual knowledge content related to " +:+ situation;
            item_created_at :=
              Some (now (ContextualKnowledge situation max_results) i);
            item_importance_score := Some (70 - i * 5);
            item_access_count := None |})
      (range (Z.min max_results 5)).

Definition _mock_search_knowledge (now : clock) (query : string)
    (knowledge_types : option (list string)) (limit : Z) : list knowledge_item :=
  let types :=
    match knowledge_types with
    | Some (t :: ts) => t :: ts
    | _ => ["procedural"; "factual"]%string
    end in
  map (fun i =>
         {| item_id := "mock-search-" +:+ pretty i;
            item_knowledge_type :=
              Some (nth (Z.to_nat (i mod len types)) types ""%string);
            item_category := Some "mock_category"%string;
            item_title :=
              "Search result " +:+ pretty i +:+ ": "
              +:+ String.substring 0 20 query +:+ "...";
            item_content := "Mock search result content for query: " +:+ query;
            item_created_at :=
              Some (now (SearchKnowledge query knowledge_types limit) i);
            item_importance_score := Some (60 - i * 3);
            item_access_count := None |})
      (range (Z.min limit 8)).

(** [int(time.time())] is [seconds]. *)
Definition _mock_store_knowledge (seconds : Z)
    (knowledge_type title content : string) : string :=
  "mock-stored-" +:+ pretty seconds.

Definition _mock_session_context (now : clock) (max_items : Z)
    (project : option string) : list knowledge_item :=
  map (fun i =>
         {| item_id := "mock-session-" +:+ pretty i;
            item_knowledge_type := Some "contextual"%string;
            item_category := None;
            item_title := "Session context " +:+ pretty i;
            item_content :=
              "Mock session context for project: "
              +:+ match project with
                  | Some (String c p) => String c p
                  | _ => "default"%string
                  end;
            item_created_at := Some (now (SessionContext max_items project) i);
            item_importance_score := Some 50;
            item_access_count := None |})
      (range (Z.min max_items 3)).

(** The [TypeError] of a call that lacks the argument [project]. *)
Definition missing_project_argument : string :=
  "MCPKnowledgeClient._mock_session_context() missing 1 required positional argument: 'project'".

(** [get_contextual_knowledge]: with or without [mcp_available] the call
    ends in [_mock_contextual_knowledge]. *)
Definition get_contextual_knowledge (mcp_available : bool) (now : clock)
    (situation : string) (max_results : Z) : result (list knowledge_item) :=
  if negb mcp_available
  then Ok (_mock_contextual_knowledge now situation max_results)
  else Ok (_mock_contextual_knowledge now situation max_results).

(** [search_knowledge]: [_call_mcp_tool] gets [knowledge_types or []]. *)
Definition search_knowledge (mcp_available : bool) (now : clock)
    (query : string) (knowledge_types : option (list string)) (limit : Z)
    : result (list knowledge_item) :=
  if negb mcp_available
  then Ok (_mock_search_knowledge now query knowledge_types limit)
  else Ok (_mock_search_knowledge now query
             (Some (default [] knowledge_types)) limit).

(** [get_session_context]: [_call_mcp_tool] drops the arguments that are
    [None], so that without a project the mock is called without its second
    argument. *)
Definition get_session_context (mcp_available : bool) (now : clock)
    (max_items : Z) (project : option string) : result (list knowledge_item) :=
  if negb mcp_available
  then Ok (_mock_session_context now max_items project)
  else
    match project with
    | Some p => Ok (_mock_session_context now max_items (Some p))
    | None => Raise (ClientError missing_project_argument)
    end.

(** [store_knowledge], as the engine calls it. *)
Definition store_knowledge (mcp_available : bool) (seconds : Z)
    (knowledge_type title category : string) (importance_score : Z)
    : result string :=
  Ok (_mock_store_knowledge seconds knowledge_type title "").

(** The world of a call served by the client as shipped; the clocks are
    those of [w]. *)
Definition stock (mcp_available : bool) (now : clock) (seconds : Z)
    (w : CAGCacheWarmerMCP.world) : CAGCacheWarmerMCP.world :=
  {| CAGCacheWarmerMCP.datetime_now := CAGCacheWarmerMCP.datetime_now w;
     CAGCacheWarmerMCP.t_query_start := CAGCacheWarmerMCP.t_query_start w;
     CAGCacheWarmerMCP.t_warming_start := CAGCacheWarmerMCP.t_warming_start w;
     CAGCacheWarmerMCP.t_warming_end := CAGCacheWarmerMCP.t_warming_end w;
     CAGCacheWarmerMCP.t_context_start := CAGCacheWarmerMCP.t_context_start w;
     CAGCacheWarmerMCP.t_context_end := CAGCacheWarmerMCP.t_context_end w;
     CAGCacheWarmerMCP.t_response := CAGCacheWarmerMCP.t_response w;
     CAGCacheWarmerMCP.get_contextual_knowledge :=
       get_contextual_knowledge mcp_available now;
     CAGCacheWarmerMCP.search_knowledge := search_knowledge mcp_available now;
     CAGCacheWarmerMCP.store_knowledge := store_knowledge mcp_available seconds;
     CAGCacheWarmerMCP.project_context_text :=
       CAGCacheWarmerMCP.project_context_text w;
     CAGCacheWarmerMCP.session_history_text :=
       CAGCacheWarmerMCP.session_history_text w;
     CAGCacheWarmerMCP.domain_knowledge_text :=
       CAGCacheWarmerMCP.domain_knowledge_text w;
     CAGCacheWarmerMCP.experience_text := CAGCacheWarmerMCP.experience_text w;
     CAGCacheWarmerMCP.strategic_insights_text :=
       CAGCacheWarmerMCP.strategic_insights_text w;
     CAGCacheWarmerMCP.dynamic_content_text :=
       CAGCacheWarmerMCP.dynamic_content_text w |}.

End MCPKnowledgeClient.

(** Every item the mock client builds is less than a day old when the call
    reads the clock. *)
Definition fresh (now : MCPKnowledgeClient.clock) (w : CAGCacheWarmerMCP.world)
    : Prop :=
  forall call i,
    now call i <= CAGCacheWarmerMCP.datetime_now w
    < now call i + microseconds_per_day.

(** The layers whose bodies the loaders of the tool variant never leave
    empty. *)
Definition always_loaded_mcp : list ContextLayer :=
  [SYSTEM; PROJECT; SESSION; DOMAIN; EXPERIENCE; STRATEGIC].

(** A client without a session context. *)
Definition no_session_context : CAGContextManagerMCPLoaders.session_context :=
  fun _ _ => Ok [].

(** The candidate a loader of the tool variant makes from an item that is
    less than a day old. *)
Definition fresh_candidate (default_category : string)
    (layer : knowledge_item -> string) (item : knowledge_item) : cache_item :=
  {| ci_id := item_id item;
     ci_knowledge_type := default ""%string (item_knowledge_type item);
     ci_category := default default_category (item_category item);
     ci_title := item_title item;
     ci_content := item_content item;
     ci_created_at := default 0 (item_created_at item);
     cache_priority :=
       CAGCacheWarmerMCP.calculate_cache_priority 0
         (with_created_at (Some 0) item);
     cache_layer := layer item;
     prediction_confidence := None |}.

(** The keys of the cache after a first warming served by the client as
    shipped. *)
Definition stock_keys : list string :=
  ["session:mock-context-0"; "session:mock-context-1"; "session:mock-context-2";
   "session:mock-context-3"; "session:mock-context-4";
   "domain:mock-search-0"; "domain:mock-search-2"; "domain:mock-search-4";
   "domain:mock-search-6"; "dynamic:mock-search-1"; "dynamic:mock-search-3";
   "dynamic:mock-search-5"; "dynamic:mock-search-7"]%string.

(** A clock that stands still. *)
Definition still_clock : MCPKnowledgeClient.clock := fun _ _ => 0.


(** The [knowledge_types] the mock search is called with. *)
Definition passed_types (mcp_available : bool)
    (knowledge_types : option (list string)) : option (list string) :=
  if negb mcp_available then knowledge_types
  else Some (default [] knowledge_types).

(** ** Further definitions: rows *)

(** The row carries the three keys the direct-store loaders index. *)
Definition complete_row (row : knowledge_item) : Prop :=
  is_Some (item_knowledge_type row) /\
  is_Some (item_category row) /\
  is_Some (item_created_at row).

(** ** Further definitions: ranking *)

(** [x == x]: the float is not a NaN. *)
Definition is_number (x : float) : bool := PrimFloat.eqb x x.

(** No element is less than one that comes later. *)
Definition ranked {A} (key : A -> float) (l : list A) : Prop :=
  StronglySorted (fun a b => PrimFloat.ltb (key a) (key b) = false) l.

(** The comparison of [a] with [b] is "equal" or "greater". *)
Definition not_below (a b : spec_float) : Prop :=
  SFcompare a b = Some Eq \/ SFcompare a b = Some Gt.

Definition entry_with_priority (p : float) : cache_entry :=
  {| entry_content := "c"; entry_title := "t";
     entry_knowledge_type := "procedural"; priority := p;
     loaded_at := 0; entry_source := None |}.

(** A cache with three entries of the layer 'domain', of different
    priorities and not in order, and one entry of the layer 'session'. *)
Definition ranked_warmer : warmer :=
  set_warm_cache
    [ ("domain:a"%string, entry_with_priority 0.4);
      ("session:s"%string, entry_with_priority 0.95);
      ("domain:b"%string, entry_with_priority 0.9);
      ("domain:c"%string, entry_with_priority 0.6) ]
    (new_warmer false).

(** A store that answers every statement with three rows, of the types
    factual, procedural and contextual in this order. *)
Definition three_row_world : CacheWarmingEngine.world :=
  {| CacheWarmingEngine.datetime_now := 0;
     CacheWarmingEngine.t_query_start := 0;
     CacheWarmingEngine.t_warming_start := 0;
     CacheWarmingEngine.t_warming_end := 1;
     CacheWarmingEngine.t_context_start := 1;
     CacheWarmingEngine.t_context_end := 2;
     CacheWarmingEngine.t_response := 2;
     CacheWarmingEngine.fetch :=
       fun _ =>
         Ok [with_knowledge_type (Some "factual"%string)
               (scenario_item "a" "t" "c" (Some "general"%string) 0);
             scenario_item "b" "t" "c" (Some "general"%string) 0;
             with_knowledge_type (Some "contextual"%string)
               (scenario_item "c" "t" "c" (Some "general"%string) 0)];
     CacheWarmingEngine.session_history_text := "No session history found";
     CacheWarmingEngine.domain_knowledge_text := "No domain knowledge found";
     CacheWarmingEngine.experience_text := "No experience memory available";
     CacheWarmingEngine.strategic_insights_text := "No strategic insights available";
     CacheWarmingEngine.dynamic_content_text := "" |}.

(** ** Properties *)

Lemma append_nil_r (s : string) : s +:+ "" = s.
Proof.
  induction s as [|c s IH]; [reflexivity|].
  change (String c (s +:+ "") = String c s). now f_equal.
Qed.

Lemma append_assoc (s1 s2 s3 : string) : (s1 +:+ s2) +:+ s3 = s1 +:+ s2 +:+ s3.
Proof.
  induction s1 as [|c s1 IH]; [reflexivity|].
  change (String c ((s1 +:+ s2) +:+ s3) = String c (s1 +:+ s2 +:+ s3)).
  now f_equal.
Qed.

Lemma join_cons (sep p q : string) (rest : list string) :
  join sep (p :: q :: rest) = p +:+ sep +:+ join sep (q :: rest).
Proof. reflexivity. Qed.

(** *** Scoring and classification *)

Lemma days_old_same_instant (it : knowledge_item) (now : Z) :
  item_created_at it = Some now -> days_old now it = 0.
Proof.
  intros H. unfold days_old, timedelta_days. rewrite H. simpl.
  now rewrite Z.sub_diag.
Qed.

Lemma recency_same_instant (it : knowledge_item) (now : Z) :
  item_created_at it = Some now -> recency now it = 1%float.
Proof.
  intros H. unfold recency. now rewrite (days_old_same_instant it now H).
Qed.

(** C5: the scenario item {type: procedural, importance_score: 40,
    created_at: now, access_count: 5} gets priority 0.805 from the scorer of
    the direct-store variant (Mode A) and 0.73 from the scorer of the tool
    variant (Mode B), as binary64 values, and both classifiers put it in the
    layer 'domain'. *)
Theorem scenario_priority_and_layer
    (id title content : string) (category : option string) (now : Z) :
  let it := scenario_item id title content category now in
  CacheWarmingEngine.calculate_cache_priority now it = 0.805%float /\
  CAGCacheWarmerMCP.calculate_cache_priority now it = 0.73%float /\
  CacheWarmingEngine.determine_cache_layer it = "domain"%string /\
  CAGCacheWarmerMCP.determine_cache_layer it = "domain"%string.
Proof.
  intros it.
  assert (Hr : recency now it = 1%float) by now apply recency_same_instant.
  unfold CacheWarmingEngine.calculate_cache_priority,
    CAGCacheWarmerMCP.calculate_cache_priority.
  rewrite Hr. repeat split; vm_compute; reflexivity.
Qed.

Lemma float_neq_by_ltb (x y c : float) :
  PrimFloat.ltb x c = true -> PrimFloat.ltb y c = false -> x <> y.
Proof. intros Hx Hy ->. congruence. Qed.

(** C9, as stated, fails: the same item scored at its creation instant and
    fifteen days later gets two different priorities, in both variants. *)
Lemma priority_changes_with_call_time :
  let it := scenario_item "k" "t" "c" None 0 in
  CacheWarmingEngine.calculate_cache_priority fifteen_days it
    <> CacheWarmingEngine.calculate_cache_priority 0 it /\
  CAGCacheWarmerMCP.calculate_cache_priority fifteen_days it
    <> CAGCacheWarmerMCP.calculate_cache_priority 0 it.
Proof.
  split.
  - apply (float_neq_by_ltb _ _ 0.7%float); vm_compute; reflexivity.
  - apply (float_neq_by_ltb _ _ 0.7%float); vm_compute; reflexivity.
Qed.

(** C9, amended: the scorers are functions of the item and of the clock
    reading only, and the clock enters through the item's age in whole days:
    two calls on the same item at instants where that age is the same return
    the same priority. *)
Theorem priority_depends_on_age_in_days
    (it : knowledge_item) (now1 now2 : Z) :
  days_old now1 it = days_old now2 it ->
  CacheWarmingEngine.calculate_cache_priority now1 it
    = CacheWarmingEngine.calculate_cache_priority now2 it /\
  CAGCacheWarmerMCP.calculate_cache_priority now1 it
    = CAGCacheWarmerMCP.calculate_cache_priority now2 it.
Proof.
  intros H.
  unfold CacheWarmingEngine.calculate_cache_priority,
    CAGCacheWarmerMCP.calculate_cache_priority, recency.
  now rewrite H.
Qed.

Lemma priority_depends_on_age_in_days_witness :
  let it := scenario_item "k" "t" "c" None 0 in
  days_old 0 it = days_old one_hour it /\
  CacheWarmingEngine.calculate_cache_priority 0 it
    = CacheWarmingEngine.calculate_cache_priority one_hour it /\
  CAGCacheWarmerMCP.calculate_cache_priority 0 it
    = CAGCacheWarmerMCP.calculate_cache_priority one_hour it.
Proof.
  split; [reflexivity |].
  apply (priority_depends_on_age_in_days (scenario_item "k" "t" "c" None 0) 0 one_hour).
  reflexivity.
Defined.

(** *** Token estimator *)

(** C7: on the three-word text "a b c" both estimators return the binary64
    product 3 * 1.3 = 3.9000000000000004, not the integer 4 that rounding
    gives. *)
Theorem count_tokens_is_not_rounded :
  CAGContextManager.count_tokens "a b c" = 3.9000000000000004%float /\
  CAGContextManagerMCP.count_tokens "a b c" = 3.9000000000000004%float /\
  PrimFloat.eqb (CAGContextManager.count_tokens "a b c") 4 = false.
Proof. repeat split; vm_compute; reflexivity. Qed.

(** *** Context compilation *)

Section Compile.
Variable header : string -> string.
Variable context : dict string.

Let appended := loop_appended header context.

Lemma compile_loop (layers : list ContextLayer) (compiled : list string) :
  fold_left
    (fun compiled layer =>
       match dict_get context (value layer) with
       | Some body =>
           if truthy body
           then compiled ++ [header (value layer); body; ""%string]
           else compiled
       | None => compiled
       end)
    layers compiled
  = compiled ++ flat_map appended layers.
Proof.
  revert compiled.
  induction layers as [|layer layers IH]; intros compiled; simpl.
  - now rewrite app_nil_r.
  - rewrite IH. unfold appended at 2, loop_appended.
    destruct (dict_get context (value layer)) as [body|]; [|reflexivity].
    destruct (truthy body); [|reflexivity].
    now rewrite <- app_assoc.
Qed.

Lemma appended_emitted (layer : ContextLayer) :
  appended layer =
    if truthy (layer_body context layer)
    then [header (value layer); layer_body context layer; ""%string]
    else [].
Proof.
  unfold appended, loop_appended, layer_body, dict_get_default.
  destruct (dict_get context (value layer)) as [body|]; reflexivity.
Qed.

Lemma join_blocks (layers : list ContextLayer) :
  join newline (flat_map appended layers)
  = join newline
      (map (layer_block header context)
         (List.filter (fun layer => truthy (layer_body context layer)) layers)).
Proof.
  induction layers as [|layer layers IH]; [reflexivity|].
  cbn [flat_map List.filter]. rewrite appended_emitted.
  destruct (truthy (layer_body context layer)) eqn:E; [|exact IH].
  cbn [map app]. unfold layer_block at 1.
  destruct (List.filter _ layers) as [|l1 ls] eqn:F.
  - destruct (flat_map appended layers) as [|p ps] eqn:G.
    + simpl. now rewrite append_nil_r.
    + simpl in IH. exfalso.
      assert (Hlen : p :: ps <> []) by discriminate.
      clear - F G E Hlen.
      assert (Hnil : flat_map appended layers = []).
      { clear G Hlen. induction layers as [|a layers IHl]; [reflexivity|].
        simpl in *. rewrite appended_emitted.
        destruct (truthy (layer_body context a)); [discriminate|].
        now apply IHl. }
      congruence.
  - destruct (flat_map appended layers) as [|p ps] eqn:G.
    + exfalso. clear - F G.
      revert F. induction layers as [|a layers IHl]; [discriminate|].
      simpl in *. rewrite appended_emitted in G.
      destruct (truthy (layer_body context a)); [discriminate|].
      now apply IHl.
    + cbn [map] in IH |- *. rewrite !join_cons, IH.
      rewrite !append_assoc. reflexivity.
Qed.

Lemma compile_context_format :
  compile_context header context = compiled_format header context.
Proof.
  unfold compile_context, compiled_format, emitted_layers.
  rewrite compile_loop. exact (join_blocks all_layers).
Qed.
End Compile.

(** C6, as stated, fails for the tool variant: its header line carries the
    tag "(MCP-INTEGRATED)". *)
Lemma mcp_header_differs :
  CAGContextManagerMCP.compile_context system_only_context
    <> compiled_format CAGContextManager.header system_only_context.
Proof. vm_compute. discriminate. Qed.

(** C6, amended: for every context dictionary the compiled string is, for
    each non-empty layer in the canonical order system, project, session,
    domain, experience, strategic, dynamic, response, the header line, the
    layer body and a line break, consecutive layers being separated by one
    blank line; the header line is '=== <LAYER> CONTEXT ===' in the
    direct-store variant and '=== <LAYER> CONTEXT (MCP-INTEGRATED) ===' in the
    tool variant, <LAYER> being the layer name in upper case. *)
Theorem compiled_context_format (context : dict string) :
  CAGContextManager.compile_context context
    = compiled_format (fun name => "=== " +:+ upper name +:+ " CONTEXT ===") context /\
  CAGContextManagerMCP.compile_context context
    = compiled_format
        (fun name => "=== " +:+ upper name +:+ " CONTEXT (MCP-INTEGRATED) ===")
        context /\
  map (fun layer => upper (value layer)) all_layers
    = ["SYSTEM"; "PROJECT"; "SESSION"; "DOMAIN"; "EXPERIENCE"; "STRATEGIC";
       "DYNAMIC"; "RESPONSE"]%string.
Proof.
  split; [|split].
  - apply compile_context_format.
  - apply compile_context_format.
  - reflexivity.
Qed.

(** *** Retrieval by layer *)

Section SortedFacts.
Context {A : Type} (key : A -> float).

Lemma insert_desc_perm (x : A) (l : list A) :
  Permutation (insert_desc key x l) (x :: l).
Proof.
  induction l as [|y l IH]; simpl; [reflexivity|].
  destruct (PrimFloat.ltb (key x) (key y)); [|reflexivity].
  rewrite IH. apply perm_swap.
Qed.

Lemma sorted_desc_perm (l : list A) : Permutation (sorted_desc key l) l.
Proof.
  induction l as [|x l IH]; simpl; [reflexivity|].
  rewrite insert_desc_perm. now constructor.
Qed.
End SortedFacts.

Lemma In_firstn {A} (n : nat) (l : list A) (x : A) :
  In x (firstn n l) -> In x l.
Proof.
  intros H. rewrite <- (firstn_skipn n l). apply in_or_app. now left.
Qed.

(** *** Reasoning about computations in [M] *)

Section Preserves.
Context {S : Type} (P : S -> Prop).

Lemma preserves_ret {A} (a : A) : preserves P (mret a : M S A).
Proof. intros s Hs. exact Hs. Qed.

Lemma preserves_get : preserves P (get : M S S).
Proof. intros s Hs. exact Hs. Qed.

Lemma preserves_lift_result {A} (r : result A) :
  preserves P (lift_result r : M S A).
Proof. intros s Hs. exact Hs. Qed.

Lemma preserves_modify (f : S -> S) :
  (forall s, P s -> P (f s)) -> preserves P (modify f).
Proof. intros Hf s Hs. now apply Hf. Qed.

Lemma preserves_bind {A B} (m : M S A) (k : A -> M S B) :
  preserves P m -> (forall a, preserves P (k a)) -> preserves P (m ≫= k).
Proof.
  intros Hm Hk s Hs. specialize (Hm s Hs).
  unfold mbind, M_bind, bind. destruct (m s) as [[a|e] s']; simpl in *.
  - now apply Hk.
  - exact Hm.
Qed.

Lemma preserves_try_except {A} (m : M S A) (h : exn -> M S A) :
  preserves P m -> (forall e, preserves P (h e)) ->
  preserves P (try_except m h).
Proof.
  intros Hm Hh s Hs. specialize (Hm s Hs).
  unfold try_except. destruct (m s) as [[a|e] s']; simpl in *.
  - exact Hm.
  - now apply Hh.
Qed.
End Preserves.

Lemma preserves_zoom {S T A} (P : S -> Prop) (Q : T -> Prop)
    (proj : S -> T) (upd : T -> S -> S) (m : M T A) :
  (forall s, P s -> Q (proj s)) ->
  (forall t s, P s -> Q t -> P (upd t s)) ->
  preserves Q m -> preserves P (zoom proj upd m).
Proof.
  intros Hproj Hupd Hm s Hs. unfold zoom.
  specialize (Hm (proj s) (Hproj s Hs)).
  destruct (m (proj s)) as [r t]; simpl in *. now apply Hupd.
Qed.

(** One step of a proof that a computation keeps a predicate. *)
Ltac preserves_step :=
  first
    [ apply preserves_ret
    | apply preserves_get
    | apply preserves_lift_result
    | apply preserves_bind; [|intros ?]
    | apply preserves_try_except; [|intros ?] ].

(** *** The priority gate of the warm cache *)

Lemma Forall_dict_set {V} (P : string * V -> Prop) (d : dict V) (k : string)
    (v : V) :
  Forall P d -> P (k, v) -> Forall P (dict_set d k v).
Proof.
  intros Hd Hkv. induction d as [|[k' v'] d IH]; simpl.
  - now constructor.
  - inversion Hd as [|? ? Hhd Htl]; subst.
    destruct (String.eqb k' k); constructor; auto.
Qed.

Lemma preload_item_threshold source now wm item :
  cache_priority_threshold (preload_item source now wm item)
  = cache_priority_threshold wm.
Proof.
  unfold preload_item.
  now destruct (ge (cache_priority item) (cache_priority_threshold wm)).
Qed.

Lemma preload_item_gate source now wm item :
  gate_holds wm -> gate_holds (preload_item source now wm item).
Proof.
  intros [Ht Hc]. unfold preload_item.
  destruct (ge (cache_priority item) (cache_priority_threshold wm)) eqn:G.
  - split; [exact Ht|]. simpl. apply Forall_dict_set; [exact Hc|].
    simpl. now rewrite <- Ht.
  - now split.
Qed.

Lemma preload_items_gate source now items :
  preserves gate_holds (preload_items source now items).
Proof.
  apply preserves_modify. induction items as [|item items IH]; intros wm Hwm.
  - exact Hwm.
  - simpl. apply IH. now apply preload_item_gate.
Qed.

Lemma log_event_gate ev : preserves gate_holds (log_event ev).
Proof. apply preserves_modify. intros wm Hwm. exact Hwm. Qed.

Lemma direct_warm_gate w session_id uc :
  preserves gate_holds
    (CacheWarmingEngine.warm_cache_for_session w session_id uc).
Proof.
  unfold CacheWarmingEngine.warm_cache_for_session,
    CacheWarmingEngine.load_core_knowledge,
    CacheWarmingEngine.predict_session_knowledge,
    CacheWarmingEngine.pattern_predict_knowledge,
    CacheWarmingEngine.load_strategic_insights,
    CacheWarmingEngine.background_preload,
    CacheWarmingEngine.preload_to_context.
  repeat first
    [ apply log_event_gate | apply preload_items_gate | preserves_step
    | match goal with |- preserves _ (if ?b then _ else _) => destruct b end ].
Qed.

Lemma mcp_warm_gate w session_id uc :
  preserves gate_holds
    (CAGCacheWarmerMCP.warm_cache_for_session w session_id uc).
Proof.
  unfold CAGCacheWarmerMCP.warm_cache_for_session,
    CAGCacheWarmerMCP.load_core_knowledge,
    CAGCacheWarmerMCP.predict_session_knowledge,
    CAGCacheWarmerMCP.load_strategic_insights,
    CAGCacheWarmerMCP.preload_to_context.
  repeat first
    [ apply log_event_gate | apply preload_items_gate | preserves_step ].
Qed.

Lemma zoom_warmer_gate {A} (m : M warmer A) :
  preserves gate_holds m ->
  preserves engine_gate (zoom cache_warmer set_cache_warmer m).
Proof.
  apply preserves_zoom.
  - intros e He. exact He.
  - intros wm e _ Hwm. exact Hwm.
Qed.

Lemma direct_ensure_gate w session_id uc :
  preserves engine_gate (CAGEngine.ensure_cache_warmed w session_id uc).
Proof.
  unfold CAGEngine.ensure_cache_warmed.
  apply preserves_bind; [apply preserves_get|]. intros e.
  destruct (is_warmed session_id e); [apply preserves_ret|].
  apply preserves_bind; [apply zoom_warmer_gate, direct_warm_gate|]. intros stats.
  apply preserves_bind; [|intros ?; apply preserves_ret].
  apply preserves_modify. intros e' He'. exact He'.
Qed.

Lemma mcp_ensure_gate w session_id uc :
  preserves engine_gate (CAGEngineMCP.ensure_cache_warmed w session_id uc).
Proof.
  unfold CAGEngineMCP.ensure_cache_warmed.
  apply preserves_bind; [apply preserves_get|]. intros e.
  destruct (is_warmed session_id e); [apply preserves_ret|].
  apply preserves_bind; [apply zoom_warmer_gate, mcp_warm_gate|]. intros stats.
  apply preserves_bind; [|intros ?; apply preserves_ret].
  apply preserves_modify. intros e' He'. exact He'.
Qed.

Lemma direct_process_query_gate w query session_id uc :
  preserves engine_gate (CAGEngine.process_query w query session_id uc).
Proof.
  unfold CAGEngine.process_query, CAGEngine._update_performance_metrics.
  apply preserves_bind; [apply direct_ensure_gate|]. intros _.
  apply preserves_bind; [apply preserves_get|]. intros e.
  apply preserves_bind; [|intros ?; apply preserves_ret].
  apply preserves_modify. intros e' He'. exact He'.
Qed.

Lemma mcp_process_query_gate w query session_id uc :
  preserves engine_gate (CAGEngineMCP.process_query w query session_id uc).
Proof.
  unfold CAGEngineMCP.process_query, CAGEngineMCP._update_performance_metrics,
    CAGEngineMCP._store_interaction_via_mcp.
  apply preserves_bind; [apply mcp_ensure_gate|]. intros _.
  apply preserves_bind; [apply preserves_get|]. intros e.
  apply preserves_bind; [apply preserves_lift_result|]. intros context.
  apply preserves_bind; [apply preserves_modify; intros e' He'; exact He'|].
  intros _.
  apply preserves_bind; [|intros ?; apply preserves_ret].
  repeat preserves_step.
Qed.

Lemma direct_warm_domain_gate w domain :
  preserves engine_gate (CAGEngine.warm_domain_cache w domain).
Proof.
  unfold CAGEngine.warm_domain_cache, CacheWarmingEngine.preload_to_context.
  apply preserves_try_except; [|intros ?; apply preserves_ret].
  apply preserves_bind; [apply preserves_lift_result|]. intros results.
  apply preserves_bind; [apply preserves_lift_result|]. intros items.
  apply preserves_bind; [|intros ?; apply preserves_ret].
  apply zoom_warmer_gate, preload_items_gate.
Qed.

Lemma direct_run_gate calls e :
  engine_gate e -> engine_gate (snd (DirectRun.run calls e)).
Proof.
  revert e. induction calls as [|c calls IH]; intros e He; [exact He|].
  simpl. destruct (DirectRun.exec c e) as [rs e'] eqn:Hexec.
  assert (He' : engine_gate e').
  { destruct c as [w q sid uc|w sid uc|w d]; simpl in Hexec.
    - pose proof (direct_process_query_gate w q sid uc e He) as H.
      destruct (CAGEngine.process_query w q sid uc e) as [r e1].
      injection Hexec as _ <-. exact H.
    - injection Hexec as _ <-. now apply direct_ensure_gate.
    - injection Hexec as _ <-. now apply direct_warm_domain_gate. }
  specialize (IH e' He').
  destruct (DirectRun.run calls e') as [rs' e'']. exact IH.
Qed.

Lemma mcp_run_gate calls e :
  engine_gate e -> engine_gate (snd (McpRun.run calls e)).
Proof.
  revert e. induction calls as [|c calls IH]; intros e He; [exact He|].
  simpl. destruct (McpRun.exec c e) as [rs e'] eqn:Hexec.
  assert (He' : engine_gate e').
  { destruct c as [w q sid uc|w sid uc]; simpl in Hexec.
    - pose proof (mcp_process_query_gate w q sid uc e He) as H.
      destruct (CAGEngineMCP.process_query w q sid uc e) as [r e1].
      injection Hexec as _ <-. exact H.
    - injection Hexec as _ <-. now apply mcp_ensure_gate. }
  specialize (IH e' He').
  destruct (McpRun.run calls e') as [rs' e'']. exact IH.
Qed.

Lemma dict_get_In {V} (d : dict V) (k : string) (v : V) :
  dict_get d k = Some v -> In (k, v) d.
Proof.
  induction d as [|[k' v'] d IH]; simpl; [discriminate|].
  destruct (String.eqb k' k) eqn:E.
  - apply String.eqb_eq in E. intros [= ->]. left. now subst.
  - intros H. right. now apply IH.
Qed.

Lemma preload_items_filter source now items wm :
  snd (preload_items source now items wm)
  = snd (preload_items source now
           (List.filter
              (fun item => ge (cache_priority item) (cache_priority_threshold wm))
              items)
           wm).
Proof.
  unfold preload_items, modify. simpl.
  revert wm. induction items as [|item items IH]; intros wm; [reflexivity|].
  simpl. destruct (ge (cache_priority item) (cache_priority_threshold wm)) eqn:G.
  - simpl. rewrite IH. rewrite preload_item_threshold. reflexivity.
  - assert (Hskip : preload_item source now wm item = wm).
    { unfold preload_item. now rewrite G. }
    rewrite Hskip. apply IH.
Qed.

(** C3: after any sequence of calls on a freshly constructed engine of either
    variant (queries, session warming, domain warming) the threshold is still
    0.3 and every entry of the warm cache has a priority greater than or equal
    to it; and preloading a list of candidates has the effect of preloading
    only those whose priority passes the threshold, the others are not
    inserted. *)
Theorem warm_cache_respects_threshold :
  (forall (max_tokens : Z) (calls : list DirectRun.call) (k : string)
          (entry : cache_entry),
     let wm := cache_warmer (snd (DirectRun.run calls (CAGEngine.new max_tokens))) in
     cache_priority_threshold wm = 0.3%float /\
     (dict_get (warm_cache wm) k = Some entry ->
      ge (priority entry) (cache_priority_threshold wm) = true)) /\
  (forall (max_tokens : Z) (calls : list McpRun.call) (k : string)
          (entry : cache_entry),
     let wm := cache_warmer (snd (McpRun.run calls (CAGEngineMCP.new max_tokens))) in
     cache_priority_threshold wm = 0.3%float /\
     (dict_get (warm_cache wm) k = Some entry ->
      ge (priority entry) (cache_priority_threshold wm) = true)) /\
  (forall (source : option string) (now : Z) (items : list cache_item)
          (wm : warmer),
     snd (preload_items source now items wm)
     = snd (preload_items source now
              (List.filter
                 (fun item => ge (cache_priority item) (cache_priority_threshold wm))
                 items)
              wm)).
Proof.
  split; [|split].
  - intros max_tokens calls k entry wm.
    assert (H : engine_gate (snd (DirectRun.run calls (CAGEngine.new max_tokens)))).
    { apply direct_run_gate. split; [reflexivity | constructor]. }
    destruct H as [Ht Hc]. fold wm in Ht, Hc. split; [exact Ht|].
    intros Hget. apply dict_get_In in Hget. rewrite Ht.
    rewrite List.Forall_forall in Hc. exact (Hc _ Hget).
  - intros max_tokens calls k entry wm.
    assert (H : engine_gate (snd (McpRun.run calls (CAGEngineMCP.new max_tokens)))).
    { apply mcp_run_gate. split; [reflexivity | constructor]. }
    destruct H as [Ht Hc]. fold wm in Ht, Hc. split; [exact Ht|].
    intros Hget. apply dict_get_In in Hget. rewrite Ht.
    rewrite List.Forall_forall in Hc. exact (Hc _ Hget).
  - intros. apply preload_items_filter.
Qed.

(** *** Performance metrics *)

Lemma arithmetic_mean_quotient (times : list Q) :
  (arithmetic_mean times == total_time times / inject_Z (len times))%Q.
Proof. destruct times; reflexivity. Qed.

Lemma total_time_snoc (times : list Q) (t : Q) :
  (total_time (times ++ [t]) == total_time times + t)%Q.
Proof.
  unfold total_time.
  induction times as [|x times IH]; cbn [app fold_right].
  - ring.
  - rewrite IH. ring.
Qed.

Lemma len_snoc {A} (l : list A) (x : A) : len (l ++ [x]) = len l + 1.
Proof. unfold len. rewrite length_app. simpl. lia. Qed.

(** The rolling update keeps the mean. *)
Lemma rolling_mean (times : list Q) (avg t : Q) :
  (avg == arithmetic_mean times)%Q ->
  ((avg * inject_Z (len times + 1 - 1) + t) / inject_Z (len times + 1)
   == arithmetic_mean (times ++ [t]))%Q.
Proof.
  intros Havg.
  rewrite (arithmetic_mean_quotient (times ++ [t])), total_time_snoc, len_snoc.
  assert (Hsum : (avg * inject_Z (len times) == total_time times)%Q).
  { rewrite Havg. destruct times as [|x times]; [reflexivity|].
    rewrite arithmetic_mean_quotient. field.
    unfold Qeq, len. simpl. lia. }
  replace (len times + 1 - 1) with (len times) by lia.
  rewrite Hsum. reflexivity.
Qed.

Lemma exact_rolling_snoc (n : Z) (avg : Q) (times : list Q) (t : Q) :
  exact_rolling_from n avg (times ++ [t])
  = ((exact_rolling_from n avg times * inject_Z (n + len times) + t)
     / inject_Z (n + len times + 1))%Q.
Proof.
  revert n avg. induction times as [|x times IH]; intros n avg.
  - cbn [app exact_rolling_from]. unfold len. cbn [length Z.of_nat].
    now rewrite Z.add_0_r.
  - cbn [app exact_rolling_from]. rewrite IH.
    replace (n + 1 + len times) with (n + len (x :: times))
      by (unfold len; cbn [length]; lia).
    reflexivity.
Qed.

(** In exact arithmetic the rolling update computes the mean. *)
Lemma exact_rolling_average_is_the_mean (times : list Q) :
  (exact_rolling_average times == arithmetic_mean times)%Q.
Proof.
  induction times as [|t times IH] using rev_ind; [reflexivity|].
  unfold exact_rolling_average in *. rewrite exact_rolling_snoc.
  replace (0 + len times) with (len times + 1 - 1) by lia.
  replace (len times + 1 - 1 + 1) with (len times + 1) by lia.
  now apply rolling_mean.
Qed.

Lemma rolling_snoc (n : Z) (avg : float) (times : list float) (t : float) :
  rolling_from n avg (times ++ [t])
  = ((rolling_from n avg times * float_of_Z (n + len times) + t)
     / float_of_Z (n + len times + 1))%float.
Proof.
  revert n avg. induction times as [|x times IH]; intros n avg.
  - cbn [app rolling_from]. unfold len. cbn [length Z.of_nat].
    now rewrite Z.add_0_r.
  - cbn [app rolling_from]. rewrite IH.
    replace (n + 1 + len times) with (n + len (x :: times))
      by (unfold len; cbn [length]; lia).
    reflexivity.
Qed.

Lemma metrics_step (calls_per_query : Z) (resps : list response)
    (m : metrics) (resp : response) :
  metrics_ok resps m ->
  metrics_ok (resps ++ [resp])
    (update_metrics calls_per_query (resp_performance resp) m).
Proof.
  intros (Hsum & Htotal & Havg). unfold metrics_ok, update_metrics.
  cbn [cache_hits cache_misses total_queries average_response_time].
  split; [|split].
  - destruct (cache_hit (resp_performance resp)); lia.
  - rewrite len_snoc. lia.
  - unfold processing_times. rewrite map_app. cbn [map].
    unfold rolling_average. rewrite rolling_snoc.
    fold (processing_times resps). fold (rolling_average (processing_times resps)).
    rewrite <- Havg, Htotal.
    replace (len (processing_times resps)) with (len resps)
      by (unfold len, processing_times; now rewrite length_map).
    replace (len resps + 1 - 1) with (0 + len resps) by lia.
    replace (len resps + 1) with (0 + len resps + 1) by lia.
    reflexivity.
Qed.

Lemma zoom_warmer_keeps_metrics {A} (m0 : metrics) (m : M warmer A) :
  preserves (keeps_metrics m0) (zoom cache_warmer set_cache_warmer m).
Proof.
  apply (preserves_zoom _ (fun _ => True)).
  - trivial.
  - intros wm e He _. exact He.
  - intros wm _. exact I.
Qed.

Lemma direct_ensure_keeps_metrics m0 w session_id uc :
  preserves (keeps_metrics m0) (CAGEngine.ensure_cache_warmed w session_id uc).
Proof.
  unfold CAGEngine.ensure_cache_warmed.
  apply preserves_bind; [apply preserves_get|]. intros e.
  destruct (is_warmed session_id e); [apply preserves_ret|].
  apply preserves_bind; [apply zoom_warmer_keeps_metrics|]. intros stats.
  apply preserves_bind; [|intros ?; apply preserves_ret].
  apply preserves_modify. intros e' He'. exact He'.
Qed.

Lemma mcp_ensure_keeps_metrics m0 w session_id uc :
  preserves (keeps_metrics m0) (CAGEngineMCP.ensure_cache_warmed w session_id uc).
Proof.
  unfold CAGEngineMCP.ensure_cache_warmed.
  apply preserves_bind; [apply preserves_get|]. intros e.
  destruct (is_warmed session_id e); [apply preserves_ret|].
  apply preserves_bind; [apply zoom_warmer_keeps_metrics|]. intros stats.
  apply preserves_bind; [|intros ?; apply preserves_ret].
  apply preserves_modify. intros e' He'. exact He'.
Qed.

Lemma direct_warm_domain_keeps_metrics m0 w domain :
  preserves (keeps_metrics m0) (CAGEngine.warm_domain_cache w domain).
Proof.
  unfold CAGEngine.warm_domain_cache.
  apply preserves_try_except; [|intros ?; apply preserves_ret].
  apply preserves_bind; [apply preserves_lift_result|]. intros results.
  apply preserves_bind; [apply preserves_lift_result|]. intros items.
  apply preserves_bind; [|intros ?; apply preserves_ret].
  apply zoom_warmer_keeps_metrics.
Qed.

(** What a call of [process_query] does to the metrics. *)
Lemma direct_process_query_metrics w query session_id uc e :
  match CAGEngine.process_query w query session_id uc e with
  | (Ok resp, e') =>
      performance_metrics e'
      = update_metrics 0 (resp_performance resp) (performance_metrics e)
  | (Raise _, e') => performance_metrics e' = performance_metrics e
  end.
Proof.
  pose proof (direct_ensure_keeps_metrics (performance_metrics e) w session_id
                uc e eq_refl) as H.
  unfold keeps_metrics in H.
  unfold CAGEngine.process_query, mbind, M_bind, bind.
  destruct (CAGEngine.ensure_cache_warmed w session_id uc e) as [[b|ex] e1];
    simpl in *; [|exact H].
  now rewrite H.
Qed.

Lemma mcp_process_query_metrics w query session_id uc e :
  match CAGEngineMCP.process_query w query session_id uc e with
  | (Ok resp, e') =>
      performance_metrics e'
      = update_metrics 5 (resp_performance resp) (performance_metrics e)
  | (Raise _, e') => performance_metrics e' = performance_metrics e
  end.
Proof.
  pose proof (mcp_ensure_keeps_metrics (performance_metrics e) w session_id
                uc e eq_refl) as H.
  unfold keeps_metrics in H.
  unfold CAGEngineMCP.process_query, mbind, M_bind, bind.
  destruct (CAGEngineMCP.ensure_cache_warmed w session_id uc e) as [[b|ex] e1];
    simpl in *; [|exact H].
  destruct (CAGContextManagerMCP.load_context_for_query (max_tokens e1) w query
              session_id) as [context|ex]; simpl; [|exact H].
  unfold CAGEngineMCP._store_interaction_via_mcp, try_except, mbind, M_bind,
    bind, lift_result.
  destruct (CAGCacheWarmerMCP.store_knowledge _ _ _ _ _) as [stored|ex]; simpl;
    now rewrite H.
Qed.

Lemma direct_run_metrics calls e resps0 :
  metrics_ok resps0 (performance_metrics e) ->
  metrics_ok (resps0 ++ fst (DirectRun.run calls e))
    (performance_metrics (snd (DirectRun.run calls e))).
Proof.
  revert e resps0. induction calls as [|c calls IH]; intros e resps0 Hok.
  - simpl. now rewrite app_nil_r.
  - simpl. destruct (DirectRun.exec c e) as [rs e'] eqn:Hexec.
    assert (Hok' : metrics_ok (resps0 ++ rs) (performance_metrics e')).
    { destruct c as [w q sid uc|w sid uc|w d]; simpl in Hexec.
      - pose proof (direct_process_query_metrics w q sid uc e) as H.
        destruct (CAGEngine.process_query w q sid uc e) as [[resp|ex] e1];
          injection Hexec as <- <-; simpl.
        + rewrite H. now apply metrics_step.
        + rewrite H, app_nil_r. exact Hok.
      - injection Hexec as <- <-. rewrite app_nil_r.
        now rewrite (direct_ensure_keeps_metrics _ w sid uc e eq_refl).
      - injection Hexec as <- <-. rewrite app_nil_r.
        now rewrite (direct_warm_domain_keeps_metrics _ w d e eq_refl). }
    specialize (IH e' (resps0 ++ rs) Hok').
    destruct (DirectRun.run calls e') as [rs' e'']. simpl in *.
    now rewrite app_assoc.
Qed.

Lemma mcp_run_metrics calls e resps0 :
  metrics_ok resps0 (performance_metrics e) ->
  metrics_ok (resps0 ++ fst (McpRun.run calls e))
    (performance_metrics (snd (McpRun.run calls e))).
Proof.
  revert e resps0. induction calls as [|c calls IH]; intros e resps0 Hok.
  - simpl. now rewrite app_nil_r.
  - simpl. destruct (McpRun.exec c e) as [rs e'] eqn:Hexec.
    assert (Hok' : metrics_ok (resps0 ++ rs) (performance_metrics e')).
    { destruct c as [w q sid uc|w sid uc]; simpl in Hexec.
      - pose proof (mcp_process_query_metrics w q sid uc e) as H.
        destruct (CAGEngineMCP.process_query w q sid uc e) as [[resp|ex] e1];
          injection Hexec as <- <-; simpl.
        + rewrite H. now apply metrics_step.
        + rewrite H, app_nil_r. exact Hok.
      - injection Hexec as <- <-. rewrite app_nil_r.
        now rewrite (mcp_ensure_keeps_metrics _ w sid uc e eq_refl). }
    specialize (IH e' (resps0 ++ rs) Hok').
    destruct (McpRun.run calls e') as [rs' e'']. simpl in *.
    now rewrite app_assoc.
Qed.

(** C10, as stated, fails: the update rounds at every step. Three queries
    that each take 0.1 s leave 0.10000000000000002 in average_response_time,
    while the arithmetic mean of the three durations is the duration
    itself. *)
Lemma rolling_average_is_rounded :
  let run :=
    DirectRun.run
      [DirectRun.ProcessQuery tenth_of_a_second_world "q1" "S1" None;
       DirectRun.ProcessQuery tenth_of_a_second_world "q2" "S1" None;
       DirectRun.ProcessQuery tenth_of_a_second_world "q3" "S1" None]
      (CAGEngine.new CAGEngine.default_max_tokens) in
  let times := processing_times (fst run) in
  let stored := average_response_time (performance_metrics (snd run)) in
  times = [0.1; 0.1; 0.1]%float /\
  stored = 0.10000000000000002%float /\
  (arithmetic_mean (map Q_of_float times) == Q_of_float 0.1)%Q /\
  ~ (Q_of_float stored == arithmetic_mean (map Q_of_float times))%Q.
Proof.
  split; [vm_compute; reflexivity|].
  split; [vm_compute; reflexivity|].
  split; [vm_compute; reflexivity|].
  vm_compute. discriminate.
Qed.

(** C10, amended: after any sequence of calls on a freshly constructed
    engine of either variant, cache_hits + cache_misses = total_queries,
    total_queries is the number of envelopes process_query has returned, and
    average_response_time is what the update (avg * (n - 1) + new) / n gives
    when it is applied in binary64 to their total_processing_time values in
    order, starting from 0. In exact arithmetic that update yields the
    arithmetic mean of the values; in binary64 every step rounds. *)
Theorem metrics_invariant :
  (forall (max_tokens : Z) (calls : list DirectRun.call),
     let resps := fst (DirectRun.run calls (CAGEngine.new max_tokens)) in
     let m := performance_metrics
                (snd (DirectRun.run calls (CAGEngine.new max_tokens))) in
     cache_hits m + cache_misses m = total_queries m /\
     total_queries m = len resps /\
     average_response_time m = rolling_average (processing_times resps)) /\
  (forall (max_tokens : Z) (calls : list McpRun.call),
     let resps := fst (McpRun.run calls (CAGEngineMCP.new max_tokens)) in
     let m := performance_metrics
                (snd (McpRun.run calls (CAGEngineMCP.new max_tokens))) in
     cache_hits m + cache_misses m = total_queries m /\
     total_queries m = len resps /\
     average_response_time m = rolling_average (processing_times resps)) /\
  (forall times : list Q,
     (exact_rolling_average times == arithmetic_mean times)%Q).
Proof.
  split; [|split].
  - intros max_tokens calls resps m.
    apply (direct_run_metrics calls (CAGEngine.new max_tokens) []).
    repeat split; reflexivity.
  - intros max_tokens calls resps m.
    apply (mcp_run_metrics calls (CAGEngineMCP.new max_tokens) []).
    repeat split; reflexivity.
  - apply exact_rolling_average_is_the_mean.
Qed.

Lemma warm_cache_respects_threshold_witness :
  let wm := cache_warmer
              (snd (DirectRun.run [DirectRun.ProcessQuery one_row_world "q" "S1" None]
                      (CAGEngine.new 128000))) in
  dict_get (warm_cache wm) "domain:k1" = Some scenario_entry /\
  ge (priority scenario_entry) (cache_priority_threshold wm) = true.
Proof.
  split; [vm_compute; reflexivity|].
  apply (proj2 (proj1 warm_cache_respects_threshold 128000
                  [DirectRun.ProcessQuery one_row_world "q" "S1" None]
                  "domain:k1"%string scenario_entry)).
  vm_compute. reflexivity.
Defined.

(** *** Warming once per session *)

Lemma preload_item_log source now wm item :
  warming_log (preload_item source now wm item) = warming_log wm.
Proof.
  unfold preload_item.
  now destruct (ge (cache_priority item) (cache_priority_threshold wm)).
Qed.

Lemma preload_items_log L source now items :
  preserves (log_is L) (preload_items source now items).
Proof.
  apply preserves_modify. unfold log_is.
  induction items as [|item items IH]; intros wm Hwm; [exact Hwm|].
  simpl. apply IH. now rewrite preload_item_log.
Qed.

Lemma log_grows_bind {A B} (L done : list warming_event) (m : M warmer A)
    (k : A -> M warmer B) :
  preserves (log_is L) m -> (forall a, log_grows L done (k a)) ->
  log_grows L done (m ≫= k).
Proof.
  intros Hm Hk wm Hwm. specialize (Hm wm Hwm).
  unfold mbind, M_bind, bind. destruct (m wm) as [[a|ex] wm1]; simpl in Hm.
  - now apply Hk.
  - exact Hm.
Qed.

Lemma log_grows_completed {A} (L : list warming_event) (ev : warming_event)
    (k : warmer -> A) :
  log_grows L [ev] (wm ← get; _ ← log_event ev; mret (k wm)).
Proof. intros wm Hwm. simpl. unfold log_is in *. simpl. now rewrite Hwm. Qed.

(** One step of a proof that a warmer computation grows the log. *)
Ltac log_step :=
  first
    [ apply log_grows_completed
    | apply log_grows_bind; [|intros ?]
    | apply preload_items_log
    | preserves_step
    | match goal with |- preserves _ (if ?b then _ else _) => destruct b end ].

(** What a call of [warm_cache_for_session] adds to the log. *)
Lemma direct_warm_log w session_id uc wm :
  match CacheWarmingEngine.warm_cache_for_session w session_id uc wm with
  | (Ok _, wm') =>
      warming_log wm'
      = warming_log wm ++ [WarmingStarted session_id; WarmingCompleted session_id]
  | (Raise _, wm') =>
      warming_log wm' = warming_log wm ++ [WarmingStarted session_id]
  end.
Proof.
  unfold CacheWarmingEngine.warm_cache_for_session.
  unfold mbind at 1, M_bind at 1, bind at 1. simpl.
  match goal with |- match ?m ?wm1 with _ => _ end =>
    assert (H : log_grows (warming_log wm ++ [WarmingStarted session_id])
                  [WarmingCompleted session_id] m)
  end.
  { unfold CacheWarmingEngine.load_core_knowledge,
      CacheWarmingEngine.predict_session_knowledge,
      CacheWarmingEngine.pattern_predict_knowledge,
      CacheWarmingEngine.load_strategic_insights,
      CacheWarmingEngine.background_preload,
      CacheWarmingEngine.preload_to_context.
    repeat log_step. }
  match goal with |- match ?m ?wm1 with _ => _ end =>
    specialize (H wm1 eq_refl); destruct (m wm1) as [[stats|ex] wm']
  end; unfold log_is in H; rewrite H; [|reflexivity].
  now rewrite <- app_assoc.
Qed.

Lemma mcp_warm_log w session_id uc wm :
  match CAGCacheWarmerMCP.warm_cache_for_session w session_id uc wm with
  | (Ok _, wm') =>
      warming_log wm'
      = warming_log wm ++ [WarmingStarted session_id; WarmingCompleted session_id]
  | (Raise _, wm') =>
      warming_log wm' = warming_log wm ++ [WarmingStarted session_id]
  end.
Proof.
  unfold CAGCacheWarmerMCP.warm_cache_for_session.
  unfold mbind at 1, M_bind at 1, bind at 1. simpl.
  match goal with |- match ?m ?wm1 with _ => _ end =>
    assert (H : log_grows (warming_log wm ++ [WarmingStarted session_id])
                  [WarmingCompleted session_id] m)
  end.
  { unfold CAGCacheWarmerMCP.load_core_knowledge,
      CAGCacheWarmerMCP.predict_session_knowledge,
      CAGCacheWarmerMCP.load_strategic_insights,
      CAGCacheWarmerMCP.preload_to_context.
    repeat log_step. }
  match goal with |- match ?m ?wm1 with _ => _ end =>
    specialize (H wm1 eq_refl); destruct (m wm1) as [[stats|ex] wm']
  end; unfold log_is in H; rewrite H; [|reflexivity].
  now rewrite <- app_assoc.
Qed.

Lemma is_warmed_insert_eq session_id record e :
  is_warmed session_id
    (set_session_cache_warmed (<[session_id := record]> (session_cache_warmed e)) e)
  = true.
Proof.
  unfold is_warmed. simpl. rewrite lookup_insert_eq.
  apply bool_decide_eq_true. eauto.
Qed.

Lemma is_warmed_insert_ne session_id other record e e0 :
  other <> session_id ->
  session_cache_warmed e = session_cache_warmed e0 ->
  is_warmed session_id
    (set_session_cache_warmed (<[other := record]> (session_cache_warmed e)) e)
  = is_warmed session_id e0.
Proof.
  intros Hne Hreg. unfold is_warmed. simpl.
  rewrite lookup_insert_ne by exact Hne. now rewrite Hreg.
Qed.

Lemma count_completed_after_failure (L : list warming_event)
    (other session_id : string) :
  count_occ warming_event_eq_dec (L ++ [WarmingStarted other])
    (WarmingCompleted session_id)
  = count_occ warming_event_eq_dec L (WarmingCompleted session_id).
Proof.
  rewrite count_occ_app, count_occ_cons_neq by discriminate.
  rewrite count_occ_nil. lia.
Qed.

Lemma count_completed_after_success (L : list warming_event)
    (other session_id : string) :
  count_occ warming_event_eq_dec
    (L ++ [WarmingStarted other; WarmingCompleted other])
    (WarmingCompleted session_id)
  = (count_occ warming_event_eq_dec L (WarmingCompleted session_id)
     + if decide (other = session_id) then 1 else 0)%nat.
Proof.
  rewrite count_occ_app, count_occ_cons_neq by discriminate.
  destruct (decide (other = session_id)) as [->|Hne].
  - rewrite count_occ_cons_eq by reflexivity. now rewrite count_occ_nil.
  - rewrite count_occ_cons_neq by congruence. now rewrite count_occ_nil.
Qed.

(** The effect of a warming of [other] on the counts and on the registry. *)
Lemma tracks_after_warming (e : engine) (other : string) (wm' : warmer)
    (outcome : option warming_record) :
  registry_tracks_log e ->
  is_warmed other e = false ->
  warming_log wm'
  = warming_log (cache_warmer e)
    ++ WarmingStarted other
       :: match outcome with Some _ => [WarmingCompleted other] | None => [] end ->
  registry_tracks_log
    (match outcome with
     | Some record =>
         set_session_cache_warmed
           (<[other := record]> (session_cache_warmed (set_cache_warmer wm' e)))
           (set_cache_warmer wm' e)
     | None => set_cache_warmer wm' e
     end).
Proof.
  intros Htr Hcold Hlog sid. destruct (Htr sid) as [Hle Hzero].
  assert (Hother := proj2 (Htr other) Hcold).
  unfold completed_warmings in *.
  destruct outcome as [record|]; cbn [cache_warmer set_session_cache_warmed
    set_cache_warmer]; rewrite Hlog.
  - rewrite count_completed_after_success.
    destruct (decide (other = sid)) as [->|Hne].
    + rewrite Hother. split; [lia|].
      rewrite (is_warmed_insert_eq sid record (set_cache_warmer wm' e)).
      discriminate.
    + rewrite (is_warmed_insert_ne sid other record (set_cache_warmer wm' e) e Hne
                 eq_refl).
      split; [lia|]. intros Hc. rewrite (Hzero Hc). reflexivity.
  - rewrite count_completed_after_failure. split; [exact Hle|].
    intros Hc. apply Hzero. exact Hc.
Qed.

Lemma direct_ensure_tracks w session_id uc :
  preserves registry_tracks_log (CAGEngine.ensure_cache_warmed w session_id uc).
Proof.
  intros e He. unfold CAGEngine.ensure_cache_warmed, mbind, M_bind, bind. simpl.
  destruct (is_warmed session_id e) eqn:Hw; [exact He|].
  unfold zoom.
  pose proof (direct_warm_log w session_id
                (Some (default CAGEngine.default_user_context uc))
                (cache_warmer e)) as Hlog.
  destruct (CacheWarmingEngine.warm_cache_for_session _ _ _ _) as [[stats|ex] wm'];
    simpl.
  - exact (tracks_after_warming e session_id wm' (Some _) He Hw Hlog).
  - exact (tracks_after_warming e session_id wm' None He Hw Hlog).
Qed.

Lemma mcp_ensure_tracks w session_id uc :
  preserves registry_tracks_log (CAGEngineMCP.ensure_cache_warmed w session_id uc).
Proof.
  intros e He. unfold CAGEngineMCP.ensure_cache_warmed, mbind, M_bind, bind. simpl.
  destruct (is_warmed session_id e) eqn:Hw; [exact He|].
  unfold zoom.
  pose proof (mcp_warm_log w session_id
                (Some (default CAGEngineMCP.default_user_context uc))
                (cache_warmer e)) as Hlog.
  destruct (CAGCacheWarmerMCP.warm_cache_for_session _ _ _ _) as [[stats|ex] wm'];
    simpl.
  - exact (tracks_after_warming e session_id wm' (Some _) He Hw Hlog).
  - exact (tracks_after_warming e session_id wm' None He Hw Hlog).
Qed.

Lemma tracks_set_metrics m e :
  registry_tracks_log e -> registry_tracks_log (set_performance_metrics m e).
Proof. intros He. exact He. Qed.

Lemma direct_process_query_tracks w query session_id uc :
  preserves registry_tracks_log (CAGEngine.process_query w query session_id uc).
Proof.
  unfold CAGEngine.process_query, CAGEngine._update_performance_metrics.
  apply preserves_bind; [apply direct_ensure_tracks|]. intros _.
  apply preserves_bind; [apply preserves_get|]. intros e.
  apply preserves_bind; [|intros ?; apply preserves_ret].
  apply preserves_modify. intros e' He'. now apply tracks_set_metrics.
Qed.

Lemma mcp_process_query_tracks w query session_id uc :
  preserves registry_tracks_log (CAGEngineMCP.process_query w query session_id uc).
Proof.
  unfold CAGEngineMCP.process_query, CAGEngineMCP._update_performance_metrics,
    CAGEngineMCP._store_interaction_via_mcp.
  apply preserves_bind; [apply mcp_ensure_tracks|]. intros _.
  apply preserves_bind; [apply preserves_get|]. intros e.
  apply preserves_bind; [apply preserves_lift_result|]. intros context.
  apply preserves_bind;
    [apply preserves_modify; intros e' He'; now apply tracks_set_metrics|].
  intros _.
  apply preserves_bind; [|intros ?; apply preserves_ret].
  repeat preserves_step.
Qed.

Lemma direct_warm_domain_tracks w domain :
  preserves registry_tracks_log (CAGEngine.warm_domain_cache w domain).
Proof.
  unfold CAGEngine.warm_domain_cache, CacheWarmingEngine.preload_to_context.
  apply preserves_try_except; [|intros ?; apply preserves_ret].
  apply preserves_bind; [apply preserves_lift_result|]. intros results.
  apply preserves_bind; [apply preserves_lift_result|]. intros items.
  apply preserves_bind; [|intros ?; apply preserves_ret].
  intros e He. unfold zoom.
  pose proof (preload_items_log (warming_log (cache_warmer e)) None
                (CacheWarmingEngine.datetime_now w) items (cache_warmer e) eq_refl)
    as Hlog.
  destruct (preload_items _ _ _ _) as [r wm']. simpl in *.
  intros sid. destruct (He sid) as [Hle Hzero].
  unfold completed_warmings, is_warmed in *. simpl. unfold log_is in Hlog.
  rewrite Hlog. now split.
Qed.

Lemma direct_run_tracks calls e :
  registry_tracks_log e -> registry_tracks_log (snd (DirectRun.run calls e)).
Proof.
  revert e. induction calls as [|c calls IH]; intros e He; [exact He|].
  simpl. destruct (DirectRun.exec c e) as [rs e'] eqn:Hexec.
  assert (He' : registry_tracks_log e').
  { destruct c as [w q sid uc|w sid uc|w d]; simpl in Hexec.
    - pose proof (direct_process_query_tracks w q sid uc e He) as H.
      destruct (CAGEngine.process_query w q sid uc e) as [r e1].
      injection Hexec as _ <-. exact H.
    - injection Hexec as _ <-. now apply direct_ensure_tracks.
    - injection Hexec as _ <-. now apply direct_warm_domain_tracks. }
  specialize (IH e' He').
  destruct (DirectRun.run calls e') as [rs' e'']. exact IH.
Qed.

Lemma mcp_run_tracks calls e :
  registry_tracks_log e -> registry_tracks_log (snd (McpRun.run calls e)).
Proof.
  revert e. induction calls as [|c calls IH]; intros e He; [exact He|].
  simpl. destruct (McpRun.exec c e) as [rs e'] eqn:Hexec.
  assert (He' : registry_tracks_log e').
  { destruct c as [w q sid uc|w sid uc]; simpl in Hexec.
    - pose proof (mcp_process_query_tracks w q sid uc e He) as H.
      destruct (CAGEngineMCP.process_query w q sid uc e) as [r e1].
      injection Hexec as _ <-. exact H.
    - injection Hexec as _ <-. now apply mcp_ensure_tracks. }
  specialize (IH e' He').
  destruct (McpRun.run calls e') as [rs' e'']. exact IH.
Qed.

Lemma new_engine_tracks (e : engine) :
  warming_log (cache_warmer e) = [] -> registry_tracks_log e.
Proof.
  intros Hlog sid. unfold completed_warmings. rewrite Hlog. simpl.
  split; [lia | reflexivity].
Qed.

(** A query for a recorded session leaves the warmer and the registry as
    they are. *)
Lemma direct_recorded_session_short_circuits w query session_id uc e :
  is_warmed session_id e = true ->
  same_warming_state e (snd (CAGEngine.process_query w query session_id uc e)).
Proof.
  intros Hw.
  unfold CAGEngine.process_query, CAGEngine.ensure_cache_warmed, mbind, M_bind,
    bind.
  simpl. rewrite Hw. simpl. now split.
Qed.

Lemma mcp_recorded_session_short_circuits w query session_id uc e :
  is_warmed session_id e = true ->
  same_warming_state e (snd (CAGEngineMCP.process_query w query session_id uc e)).
Proof.
  intros Hw.
  unfold CAGEngineMCP.process_query, CAGEngineMCP.ensure_cache_warmed, mbind,
    M_bind, bind.
  simpl. rewrite Hw. simpl. unfold lift_result.
  destruct (CAGContextManagerMCP.load_context_for_query _ _ _ _) as [context|ex];
    simpl; [|now split].
  unfold CAGEngineMCP._store_interaction_via_mcp, try_except, mbind, M_bind,
    bind, lift_result.
  destruct (CAGCacheWarmerMCP.store_knowledge _ _ _ _ _); simpl; now split.
Qed.

(** *** The cache-hit flag and the phases of warming *)

(** When [ensure_cache_warmed] returns, the session is recorded. *)
Lemma direct_ensure_records w session_id uc e b e1 :
  CAGEngine.ensure_cache_warmed w session_id uc e = (Ok b, e1) ->
  is_warmed session_id e1 = true.
Proof.
  unfold CAGEngine.ensure_cache_warmed, mbind, M_bind, bind, get, zoom.
  destruct (is_warmed session_id e) eqn:Hw.
  - intros [= _ <-]. exact Hw.
  - destruct (CacheWarmingEngine.warm_cache_for_session _ _ _ _) as [[stats|ex] wm'];
      [|discriminate].
    intros [= _ <-].
    exact (is_warmed_insert_eq session_id _ (set_cache_warmer wm' e)).
Qed.

Lemma mcp_ensure_records w session_id uc e b e1 :
  CAGEngineMCP.ensure_cache_warmed w session_id uc e = (Ok b, e1) ->
  is_warmed session_id e1 = true.
Proof.
  unfold CAGEngineMCP.ensure_cache_warmed, mbind, M_bind, bind, get, zoom.
  destruct (is_warmed session_id e) eqn:Hw.
  - intros [= _ <-]. exact Hw.
  - destruct (CAGCacheWarmerMCP.warm_cache_for_session _ _ _ _) as [[stats|ex] wm'];
      [|discriminate].
    intros [= _ <-].
    exact (is_warmed_insert_eq session_id _ (set_cache_warmer wm' e)).
Qed.

(** Whenever [process_query] returns an envelope, the flag is set: the
    branch that counts a miss is never taken. *)
Lemma direct_cache_hit_always w query session_id uc e resp e' :
  CAGEngine.process_query w query session_id uc e = (Ok resp, e') ->
  cache_hit (resp_performance resp) = true.
Proof.
  unfold CAGEngine.process_query. unfold mbind at 1, M_bind at 1, bind at 1.
  destruct (CAGEngine.ensure_cache_warmed w session_id uc e) as [[b|ex] e1] eqn:He;
    [|discriminate].
  apply direct_ensure_records in He.
  intros [= <- _]. exact He.
Qed.

Lemma mcp_cache_hit_always w query session_id uc e resp e' :
  CAGEngineMCP.process_query w query session_id uc e = (Ok resp, e') ->
  cache_hit (resp_performance resp) = true.
Proof.
  unfold CAGEngineMCP.process_query. unfold mbind at 1, M_bind at 1, bind at 1.
  destruct (CAGEngineMCP.ensure_cache_warmed w session_id uc e) as [[b|ex] e1] eqn:He;
    [|discriminate].
  apply mcp_ensure_records in He.
  unfold mbind, M_bind, bind, get, lift_result.
  destruct (CAGContextManagerMCP.load_context_for_query _ _ _ _) as [context|ex];
    [|discriminate].
  unfold CAGEngineMCP._store_interaction_via_mcp, try_except, mbind, M_bind,
    bind, lift_result, CAGEngineMCP._update_performance_metrics, modify.
  destruct (CAGCacheWarmerMCP.store_knowledge _ _ _ _ _); intros [= <- _]; exact He.
Qed.

(** C1: on a freshly constructed engine of either variant the first
    process_query for the session "S1", which is not in the warming registry,
    returns an envelope with cache_hit = true and increments cache_hits,
    leaving cache_misses at 0: the flag is computed after the session has
    been recorded. *)
Theorem first_query_reports_a_hit :
  let e0 := CAGEngine.new CAGEngine.default_max_tokens in
  let call := CAGEngine.process_query empty_store_world
                "How do I implement CAG?" "S1" None e0 in
  let m0 := CAGEngineMCP.new CAGEngineMCP.default_max_tokens in
  let mcall := CAGEngineMCP.process_query empty_client_world
                 "How do I implement CAG?" "S1" None m0 in
  is_warmed "S1" e0 = false /\
  (cache_hit ∘ resp_performance) <$> envelope_of (fst call) = [true] /\
  cache_hits (performance_metrics (snd call)) = 1 /\
  cache_misses (performance_metrics (snd call)) = 0 /\
  is_warmed "S1" m0 = false /\
  (cache_hit ∘ resp_performance) <$> envelope_of (fst mcall) = [true] /\
  cache_hits (performance_metrics (snd mcall)) = 1 /\
  cache_misses (performance_metrics (snd mcall)) = 0.
Proof. repeat split; vm_compute; reflexivity. Qed.

(** C2: when the fetch of Phase 1 raises, warm_cache_for_session of either
    variant raises the same exception: no CacheStats record is returned and
    the later phases are not run, the cache stays empty although the store
    has a row for them. *)
Theorem failing_phase_aborts_warming :
  let run := CacheWarmingEngine.warm_cache_for_session failing_core_world "S1"
               None (new_warmer false) in
  let mrun := CAGCacheWarmerMCP.warm_cache_for_session failing_core_client_world
                "S1" None (new_warmer false) in
  fst run = Raise (ClientError "connection refused") /\
  warm_cache (snd run) = [] /\
  fst mrun = Raise (ClientError "tool unavailable") /\
  warm_cache (snd mrun) = [].
Proof. repeat split; vm_compute; reflexivity. Qed.

(** *** Comparisons of binary64 values *)

Lemma SFcompare_Lt_Gt (a b : spec_float) :
  SFcompare a b = Some Lt -> SFcompare b a = Some Gt.
Proof.
  destruct a as [sa|sa| |sa ma ea], b as [sb|sb| |sb mb eb]; simpl;
    try discriminate; try (destruct sa; discriminate);
    try (destruct sb; discriminate);
    try (destruct sa, sb; (discriminate || reflexivity)).
  destruct sa, sb; try discriminate; try reflexivity.
  - rewrite (Z.compare_antisym ea eb).
    destruct (ea ?= eb)%Z; simpl; try discriminate; try reflexivity.
    change (Pos.compare_cont Eq mb ma) with (Pos.compare mb ma).
    change (Pos.compare_cont Eq ma mb) with (Pos.compare ma mb).
    rewrite (Pos.compare_antisym ma mb).
    destruct (ma ?= mb)%positive; simpl; (discriminate || reflexivity).
  - rewrite (Z.compare_antisym ea eb).
    destruct (ea ?= eb)%Z; simpl; try discriminate; try reflexivity.
    change (Pos.compare_cont Eq mb ma) with (Pos.compare mb ma).
    change (Pos.compare_cont Eq ma mb) with (Pos.compare ma mb).
    rewrite (Pos.compare_antisym ma mb).
    destruct (ma ?= mb)%positive; simpl; (discriminate || reflexivity).
Qed.

Lemma ltb_leb (x y : float) :
  PrimFloat.ltb x y = true -> PrimFloat.leb x y = true.
Proof.
  rewrite ltb_spec, leb_spec. unfold SFltb, SFleb.
  destruct (SFcompare (Prim2SF x) (Prim2SF y)) as [[| |]|];
    (discriminate || reflexivity).
Qed.

Lemma ltb_asym (x y : float) :
  PrimFloat.ltb x y = true -> PrimFloat.ltb y x = false.
Proof.
  rewrite !ltb_spec. unfold SFltb.
  destruct (SFcompare (Prim2SF x) (Prim2SF y)) as [[| |]|] eqn:E;
    try discriminate.
  intros _. now rewrite (SFcompare_Lt_Gt _ _ E).
Qed.

Lemma min1_le_1 (x : float) : PrimFloat.leb (min1 x) 1 = true.
Proof.
  unfold min1. destruct (PrimFloat.ltb x 1) eqn:E.
  - now apply ltb_leb.
  - reflexivity.
Qed.

Lemma max0_ge_0 (x : float) : PrimFloat.leb 0 (max0 x) = true.
Proof.
  unfold max0. destruct (PrimFloat.ltb 0 x) eqn:E.
  - now apply ltb_leb.
  - reflexivity.
Qed.

(** *** More on scoring and classification *)

(** X1: no priority exceeds 1: for every item and every clock reading the
    result of either scorer is less than or equal to 1.0. *)
Theorem priority_at_most_one (now : Z) (it : knowledge_item) :
  PrimFloat.leb (CacheWarmingEngine.calculate_cache_priority now it) 1 = true /\
  PrimFloat.leb (CAGCacheWarmerMCP.calculate_cache_priority now it) 1 = true.
Proof. split; apply min1_le_1. Qed.

Lemma unknown_type_tests (kt : string) :
  dict_get type_weights kt = None ->
  dict_get CacheWarmingEngine.strategic_values kt = None /\
  String.eqb kt "procedural" = false /\
  String.eqb kt "technical_discovery" = false /\
  String.eqb kt "experiential" = false /\
  String.eqb kt "contextual" = false.
Proof.
  unfold type_weights, CacheWarmingEngine.strategic_values, dict_get.
  rewrite (String.eqb_sym kt "procedural"),
    (String.eqb_sym kt "technical_discovery"),
    (String.eqb_sym kt "experiential"), (String.eqb_sym kt "contextual").
  destruct (String.eqb "procedural" kt); [intros [=]|].
  destruct (String.eqb "technical_discovery" kt); [intros [=]|].
  destruct (String.eqb "experiential" kt); [intros [=]|].
  destruct (String.eqb "contextual" kt); [intros [=]|].
  destruct (String.eqb "factual" kt); [intros [=]|].
  destruct (String.eqb "relational" kt); [intros [=]|].
  intros _. repeat split.
Qed.

(** X2: a knowledge type that is not a key of the weight table is treated as
    'factual': the item gets the priority and the layer that the same item
    of type 'factual' gets, in both variants, and the direct-store classifier
    puts it in the layer 'dynamic'. *)
Theorem unknown_type_is_treated_as_factual
    (kt : string) (it : knowledge_item) (now : Z) :
  dict_get type_weights kt = None ->
  let unknown := with_knowledge_type (Some kt) it in
  let factual := with_knowledge_type (Some "factual"%string) it in
  CacheWarmingEngine.calculate_cache_priority now unknown
    = CacheWarmingEngine.calculate_cache_priority now factual /\
  CAGCacheWarmerMCP.calculate_cache_priority now unknown
    = CAGCacheWarmerMCP.calculate_cache_priority now factual /\
  CacheWarmingEngine.determine_cache_layer unknown = "dynamic"%string /\
  CAGCacheWarmerMCP.determine_cache_layer unknown
    = CAGCacheWarmerMCP.determine_cache_layer factual.
Proof.
  intros Hkt unknown factual.
  destruct (unknown_type_tests kt Hkt) as (Hs & H1 & H2 & H3 & H4).
  unfold CacheWarmingEngine.calculate_cache_priority,
    CAGCacheWarmerMCP.calculate_cache_priority,
    CacheWarmingEngine.determine_cache_layer,
    CAGCacheWarmerMCP.determine_cache_layer, dict_get_default.
  change (knowledge_type_of unknown) with kt.
  change (knowledge_type_of factual) with "factual"%string.
  change (recency now unknown) with (recency now factual).
  change (item_access_count unknown) with (item_access_count factual).
  change (item_importance_score unknown) with (item_importance_score factual).
  rewrite Hkt, Hs, H1, H2, H3, H4. simpl. repeat split.
Qed.

Lemma unknown_type_is_treated_as_factual_witness :
  dict_get type_weights "technical" = None /\
  CacheWarmingEngine.determine_cache_layer technical_item = "dynamic"%string.
Proof.
  split; [reflexivity|].
  exact (proj1 (proj2 (proj2
    (unknown_type_is_treated_as_factual "technical" technical_item 0 eq_refl)))).
Defined.

(** X3: an item without 'created_at' is scored as if created at the instant
    of the call: its priority is that of the same item stamped with the clock
    reading, whatever the reading, in both variants. *)
Theorem missing_created_at_counts_as_now (it : knowledge_item) (now : Z) :
  item_created_at it = None ->
  CacheWarmingEngine.calculate_cache_priority now it
    = CacheWarmingEngine.calculate_cache_priority now (with_created_at (Some now) it) /\
  CAGCacheWarmerMCP.calculate_cache_priority now it
    = CAGCacheWarmerMCP.calculate_cache_priority now (with_created_at (Some now) it) /\
  recency now it = 1%float.
Proof.
  intros H.
  assert (Hr : recency now it = 1%float).
  { unfold recency, days_old, timedelta_days. rewrite H. simpl.
    now rewrite Z.sub_diag. }
  assert (Hr' : recency now (with_created_at (Some now) it) = 1%float)
    by now apply recency_same_instant.
  unfold CacheWarmingEngine.calculate_cache_priority,
    CAGCacheWarmerMCP.calculate_cache_priority.
  rewrite Hr, Hr'. repeat split.
Qed.

Lemma missing_created_at_counts_as_now_witness :
  item_created_at technical_item = None /\
  recency fifteen_days technical_item = 1%float.
Proof.
  split; [reflexivity|].
  exact (proj2 (proj2
    (missing_created_at_counts_as_now technical_item fifteen_days eq_refl))).
Defined.

(** X4: the direct-store classifier only ever answers 'domain',
    'experience', 'session' or 'dynamic'; the classifier of the tool variant
    answers 'strategic' when importance_score (50 when absent) exceeds 80 and
    agrees with the direct-store classifier otherwise. *)
Theorem classifier_layers (it : knowledge_item) :
  In (CacheWarmingEngine.determine_cache_layer it)
     ["domain"; "experience"; "session"; "dynamic"]%string /\
  CAGCacheWarmerMCP.determine_cache_layer it
    = (if 80 <? default 50 (item_importance_score it) then "strategic"%string
       else CacheWarmingEngine.determine_cache_layer it).
Proof.
  split.
  - unfold CacheWarmingEngine.determine_cache_layer.
    destruct (_ || _)%bool; [simpl; tauto|].
    destruct (String.eqb _ "experiential"); [simpl; tauto|].
    destruct (String.eqb _ "contextual"); simpl; tauto.
  - reflexivity.
Qed.

(** *** Insertion and lookup in the warm cache *)

Lemma dict_get_set_eq {V} (d : dict V) (k : string) (v : V) :
  dict_get (dict_set d k v) k = Some v.
Proof.
  induction d as [|[k' v'] d IH]; simpl.
  - now rewrite String.eqb_refl.
  - destruct (String.eqb k' k) eqn:E; simpl.
    + now rewrite String.eqb_refl.
    + now rewrite E.
Qed.

Lemma dict_get_set_ne {V} (d : dict V) (k k' : string) (v : V) :
  k <> k' -> dict_get (dict_set d k v) k' = dict_get d k'.
Proof.
  intros Hne. induction d as [|[k0 v0] d IH]; simpl.
  - destruct (String.eqb k k') eqn:E; [|reflexivity].
    apply String.eqb_eq in E. contradiction.
  - destruct (String.eqb k0 k) eqn:E; simpl.
    + apply String.eqb_eq in E. subst k0.
      destruct (String.eqb k k') eqn:E'; [|reflexivity].
      apply String.eqb_eq in E'. contradiction.
    + now rewrite IH.
Qed.

Lemma dict_set_length {V} (d : dict V) (k : string) (v : V) :
  (length d <= length (dict_set d k v) <= S (length d))%nat.
Proof.
  induction d as [|[k' v'] d IH]; simpl; [lia|].
  destruct (String.eqb k' k); simpl; lia.
Qed.

Lemma dict_set_keeps {V} (d : dict V) (k k' : string) (v : V) :
  is_Some (dict_get d k') -> is_Some (dict_get (dict_set d k v) k').
Proof.
  intros H. destruct (String.eqb_spec k k') as [->|Hne].
  - rewrite dict_get_set_eq. eauto.
  - now rewrite dict_get_set_ne.
Qed.

Lemma preload_item_passes source now wm item :
  ge (cache_priority item) (cache_priority_threshold wm) = true ->
  warm_cache (preload_item source now wm item)
  = dict_set (warm_cache wm) (cache_key item) (entry_of source now item).
Proof. intros H. unfold preload_item. now rewrite H. Qed.

Lemma preload_item_fails source now wm item :
  ge (cache_priority item) (cache_priority_threshold wm) = false ->
  preload_item source now wm item = wm.
Proof. intros H. unfold preload_item. now rewrite H. Qed.

Lemma preload_fold_threshold source now items wm :
  cache_priority_threshold (fold_left (preload_item source now) items wm)
  = cache_priority_threshold wm.
Proof.
  revert wm. induction items as [|item items IH]; intros wm; [reflexivity|].
  simpl. now rewrite IH, preload_item_threshold.
Qed.

Lemma preload_item_keeps source now wm item k :
  cached k wm -> cached k (preload_item source now wm item).
Proof.
  unfold cached, preload_item.
  destruct (ge _ _); [|trivial]. simpl. apply dict_set_keeps.
Qed.

Lemma preload_fold_keeps source now items wm k :
  cached k wm -> cached k (fold_left (preload_item source now) items wm).
Proof.
  revert wm. induction items as [|item items IH]; intros wm H; [exact H|].
  simpl. apply IH. now apply preload_item_keeps.
Qed.

Lemma preload_item_length source now wm item :
  (length (warm_cache wm)
   <= length (warm_cache (preload_item source now wm item))
   <= S (length (warm_cache wm)))%nat.
Proof.
  unfold preload_item. destruct (ge _ _); simpl; [|lia].
  apply dict_set_length.
Qed.

Lemma preload_fold_length source now items wm :
  (length (warm_cache wm)
   <= length (warm_cache (fold_left (preload_item source now) items wm))
   <= length (warm_cache wm) + length items)%nat.
Proof.
  revert wm. induction items as [|item items IH]; intros wm; simpl; [lia|].
  specialize (IH (preload_item source now wm item)).
  pose proof (preload_item_length source now wm item). lia.
Qed.

(** X5: preloading inserts under the key "<layer>:<id>" and the last write
    wins: after preloading a list, every candidate that passes the threshold
    has its key in the cache, the key of the last candidate, when that one
    passes, is bound to the entry made of it, and a key that is the key of no
    candidate keeps its binding. *)
Theorem preload_inserts_and_overwrites
    (source : option string) (now : Z) (items : list cache_item)
    (last : cache_item) (wm : warmer) :
  let wm' := snd (preload_items source now (items ++ [last]) wm) in
  (forall item,
     In item (items ++ [last]) ->
     ge (cache_priority item) (cache_priority_threshold wm) = true ->
     cached (cache_key item) wm') /\
  (ge (cache_priority last) (cache_priority_threshold wm) = true ->
   dict_get (warm_cache wm') (cache_key last) = Some (entry_of source now last)) /\
  (forall k,
     (forall item, In item (items ++ [last]) -> cache_key item <> k) ->
     dict_get (warm_cache wm') k = dict_get (warm_cache wm) k).
Proof.
  intros wm'. unfold wm', preload_items, modify. simpl. split; [|split].
  - generalize (items ++ [last]). clear. intros l. revert wm.
    induction l as [|x l IH]; intros wm item Hin Hge; [contradiction|].
    simpl. destruct Hin as [->|Hin].
    + apply preload_fold_keeps. unfold cached.
      rewrite preload_item_passes by exact Hge.
      rewrite dict_get_set_eq. eauto.
    + apply IH; [exact Hin|]. now rewrite preload_item_threshold.
  - intros Hge. rewrite fold_left_app. simpl.
    rewrite preload_item_passes
      by (now rewrite preload_fold_threshold).
    apply dict_get_set_eq.
  - generalize (items ++ [last]). clear. intros l. revert wm.
    induction l as [|x l IH]; intros wm k Hk; [reflexivity|].
    simpl. rewrite IH by (intros item Hin; apply Hk; now right).
    unfold preload_item. destruct (ge _ _); [|reflexivity]. simpl.
    apply dict_get_set_ne. apply Hk. now left.
Qed.

Lemma preload_inserts_and_overwrites_witness :
  let wm' := snd (preload_items None 0 ([domain_item "1"] ++ [domain_item "2"])
                    (new_warmer false)) in
  ge (cache_priority (domain_item "2")) (cache_priority_threshold (new_warmer false))
    = true /\
  dict_get (warm_cache wm') "domain:2" = Some (entry_of None 0 (domain_item "2")).
Proof.
  split; [reflexivity|].
  apply (proj1 (proj2 (preload_inserts_and_overwrites None 0 [domain_item "1"]
                         (domain_item "2") (new_warmer false)))).
  reflexivity.
Defined.

(** *** Keys and layers *)

Lemma append_cons (c : ascii) (s t : string) :
  String c s +:+ t = String c (s +:+ t).
Proof. reflexivity. Qed.

Lemma prefix_cons (a c : ascii) (s t : string) :
  String.prefix (String a s) (String c t)
  = if ascii_dec a c then String.prefix s t else false.
Proof. reflexivity. Qed.

Lemma prefix_nil (s : string) : String.prefix "" s = true.
Proof. now destruct s. Qed.

Lemma prefix_layer (L layer rest : string) :
  colon_free L = true -> colon_free layer = true ->
  String.prefix (L +:+ ":") (layer +:+ ":" +:+ rest) = true <-> layer = L.
Proof.
  revert layer. induction L as [|a L IH]; intros layer HL Hlayer.
  - change ("" +:+ ":")%string with (String ":" "").
    destruct layer as [|c layer].
    + change ("" +:+ ":" +:+ rest)%string with (String ":" rest).
      rewrite prefix_cons. destruct (ascii_dec ":" ":"); [|contradiction].
      rewrite prefix_nil. split; reflexivity.
    + rewrite append_cons, prefix_cons.
      simpl in Hlayer. apply andb_prop in Hlayer as [Hc _].
      destruct (ascii_dec ":" c) as [<-|Hne].
      * discriminate.
      * split; discriminate.
  - simpl in HL. apply andb_prop in HL as [Ha HL].
    rewrite append_cons.
    destruct layer as [|c layer].
    + change ("" +:+ ":" +:+ rest)%string with (String ":" rest).
      rewrite prefix_cons. destruct (ascii_dec a ":") as [->|Hne].
      * discriminate.
      * split; discriminate.
    + simpl in Hlayer. apply andb_prop in Hlayer as [Hc Hlayer].
      rewrite append_cons, prefix_cons.
      destruct (ascii_dec a c) as [->|Hne].
      * rewrite (IH layer HL Hlayer). split; [now intros ->|now intros [= ->]].
      * split; [discriminate|]. intros [= -> _]. contradiction.
Qed.

(** X7: the layer is recovered from the key: for layer names without a colon,
    the key "<layer>:<id>" of a candidate begins with "L:" exactly when the
    candidate's layer is L, whatever its id. *)
Theorem key_prefix_identifies_layer (item : cache_item) (L : string) :
  colon_free L = true -> colon_free (cache_layer item) = true ->
  startswith (cache_key item) (L +:+ ":") = true <-> cache_layer item = L.
Proof.
  intros HL Hlayer. unfold startswith, cache_key. now apply prefix_layer.
Qed.

Lemma key_prefix_identifies_layer_witness :
  colon_free "domain" = true /\
  colon_free (cache_layer (domain_item "a:b")) = true /\
  startswith (cache_key (domain_item "a:b")) "domain:" = true.
Proof.
  split; [reflexivity|]. split; [reflexivity|].
  apply (proj2 (key_prefix_identifies_layer (domain_item "a:b") "domain"
                  eq_refl eq_refl)).
  reflexivity.
Defined.

(** *** Assertions on computations *)

Section Hoare.
Context {S : Type}.

Lemma hoare_ret {A} (P : S -> Prop) (a : A) (Q : A -> S -> Prop) (E : S -> Prop) :
  (forall s, P s -> Q a s) -> hoare P (mret a : M S A) Q E.
Proof. intros H s Hs. now apply H. Qed.

Lemma hoare_get (P : S -> Prop) (Q : S -> S -> Prop) (E : S -> Prop) :
  (forall s, P s -> Q s s) -> hoare P get Q E.
Proof. intros H s Hs. now apply H. Qed.

Lemma hoare_modify (P : S -> Prop) (f : S -> S) (Q : unit -> S -> Prop)
    (E : S -> Prop) :
  (forall s, P s -> Q tt (f s)) -> hoare P (modify f) Q E.
Proof. intros H s Hs. now apply H. Qed.

Lemma hoare_lift_result {A} (P : S -> Prop) (r : result A)
    (Q : A -> S -> Prop) (E : S -> Prop) :
  (forall a s, r = Ok a -> P s -> Q a s) -> (forall s, P s -> E s) ->
  hoare P (lift_result r) Q E.
Proof.
  intros HQ HE s Hs. unfold lift_result. destruct r as [a|e]; auto.
Qed.

Lemma hoare_bind {A B} (P : S -> Prop) (m : M S A) (R : A -> S -> Prop)
    (k : A -> M S B) (Q : B -> S -> Prop) (E : S -> Prop) :
  hoare P m R E -> (forall a, hoare (R a) (k a) Q E) ->
  hoare P (m ≫= k) Q E.
Proof.
  intros Hm Hk s Hs. specialize (Hm s Hs).
  unfold mbind, M_bind, bind. destruct (m s) as [[a|e] s'].
  - now apply Hk.
  - exact Hm.
Qed.

Lemma hoare_weaken {A} (P P' : S -> Prop) (m : M S A) (Q Q' : A -> S -> Prop)
    (E E' : S -> Prop) :
  hoare P m Q E -> (forall s, P' s -> P s) ->
  (forall a s, Q a s -> Q' a s) -> (forall s, E s -> E' s) ->
  hoare P' m Q' E'.
Proof.
  intros H HP HQ HE s Hs. specialize (H s (HP s Hs)).
  destruct (m s) as [[a|e] s']; auto.
Qed.

Lemma hoare_bind_load {A B} (P : S -> Prop) (m : M S A) (R : A -> S -> Prop)
    (k : A -> M S B) (Q : B -> S -> Prop) (E E0 : S -> Prop) :
  hoare P m R E0 -> (forall s, E0 s -> E s) ->
  (forall a, hoare (R a) (k a) Q E) ->
  hoare P (m ≫= k) Q E.
Proof.
  intros Hm HE Hk. apply (hoare_bind P m R k Q E); [|exact Hk].
  apply (hoare_weaken P P m R R E0 E); auto.
Qed.

Lemma preserves_hoare {A} (P : S -> Prop) (m : M S A) :
  preserves P m -> hoare P m (fun _ => P) P.
Proof.
  intros H s Hs. specialize (H s Hs). now destruct (m s) as [[a|e] s'].
Qed.
End Hoare.

(** *** What the loaders return *)

Lemma result_map_length {A B} (f : A -> result B) (l : list A) (l' : list B) :
  result_map f l = Ok l' -> length l' = length l.
Proof.
  revert l'. induction l as [|x l IH]; intros l'; simpl.
  - now intros [= <-].
  - destruct (f x) as [y|e]; simpl; [|discriminate].
    destruct (result_map f l) as [ys|e]; simpl; [|discriminate].
    intros [= <-]. simpl. now rewrite (IH ys).
Qed.

Lemma result_map_Forall {A B} (f : A -> result B) (P : B -> Prop)
    (l : list A) (l' : list B) :
  (forall x y, f x = Ok y -> P y) ->
  result_map f l = Ok l' -> Forall P l'.
Proof.
  intros Hf. revert l'. induction l as [|x l IH]; intros l'; simpl.
  - intros [= <-]. constructor.
  - destruct (f x) as [y|e] eqn:Ex; simpl; [|discriminate].
    destruct (result_map f l) as [ys|e]; simpl; [|discriminate].
    intros [= <-]. constructor; [now apply (Hf x)|now apply IH].
Qed.

Lemma sorted_desc_length {A} (key : A -> float) (l : list A) :
  length (sorted_desc key l) = length l.
Proof. apply Permutation_length, sorted_desc_perm. Qed.

Lemma sorted_desc_Forall {A} (key : A -> float) (P : A -> Prop) (l : list A) :
  Forall P l -> Forall P (sorted_desc key l).
Proof.
  apply Permutation_Forall. symmetry. apply sorted_desc_perm.
Qed.

Lemma direct_layer_warmed (it : knowledge_item) :
  In (CacheWarmingEngine.determine_cache_layer it) warmed_layers.
Proof.
  unfold CacheWarmingEngine.determine_cache_layer, warmed_layers.
  destruct (_ || _)%bool; [simpl; tauto|].
  destruct (String.eqb _ "experiential"); [simpl; tauto|].
  destruct (String.eqb _ "contextual"); simpl; tauto.
Qed.

Lemma mcp_layer_warmed (it : knowledge_item) :
  In (CAGCacheWarmerMCP.determine_cache_layer it) warmed_layers.
Proof.
  unfold CAGCacheWarmerMCP.determine_cache_layer, warmed_layers.
  destruct (80 <? _); [simpl; tauto|].
  destruct (_ || _)%bool; [simpl; tauto|].
  destruct (String.eqb _ "experiential"); [simpl; tauto|].
  destruct (String.eqb _ "contextual"); simpl; tauto.
Qed.

Lemma direct_make_cache_item_ok now layer confidence row item :
  (forall it, In (layer it) warmed_layers) ->
  CacheWarmingEngine.make_cache_item now layer confidence row = Ok item ->
  item_ok item.
Proof.
  intros Hlayer. unfold CacheWarmingEngine.make_cache_item, result_bind, getitem.
  destruct (item_knowledge_type row); [|discriminate].
  destruct (item_category row); [|discriminate].
  destruct (item_created_at row); [|discriminate].
  intros [= <-]. split; simpl; [apply Hlayer|apply min1_le_1].
Qed.

Lemma mcp_make_cache_item_ok now category layer row item :
  (forall it, In (layer it) warmed_layers) ->
  CAGCacheWarmerMCP.make_cache_item now category layer row = Ok item ->
  item_ok item.
Proof.
  intros Hlayer. unfold CAGCacheWarmerMCP.make_cache_item, result_bind, getitem.
  destruct (item_knowledge_type row); [|discriminate].
  destruct (item_created_at row); [|discriminate].
  intros [= <-]. split; simpl; [apply Hlayer|apply min1_le_1].
Qed.

(** A loader of the shape fetch, convert, reorder: it leaves the warmer as it
    is and returns one good candidate per row. *)
Lemma row_loader_spec {A} (P : warmer -> Prop) (r : result (list A))
    (f : A -> result cache_item) (g : list cache_item -> list cache_item) :
  (forall x y, f x = Ok y -> item_ok y) ->
  (forall l, length (g l) = length l) ->
  (forall l, Forall item_ok l -> Forall item_ok (g l)) ->
  hoare P
    (results ← lift_result r; items ← lift_result (result_map f results);
     mret (g items))
    (fun items wm =>
       P wm /\ Forall item_ok items /\ len items = len (fetched r))
    P.
Proof.
  intros Hf Hlen Hg wm Hwm. unfold mbind, M_bind, bind, lift_result.
  destruct r as [rows|e]; [|exact Hwm].
  destruct (result_map f rows) as [items|e] eqn:Hmap; [|exact Hwm].
  simpl. split; [exact Hwm|]. split.
  - apply Hg. now apply (result_map_Forall f item_ok rows).
  - unfold len. rewrite Hlen. now rewrite (result_map_length f rows items Hmap).
Qed.

Lemma row_loader_spec' {A} (P : warmer -> Prop) (r : result (list A))
    (f : A -> result cache_item) :
  (forall x y, f x = Ok y -> item_ok y) ->
  hoare P
    (results ← lift_result r; lift_result (result_map f results))
    (fun items wm =>
       P wm /\ Forall item_ok items /\ len items = len (fetched r))
    P.
Proof.
  intros Hf wm Hwm. unfold mbind, M_bind, bind, lift_result.
  destruct r as [rows|e]; [|exact Hwm].
  destruct (result_map f rows) as [items|e] eqn:Hmap; [|exact Hwm].
  simpl. split; [exact Hwm|]. split.
  - now apply (result_map_Forall f item_ok rows).
  - unfold len. now rewrite (result_map_length f rows items Hmap).
Qed.

Lemma direct_load_core_spec (P : warmer -> Prop) w :
  hoare P (CacheWarmingEngine.load_core_knowledge w)
    (fun items wm =>
       P wm /\ Forall item_ok items /\
       len items = len (fetched (CacheWarmingEngine.fetch w
                                   CacheWarmingEngine.CoreKnowledgeQuery)))
    P.
Proof.
  apply row_loader_spec.
  - intros x y. apply direct_make_cache_item_ok, direct_layer_warmed.
  - apply sorted_desc_length.
  - apply sorted_desc_Forall.
Qed.

Lemma direct_predict_session_spec (P : warmer -> Prop) w uc :
  hoare P (CacheWarmingEngine.predict_session_knowledge w uc)
    (fun items wm =>
       P wm /\ Forall item_ok items /\
       len items = len (fetched (CacheWarmingEngine.fetch w (session_query uc))))
    P.
Proof.
  unfold CacheWarmingEngine.predict_session_knowledge, session_query.
  destruct (default [] (keywords uc)) as [|kw kws];
    (apply row_loader_spec;
     [ intros x y; apply direct_make_cache_item_ok, direct_layer_warmed
     | apply sorted_desc_length
     | apply sorted_desc_Forall ]).
Qed.

Lemma direct_pattern_predict_spec (P : warmer -> Prop) (pr : bool) w session_id :
  (forall wm, P wm -> pattern_recognizer wm = pr) ->
  hoare P (CacheWarmingEngine.pattern_predict_knowledge w session_id)
    (fun items wm =>
       P wm /\ Forall item_ok items /\
       len items
       = if pr
         then len (fetched (CacheWarmingEngine.fetch w
                              CacheWarmingEngine.PatternQuery))
         else 0)
    P.
Proof.
  intros Hpr. unfold CacheWarmingEngine.pattern_predict_knowledge.
  intros wm Hwm. unfold mbind at 1, M_bind at 1, bind at 1, get.
  rewrite <- (Hpr wm Hwm). destruct (pattern_recognizer wm); simpl.
  - apply (row_loader_spec' P); [|exact Hwm].
    intros x y. apply direct_make_cache_item_ok. intros _. simpl. tauto.
  - repeat split; [exact Hwm|constructor].
Qed.

Lemma direct_load_strategic_spec (P : warmer -> Prop) w :
  hoare P (CacheWarmingEngine.load_strategic_insights w)
    (fun items wm =>
       P wm /\ Forall item_ok items /\
       len items = len (fetched (CacheWarmingEngine.fetch w
                                   CacheWarmingEngine.StrategicQuery)))
    P.
Proof.
  apply row_loader_spec'.
  intros x y. apply direct_make_cache_item_ok. intros _. simpl. tauto.
Qed.

Lemma mcp_load_core_spec (P : warmer -> Prop) w :
  hoare P (CAGCacheWarmerMCP.load_core_knowledge w)
    (fun items wm =>
       P wm /\ Forall item_ok items /\
       len items
       = len (fetched (CAGCacheWarmerMCP.get_contextual_knowledge w
                "CAG core knowledge warming - essential system knowledge" 20)))
    P.
Proof.
  apply row_loader_spec.
  - intros x y. apply mcp_make_cache_item_ok, mcp_layer_warmed.
  - apply sorted_desc_length.
  - apply sorted_desc_Forall.
Qed.

Lemma mcp_predict_session_spec (P : warmer -> Prop) w uc :
  hoare P (CAGCacheWarmerMCP.predict_session_knowledge w uc)
    (fun items wm =>
       P wm /\ Forall item_ok items /\
       len items
       = len (fetched (CAGCacheWarmerMCP.search_knowledge w (session_search uc)
                         None 15)))
    P.
Proof.
  apply row_loader_spec.
  - intros x y. apply mcp_make_cache_item_ok, mcp_layer_warmed.
  - apply sorted_desc_length.
  - apply sorted_desc_Forall.
Qed.

Lemma mcp_load_strategic_spec (P : warmer -> Prop) w :
  hoare P (CAGCacheWarmerMCP.load_strategic_insights w)
    (fun items wm =>
       P wm /\ Forall item_ok items /\
       len items
       = len (List.filter
                (fun item => 60 <? default 0 (item_importance_score item))
                (fetched (CAGCacheWarmerMCP.search_knowledge w
                            "strategic insights architecture implementation"
                            (Some ["procedural"; "technical_discovery"]%string)
                            8))))
    P.
Proof.
  intros wm Hwm. unfold CAGCacheWarmerMCP.load_strategic_insights, mbind, M_bind,
    bind, lift_result.
  destruct (CAGCacheWarmerMCP.search_knowledge w _ _ _) as [rows|e]; [|exact Hwm].
  destruct (result_map _ _) as [items|e] eqn:Hmap; [|exact Hwm].
  simpl. split; [exact Hwm|]. split.
  - apply (result_map_Forall _ item_ok _ items) in Hmap; [exact Hmap|].
    intros x y. apply mcp_make_cache_item_ok. intros _. simpl. tauto.
  - unfold len. now rewrite (result_map_length _ _ items Hmap).
Qed.

(** *** What a warming does to the warmer *)

Lemma preload_item_recognizer source now wm item :
  pattern_recognizer (preload_item source now wm item) = pattern_recognizer wm.
Proof. unfold preload_item. now destruct (ge _ _). Qed.

Lemma preload_fold_recognizer source now items wm :
  pattern_recognizer (fold_left (preload_item source now) items wm)
  = pattern_recognizer wm.
Proof.
  revert wm. induction items as [|item items IH]; intros wm; [reflexivity|].
  simpl. now rewrite IH, preload_item_recognizer.
Qed.

Lemma sized_preload pr n0 k source now items wm :
  sized pr n0 k wm ->
  sized pr n0 (k + len items) (fold_left (preload_item source now) items wm).
Proof.
  intros [Hpr Hlen]. split; [now rewrite preload_fold_recognizer|].
  pose proof (preload_fold_length source now items wm). unfold len in *. lia.
Qed.

Section WarmSpec.
Variable Inv : warmer -> Prop.
Hypothesis Inv_log : forall ev wm, Inv wm -> Inv (snd (log_event ev wm)).
Hypothesis Inv_preload :
  forall source now item wm,
    item_ok item -> Inv wm -> Inv (preload_item source now wm item).

Lemma Inv_preload_fold source now items wm :
  Forall item_ok items -> Inv wm ->
  Inv (fold_left (preload_item source now) items wm).
Proof.
  intros Hitems. revert wm.
  induction Hitems as [|item items Hitem _ IH]; intros wm Hwm; [exact Hwm|].
  simpl. apply IH. now apply Inv_preload.
Qed.

(** Preloading candidates that were just loaded. *)
Lemma preload_after_load (G : Prop) pr n0 k c source now items
    (Q : unit -> warmer -> Prop) :
  (forall wm, G -> Inv wm -> sized pr n0 (k + c) wm -> Q tt wm) ->
  hoare
    (fun wm => (G /\ Inv wm /\ sized pr n0 k wm) /\ Forall item_ok items
               /\ len items = c)
    (preload_items source now items) Q Inv.
Proof.
  intros HQ. apply hoare_modify.
  intros wm ((HG & HI & Hs) & Hitems & <-).
  apply HQ; [exact HG|now apply Inv_preload_fold|now apply sized_preload].
Qed.

Lemma direct_warm_spec w session_id uc (pr : bool) (n0 : Z) :
  let uc' := default CacheWarmingEngine.default_user_context uc in
  let c1 := len (fetched (CacheWarmingEngine.fetch w
                            CacheWarmingEngine.CoreKnowledgeQuery)) in
  let c2 := len (fetched (CacheWarmingEngine.fetch w (session_query uc'))) in
  let c3 := if pr
            then len (fetched (CacheWarmingEngine.fetch w
                                 CacheWarmingEngine.PatternQuery))
            else 0 in
  let c4 := len (fetched (CacheWarmingEngine.fetch w
                            CacheWarmingEngine.StrategicQuery)) in
  hoare (fun wm => Inv wm /\ sized pr n0 0 wm)
    (CacheWarmingEngine.warm_cache_for_session w session_id uc)
    (fun stats wm =>
       Inv wm /\ sized pr n0 (items_loaded stats) wm /\
       phases_completed stats = 4 /\
       items_loaded stats = c1 + c2 + c3 + c4 /\
       cache_size stats = len (warm_cache wm))
    Inv.
Proof.
  intros uc' c1 c2 c3 c4.
  unfold CacheWarmingEngine.warm_cache_for_session,
    CacheWarmingEngine.background_preload,
    CacheWarmingEngine.preload_to_context.
  fold uc'.
  apply (hoare_bind _ _ (fun _ wm => True /\ Inv wm /\ sized pr n0 0 wm)).
  { apply hoare_modify. intros wm [HI Hs]. split; [exact Logic.I|].
    split; [exact (Inv_log (WarmingStarted session_id) wm HI)|exact Hs]. }
  intros _.
  eapply hoare_bind_load;
    [apply direct_load_core_spec|intros s (_ & HI & _); exact HI|]. intros core.
  apply (hoare_bind _ _
           (fun _ wm => (len core = c1) /\ Inv wm /\ sized pr n0 c1 wm)).
  { intros wm (H & Hitems & Hc).
    apply (preload_after_load True pr n0 0 c1);
      [|exact (conj H (conj Hitems Hc))].
    intros wm' _ HI Hs. exact (conj Hc (conj HI Hs)). }
  intros _.
  eapply hoare_bind_load;
    [apply direct_predict_session_spec|intros s (_ & HI & _); exact HI|].
  intros sess.
  apply (hoare_bind _ _
           (fun _ wm => (len core = c1 /\ len sess = c2) /\ Inv wm
                        /\ sized pr n0 (c1 + c2) wm)).
  { intros wm (H & Hitems & Hc).
    apply (preload_after_load (len core = c1) pr n0 c1 c2);
      [|exact (conj H (conj Hitems Hc))].
    intros wm' Hc1' HI' Hs'. exact (conj (conj Hc1' Hc) (conj HI' Hs')). }
  intros _.
  eapply hoare_bind_load;
    [apply (direct_pattern_predict_spec _ pr); intros wm (_ & _ & Hpr & _); exact Hpr
    |intros s (_ & HI & _); exact HI|].
  intros pred.
  apply (hoare_bind _ _
           (fun _ wm => (len core = c1 /\ len sess = c2 /\ len pred = c3) /\ Inv wm
                        /\ sized pr n0 (c1 + c2 + c3) wm)).
  { intros wm (H & Hitems & Hc).
    apply (preload_after_load (len core = c1 /\ len sess = c2) pr n0 (c1 + c2) c3);
      [|exact (conj H (conj Hitems Hc))].
    intros wm' [Hc1' Hc2'] HI' Hs'.
    exact (conj (conj Hc1' (conj Hc2' Hc)) (conj HI' Hs')). }
  intros _.
  eapply hoare_bind_load;
    [apply direct_load_strategic_spec|intros s (_ & HI & _); exact HI|].
  intros strat.
  apply (hoare_bind _ _
           (fun _ wm => (len core = c1 /\ len sess = c2 /\ len pred = c3
                         /\ len strat = c4) /\ Inv wm
                        /\ sized pr n0 (c1 + c2 + c3 + c4) wm)).
  { intros wm (H & Hitems & Hc).
    apply (preload_after_load (len core = c1 /\ len sess = c2 /\ len pred = c3)
             pr n0 (c1 + c2 + c3) c4); [|exact (conj H (conj Hitems Hc))].
    intros wm' (Hc1' & Hc2' & Hc3') HI' Hs'.
    exact (conj (conj Hc1' (conj Hc2' (conj Hc3' Hc))) (conj HI' Hs')). }
  intros _ wm ((Hc1 & Hc2 & Hc3 & Hc4) & HI & Hs). simpl.
  split; [exact (Inv_log (WarmingCompleted session_id) wm HI)|].
  replace (0 + len core + len sess + len pred + len strat)
    with (c1 + c2 + c3 + c4) by lia.
  repeat split; try apply Hs; reflexivity.
Qed.
Lemma mcp_warm_spec w session_id uc (pr : bool) (n0 : Z) :
  let uc' := default CAGCacheWarmerMCP.default_user_context uc in
  let c1 := len (fetched (CAGCacheWarmerMCP.get_contextual_knowledge w
                   "CAG core knowledge warming - essential system knowledge" 20)) in
  let c2 := len (fetched (CAGCacheWarmerMCP.search_knowledge w
                            (session_search uc') None 15)) in
  let c3 := len (List.filter
                   (fun item => 60 <? default 0 (item_importance_score item))
                   (fetched (CAGCacheWarmerMCP.search_knowledge w
                               "strategic insights architecture implementation"
                               (Some ["procedural"; "technical_discovery"]%string)
                               8))) in
  hoare (fun wm => Inv wm /\ sized pr n0 0 wm)
    (CAGCacheWarmerMCP.warm_cache_for_session w session_id uc)
    (fun stats wm =>
       Inv wm /\ sized pr n0 (items_loaded stats) wm /\
       phases_completed stats = 3 /\
       items_loaded stats = c1 + c2 + c3 /\
       cache_size stats = len (warm_cache wm))
    Inv.
Proof.
  intros uc' c1 c2 c3.
  unfold CAGCacheWarmerMCP.warm_cache_for_session,
    CAGCacheWarmerMCP.preload_to_context.
  fold uc'.
  apply (hoare_bind _ _ (fun _ wm => True /\ Inv wm /\ sized pr n0 0 wm)).
  { apply hoare_modify. intros wm [HI Hs]. split; [exact Logic.I|].
    split; [exact (Inv_log (WarmingStarted session_id) wm HI)|exact Hs]. }
  intros _.
  eapply hoare_bind_load;
    [apply mcp_load_core_spec|intros s (_ & HI & _); exact HI|]. intros core.
  apply (hoare_bind _ _
           (fun _ wm => (len core = c1) /\ Inv wm /\ sized pr n0 c1 wm)).
  { intros wm (H & Hitems & Hc).
    apply (preload_after_load True pr n0 0 c1);
      [|exact (conj H (conj Hitems Hc))].
    intros wm' _ HI Hs. exact (conj Hc (conj HI Hs)). }
  intros _.
  eapply hoare_bind_load;
    [apply mcp_predict_session_spec|intros s (_ & HI & _); exact HI|].
  intros sess.
  apply (hoare_bind _ _
           (fun _ wm => (len core = c1 /\ len sess = c2) /\ Inv wm
                        /\ sized pr n0 (c1 + c2) wm)).
  { intros wm (H & Hitems & Hc).
    apply (preload_after_load (len core = c1) pr n0 c1 c2);
      [|exact (conj H (conj Hitems Hc))].
    intros wm' Hc1' HI' Hs'. exact (conj (conj Hc1' Hc) (conj HI' Hs')). }
  intros _.
  eapply hoare_bind_load;
    [apply mcp_load_strategic_spec|intros s (_ & HI & _); exact HI|].
  intros strat.
  apply (hoare_bind _ _
           (fun _ wm => (len core = c1 /\ len sess = c2 /\ len strat = c3)
                        /\ Inv wm /\ sized pr n0 (c1 + c2 + c3) wm)).
  { intros wm (H & Hitems & Hc).
    apply (preload_after_load (len core = c1 /\ len sess = c2) pr n0 (c1 + c2) c3);
      [|exact (conj H (conj Hitems Hc))].
    intros wm' [Hc1' Hc2'] HI' Hs'.
    exact (conj (conj Hc1' (conj Hc2' Hc)) (conj HI' Hs')). }
  intros _ wm ((Hc1 & Hc2 & Hc3) & HI & Hs). simpl.
  split; [exact (Inv_log (WarmingCompleted session_id) wm HI)|].
  replace (0 + len core + len sess + len strat) with (c1 + c2 + c3) by lia.
  repeat split; try apply Hs; reflexivity.
Qed.

Lemma sized_now (wm : warmer) :
  sized (pattern_recognizer wm) (len (warm_cache wm)) 0 wm.
Proof. split; [reflexivity|lia]. Qed.

Lemma direct_warm_inv w session_id uc :
  preserves Inv (CacheWarmingEngine.warm_cache_for_session w session_id uc).
Proof.
  intros wm Hwm.
  pose proof (direct_warm_spec w session_id uc _ _ wm (conj Hwm (sized_now wm)))
    as H.
  destruct (CacheWarmingEngine.warm_cache_for_session w session_id uc wm)
    as [[stats|e] wm']; simpl; [apply H|exact H].
Qed.

Lemma mcp_warm_inv w session_id uc :
  preserves Inv (CAGCacheWarmerMCP.warm_cache_for_session w session_id uc).
Proof.
  intros wm Hwm.
  pose proof (mcp_warm_spec w session_id uc _ _ wm (conj Hwm (sized_now wm)))
    as H.
  destruct (CAGCacheWarmerMCP.warm_cache_for_session w session_id uc wm)
    as [[stats|e] wm']; simpl; [apply H|exact H].
Qed.

Let engine_inv (e : engine) : Prop := Inv (cache_warmer e).

Lemma zoom_warmer_inv {A} (m : M warmer A) :
  preserves Inv m ->
  preserves engine_inv (zoom cache_warmer set_cache_warmer m).
Proof.
  apply preserves_zoom.
  - intros e He. exact He.
  - intros wm e _ Hwm. exact Hwm.
Qed.

Lemma direct_ensure_inv w session_id uc :
  preserves engine_inv (CAGEngine.ensure_cache_warmed w session_id uc).
Proof.
  unfold CAGEngine.ensure_cache_warmed.
  apply preserves_bind; [apply preserves_get|]. intros e.
  destruct (is_warmed session_id e); [apply preserves_ret|].
  apply preserves_bind; [apply zoom_warmer_inv, direct_warm_inv|]. intros stats.
  apply preserves_bind; [|intros ?; apply preserves_ret].
  apply preserves_modify. intros e' He'. exact He'.
Qed.

Lemma mcp_ensure_inv w session_id uc :
  preserves engine_inv (CAGEngineMCP.ensure_cache_warmed w session_id uc).
Proof.
  unfold CAGEngineMCP.ensure_cache_warmed.
  apply preserves_bind; [apply preserves_get|]. intros e.
  destruct (is_warmed session_id e); [apply preserves_ret|].
  apply preserves_bind; [apply zoom_warmer_inv, mcp_warm_inv|]. intros stats.
  apply preserves_bind; [|intros ?; apply preserves_ret].
  apply preserves_modify. intros e' He'. exact He'.
Qed.

Lemma direct_process_query_inv w query session_id uc :
  preserves engine_inv (CAGEngine.process_query w query session_id uc).
Proof.
  unfold CAGEngine.process_query, CAGEngine._update_performance_metrics.
  apply preserves_bind; [apply direct_ensure_inv|]. intros _.
  apply preserves_bind; [apply preserves_get|]. intros e.
  apply preserves_bind; [|intros ?; apply preserves_ret].
  apply preserves_modify. intros e' He'. exact He'.
Qed.

Lemma mcp_process_query_inv w query session_id uc :
  preserves engine_inv (CAGEngineMCP.process_query w query session_id uc).
Proof.
  unfold CAGEngineMCP.process_query, CAGEngineMCP._update_performance_metrics,
    CAGEngineMCP._store_interaction_via_mcp.
  apply preserves_bind; [apply mcp_ensure_inv|]. intros _.
  apply preserves_bind; [apply preserves_get|]. intros e.
  apply preserves_bind; [apply preserves_lift_result|]. intros context.
  apply preserves_bind; [apply preserves_modify; intros e' He'; exact He'|].
  intros _.
  apply preserves_bind; [|intros ?; apply preserves_ret].
  repeat preserves_step.
Qed.

Lemma direct_warm_domain_inv w domain :
  preserves engine_inv (CAGEngine.warm_domain_cache w domain).
Proof.
  intros e He. unfold CAGEngine.warm_domain_cache, try_except, mbind, M_bind,
    bind, lift_result.
  destruct (CacheWarmingEngine.fetch w _) as [rows|ex]; [|exact He].
  destruct (result_map _ rows) as [items|ex] eqn:Hmap; [|exact He].
  simpl. unfold engine_inv. simpl. apply Inv_preload_fold; [|exact He].
  apply (result_map_Forall _ item_ok rows items) in Hmap; [exact Hmap|].
  intros x y. apply direct_make_cache_item_ok. intros _. simpl. tauto.
Qed.

Lemma direct_run_inv calls e :
  engine_inv e -> engine_inv (snd (DirectRun.run calls e)).
Proof.
  revert e. induction calls as [|c calls IH]; intros e He; [exact He|].
  simpl. destruct (DirectRun.exec c e) as [rs e'] eqn:Hexec.
  assert (He' : engine_inv e').
  { destruct c as [w q sid uc|w sid uc|w d]; simpl in Hexec.
    - pose proof (direct_process_query_inv w q sid uc e He) as H.
      destruct (CAGEngine.process_query w q sid uc e) as [r e1].
      injection Hexec as _ <-. exact H.
    - injection Hexec as _ <-. now apply direct_ensure_inv.
    - injection Hexec as _ <-. now apply direct_warm_domain_inv. }
  specialize (IH e' He').
  destruct (DirectRun.run calls e') as [rs' e'']. exact IH.
Qed.

Lemma mcp_run_inv calls e :
  engine_inv e -> engine_inv (snd (McpRun.run calls e)).
Proof.
  revert e. induction calls as [|c calls IH]; intros e He; [exact He|].
  simpl. destruct (McpRun.exec c e) as [rs e'] eqn:Hexec.
  assert (He' : engine_inv e').
  { destruct c as [w q sid uc|w sid uc]; simpl in Hexec.
    - pose proof (mcp_process_query_inv w q sid uc e He) as H.
      destruct (CAGEngineMCP.process_query w q sid uc e) as [r e1].
      injection Hexec as _ <-. exact H.
    - injection Hexec as _ <-. now apply mcp_ensure_inv. }
  specialize (IH e' He').
  destruct (McpRun.run calls e') as [rs' e'']. exact IH.
Qed.
End WarmSpec.

(** *** Statistics of a warming *)

(** X9: when warm_cache_for_session of the direct-store variant returns,
    phases_completed is 4, items_loaded is the number of rows the store
    returned to the four phases together (the pattern phase counting for 0
    when no recognizer is installed), rows below the threshold included,
    cache_size is the size of the cache at return, and the cache has grown by
    at most items_loaded entries. *)
Theorem direct_warming_statistics
    (w : CacheWarmingEngine.world) (session_id : string)
    (uc : option user_context) (wm : warmer) (stats : cache_stats)
    (wm' : warmer) :
  CacheWarmingEngine.warm_cache_for_session w session_id uc wm = (Ok stats, wm') ->
  let uc' := default CacheWarmingEngine.default_user_context uc in
  phases_completed stats = 4 /\
  items_loaded stats
  = len (fetched (CacheWarmingEngine.fetch w CacheWarmingEngine.CoreKnowledgeQuery))
    + len (fetched (CacheWarmingEngine.fetch w (session_query uc')))
    + (if pattern_recognizer wm
       then len (fetched (CacheWarmingEngine.fetch w CacheWarmingEngine.PatternQuery))
       else 0)
    + len (fetched (CacheWarmingEngine.fetch w CacheWarmingEngine.StrategicQuery)) /\
  cache_size stats = len (warm_cache wm') /\
  len (warm_cache wm) <= cache_size stats
    <= len (warm_cache wm) + items_loaded stats.
Proof.
  intros Hrun uc'.
  pose proof (direct_warm_spec (fun _ => True) (fun _ _ _ => Logic.I)
                (fun _ _ _ _ _ _ => Logic.I) w session_id uc
                (pattern_recognizer wm) (len (warm_cache wm)) wm
                (conj Logic.I (sized_now wm))) as H.
  rewrite Hrun in H. destruct H as (_ & [_ Hsize] & Hph & Hloaded & Hcs).
  repeat split; try assumption; rewrite Hcs; apply Hsize.
Qed.

Lemma direct_warming_statistics_witness :
  CacheWarmingEngine.warm_cache_for_session one_row_world "S1" None
    (new_warmer false)
  = (Ok one_row_stats,
     snd (CacheWarmingEngine.warm_cache_for_session one_row_world "S1" None
            (new_warmer false))) /\
  items_loaded one_row_stats = 3 /\ cache_size one_row_stats = 2.
Proof.
  assert (H : CacheWarmingEngine.warm_cache_for_session one_row_world "S1" None
                (new_warmer false)
              = (Ok one_row_stats,
                 snd (CacheWarmingEngine.warm_cache_for_session one_row_world
                        "S1" None (new_warmer false))))
    by (vm_compute; reflexivity).
  split; [exact H|].
  pose proof (direct_warming_statistics _ _ _ _ _ _ H) as (_ & Hl & _ & _).
  split; [exact Hl|reflexivity].
Defined.

(** X10: when warm_cache_for_session of the tool variant returns,
    phases_completed is 3, items_loaded is the number of items of the
    contextual lookup plus those of the session search plus those of the
    strategic search whose importance_score exceeds 60, cache_size is the
    size of the cache at return, and the cache has grown by at most
    items_loaded entries. *)
Theorem mcp_warming_statistics
    (w : CAGCacheWarmerMCP.world) (session_id : string)
    (uc : option user_context) (wm : warmer) (stats : cache_stats)
    (wm' : warmer) :
  CAGCacheWarmerMCP.warm_cache_for_session w session_id uc wm = (Ok stats, wm') ->
  let uc' := default CAGCacheWarmerMCP.default_user_context uc in
  phases_completed stats = 3 /\
  items_loaded stats
  = len (fetched (CAGCacheWarmerMCP.get_contextual_knowledge w
                    "CAG core knowledge warming - essential system knowledge" 20))
    + len (fetched (CAGCacheWarmerMCP.search_knowledge w (session_search uc')
                      None 15))
    + len (List.filter
             (fun item => 60 <? default 0 (item_importance_score item))
             (fetched (CAGCacheWarmerMCP.search_knowledge w
                         "strategic insights architecture implementation"
                         (Some ["procedural"; "technical_discovery"]%string) 8))) /\
  cache_size stats = len (warm_cache wm') /\
  len (warm_cache wm) <= cache_size stats
    <= len (warm_cache wm) + items_loaded stats.
Proof.
  intros Hrun uc'.
  pose proof (mcp_warm_spec (fun _ => True) (fun _ _ _ => Logic.I)
                (fun _ _ _ _ _ _ => Logic.I) w session_id uc
                (pattern_recognizer wm) (len (warm_cache wm)) wm
                (conj Logic.I (sized_now wm))) as H.
  rewrite Hrun in H. destruct H as (_ & [_ Hsize] & Hph & Hloaded & Hcs).
  repeat split; try assumption; rewrite Hcs; apply Hsize.
Qed.

Lemma mcp_warming_statistics_witness :
  CAGCacheWarmerMCP.warm_cache_for_session one_item_client_world "S1" None
    (new_warmer false)
  = (Ok one_item_client_stats,
     snd (CAGCacheWarmerMCP.warm_cache_for_session one_item_client_world "S1"
            None (new_warmer false))) /\
  items_loaded one_item_client_stats = 2.
Proof.
  assert (H : CAGCacheWarmerMCP.warm_cache_for_session one_item_client_world
                "S1" None (new_warmer false)
              = (Ok one_item_client_stats,
                 snd (CAGCacheWarmerMCP.warm_cache_for_session
                        one_item_client_world "S1" None (new_warmer false))))
    by (vm_compute; reflexivity).
  split; [exact H|].
  pose proof (mcp_warming_statistics _ _ _ _ _ _ H) as (_ & Hl & _ & _).
  exact Hl.
Defined.

(** *** Invariants of the cache over sequences of calls *)

Lemma prefix_append (s t : string) : String.prefix s (s +:+ t) = true.
Proof.
  induction s as [|c s IH].
  - apply prefix_nil.
  - rewrite append_cons, prefix_cons.
    destruct (ascii_dec c c); [exact IH|contradiction].
Qed.

Lemma startswith_cache_key (item : cache_item) :
  startswith (cache_key item) (cache_layer item +:+ ":") = true.
Proof.
  unfold startswith, cache_key. rewrite <- append_assoc. apply prefix_append.
Qed.

Lemma cache_ok_log ev wm : cache_ok wm -> cache_ok (snd (log_event ev wm)).
Proof. intros H. exact H. Qed.

Lemma cache_ok_preload source now item wm :
  item_ok item -> cache_ok wm -> cache_ok (preload_item source now wm item).
Proof.
  intros [Hlayer Hprio] Hwm. unfold cache_ok, preload_item.
  destruct (ge _ _); [|exact Hwm]. simpl.
  apply Forall_dict_set; [exact Hwm|]. split; simpl; [|exact Hprio].
  exists (cache_layer item). split; [exact Hlayer|apply startswith_cache_key].
Qed.

Lemma keeps_keys_log wm0 ev wm :
  keeps_keys wm0 wm -> keeps_keys wm0 (snd (log_event ev wm)).
Proof. intros H. exact H. Qed.

Lemma keeps_keys_preload wm0 source now item wm :
  item_ok item -> keeps_keys wm0 wm ->
  keeps_keys wm0 (preload_item source now wm item).
Proof.
  intros _ [Hkeys Hlen]. split.
  - intros k Hk. apply preload_item_keeps. now apply Hkeys.
  - pose proof (preload_item_length source now wm item). unfold len in *. lia.
Qed.

Lemma keeps_keys_refl wm : keeps_keys wm wm.
Proof. split; [auto|lia]. Qed.

Lemma direct_run_preserves (P : engine -> Prop) :
  (forall c e, P e -> P (snd (DirectRun.exec c e))) ->
  forall calls e, P e -> P (snd (DirectRun.run calls e)).
Proof.
  intros Hexec calls. induction calls as [|c calls IH]; intros e He; [exact He|].
  simpl. specialize (Hexec c e He).
  destruct (DirectRun.exec c e) as [rs e']. specialize (IH e' Hexec).
  destruct (DirectRun.run calls e') as [rs' e'']. exact IH.
Qed.

Lemma mcp_run_preserves (P : engine -> Prop) :
  (forall c e, P e -> P (snd (McpRun.exec c e))) ->
  forall calls e, P e -> P (snd (McpRun.run calls e)).
Proof.
  intros Hexec calls. induction calls as [|c calls IH]; intros e He; [exact He|].
  simpl. specialize (Hexec c e He).
  destruct (McpRun.exec c e) as [rs e']. specialize (IH e' Hexec).
  destruct (McpRun.run calls e') as [rs' e'']. exact IH.
Qed.

Lemma is_warmed_insert_keeps session_id other record e :
  is_warmed session_id e = true ->
  is_warmed session_id
    (set_session_cache_warmed (<[other := record]> (session_cache_warmed e)) e)
  = true.
Proof.
  intros H. destruct (decide (other = session_id)) as [->|Hne].
  - apply is_warmed_insert_eq.
  - now rewrite (is_warmed_insert_ne session_id other record e e Hne eq_refl).
Qed.

Lemma zoom_warmer_keeps_record {A} session_id (m : M warmer A) :
  preserves (fun e => is_warmed session_id e = true)
    (zoom cache_warmer set_cache_warmer m).
Proof.
  apply (preserves_zoom _ (fun _ => True)).
  - trivial.
  - intros wm e He _. exact He.
  - intros wm _. exact Logic.I.
Qed.

Lemma direct_ensure_keeps_record session_id w other uc :
  preserves (fun e => is_warmed session_id e = true)
    (CAGEngine.ensure_cache_warmed w other uc).
Proof.
  unfold CAGEngine.ensure_cache_warmed.
  apply preserves_bind; [apply preserves_get|]. intros e.
  destruct (is_warmed other e); [apply preserves_ret|].
  apply preserves_bind; [apply zoom_warmer_keeps_record|]. intros stats.
  apply preserves_bind; [|intros ?; apply preserves_ret].
  apply preserves_modify. intros e' He'. now apply is_warmed_insert_keeps.
Qed.

Lemma mcp_ensure_keeps_record session_id w other uc :
  preserves (fun e => is_warmed session_id e = true)
    (CAGEngineMCP.ensure_cache_warmed w other uc).
Proof.
  unfold CAGEngineMCP.ensure_cache_warmed.
  apply preserves_bind; [apply preserves_get|]. intros e.
  destruct (is_warmed other e); [apply preserves_ret|].
  apply preserves_bind; [apply zoom_warmer_keeps_record|]. intros stats.
  apply preserves_bind; [|intros ?; apply preserves_ret].
  apply preserves_modify. intros e' He'. now apply is_warmed_insert_keeps.
Qed.

Lemma direct_exec_keeps_record session_id c e :
  is_warmed session_id e = true ->
  is_warmed session_id (snd (DirectRun.exec c e)) = true.
Proof.
  intros He. destruct c as [w q sid uc|w sid uc|w d]; simpl.
  - assert (H : preserves (fun e => is_warmed session_id e = true)
                  (CAGEngine.process_query w q sid uc)).
    { unfold CAGEngine.process_query, CAGEngine._update_performance_metrics.
      apply preserves_bind; [apply direct_ensure_keeps_record|]. intros _.
      apply preserves_bind; [apply preserves_get|]. intros e0.
      apply preserves_bind; [|intros ?; apply preserves_ret].
      apply preserves_modify. intros e' He'. exact He'. }
    specialize (H e He).
    now destruct (CAGEngine.process_query w q sid uc e).
  - now apply direct_ensure_keeps_record.
  - assert (H : preserves (fun e => is_warmed session_id e = true)
                  (CAGEngine.warm_domain_cache w d)).
    { unfold CAGEngine.warm_domain_cache.
      apply preserves_try_except; [|intros ?; apply preserves_ret].
      apply preserves_bind; [apply preserves_lift_result|]. intros results.
      apply preserves_bind; [apply preserves_lift_result|]. intros items.
      apply preserves_bind; [|intros ?; apply preserves_ret].
      apply zoom_warmer_keeps_record. }
    now apply H.
Qed.

Lemma mcp_exec_keeps_record session_id c e :
  is_warmed session_id e = true ->
  is_warmed session_id (snd (McpRun.exec c e)) = true.
Proof.
  intros He. destruct c as [w q sid uc|w sid uc]; simpl.
  - assert (H : preserves (fun e => is_warmed session_id e = true)
                  (CAGEngineMCP.process_query w q sid uc)).
    { unfold CAGEngineMCP.process_query,
        CAGEngineMCP._update_performance_metrics,
        CAGEngineMCP._store_interaction_via_mcp.
      apply preserves_bind; [apply mcp_ensure_keeps_record|]. intros _.
      apply preserves_bind; [apply preserves_get|]. intros e0.
      apply preserves_bind; [apply preserves_lift_result|]. intros context.
      apply preserves_bind; [apply preserves_modify; intros e' He'; exact He'|].
      intros _.
      apply preserves_bind; [|intros ?; apply preserves_ret].
      repeat preserves_step. }
    specialize (H e He).
    now destruct (CAGEngineMCP.process_query w q sid uc e).
  - now apply mcp_ensure_keeps_record.
Qed.

(** X6: nothing is evicted and no session expires: after any sequence of
    calls on an engine of either variant, in any state, every key that was in
    the warm cache is still in it, the cache holds at least as many entries,
    and every session that was in the warming registry is still in it. *)
Theorem nothing_is_evicted (e : engine) :
  (forall calls : list DirectRun.call,
     engine_grows e (snd (DirectRun.run calls e))) /\
  (forall calls : list McpRun.call,
     engine_grows e (snd (McpRun.run calls e))).
Proof.
  split; intros calls; split.
  - apply (direct_run_inv (keeps_keys (cache_warmer e))).
    + apply keeps_keys_log.
    + apply keeps_keys_preload.
    + apply keeps_keys_refl.
  - intros session_id.
    apply (direct_run_preserves (fun e' => is_warmed session_id e' = true)).
    intros c e'. apply direct_exec_keeps_record.
  - apply (mcp_run_inv (keeps_keys (cache_warmer e))).
    + apply keeps_keys_log.
    + apply keeps_keys_preload.
    + apply keeps_keys_refl.
  - intros session_id.
    apply (mcp_run_preserves (fun e' => is_warmed session_id e' = true)).
    intros c e'. apply mcp_exec_keeps_record.
Qed.

(** X8: the warmers only ever write to five layers: after any sequence of
    calls on a freshly constructed engine of either variant, every key of the
    warm cache begins with "domain:", "experience:", "session:", "dynamic:"
    or "strategic:" (never with a system, project or response layer), and
    every cached priority is at most 1. *)
Theorem cached_entries_are_in_warmed_layers :
  (forall (max_tokens : Z) (calls : list DirectRun.call) (k : string)
          (entry : cache_entry),
     dict_get
       (warm_cache (cache_warmer (snd (DirectRun.run calls (CAGEngine.new max_tokens)))))
       k = Some entry ->
     (exists layer, In layer warmed_layers /\ startswith k (layer +:+ ":") = true)
     /\ PrimFloat.leb (priority entry) 1 = true) /\
  (forall (max_tokens : Z) (calls : list McpRun.call) (k : string)
          (entry : cache_entry),
     dict_get
       (warm_cache (cache_warmer (snd (McpRun.run calls (CAGEngineMCP.new max_tokens)))))
       k = Some entry ->
     (exists layer, In layer warmed_layers /\ startswith k (layer +:+ ":") = true)
     /\ PrimFloat.leb (priority entry) 1 = true).
Proof.
  split; intros max_tokens calls k entry Hget; apply dict_get_In in Hget.
  - assert (H : cache_ok (cache_warmer
                            (snd (DirectRun.run calls (CAGEngine.new max_tokens))))).
    { apply (direct_run_inv cache_ok cache_ok_log cache_ok_preload). constructor. }
    unfold cache_ok in H. rewrite List.Forall_forall in H. exact (H _ Hget).
  - assert (H : cache_ok (cache_warmer
                            (snd (McpRun.run calls (CAGEngineMCP.new max_tokens))))).
    { apply (mcp_run_inv cache_ok cache_ok_log cache_ok_preload). constructor. }
    unfold cache_ok in H. rewrite List.Forall_forall in H. exact (H _ Hget).
Qed.

Lemma cached_entries_are_in_warmed_layers_witness :
  dict_get
    (warm_cache
       (cache_warmer
          (snd (DirectRun.run [DirectRun.ProcessQuery one_row_world "q" "S1" None]
                  (CAGEngine.new 128000)))))
    "strategic:k1" = Some scenario_entry /\
  PrimFloat.leb (priority scenario_entry) 1 = true.
Proof.
  split; [vm_compute; reflexivity|].
  apply (proj2 (proj1 cached_entries_are_in_warmed_layers 128000
                  [DirectRun.ProcessQuery one_row_world "q" "S1" None]
                  "strategic:k1"%string scenario_entry
                  ltac:(vm_compute; reflexivity))).
Defined.

(** *** Domain warming *)

Lemma preload_item_new_key source now wm item k :
  cached k (preload_item source now wm item) ->
  cached k wm \/ k = cache_key item.
Proof.
  unfold cached, preload_item. destruct (ge _ _); [|now left]. simpl.
  destruct (String.eqb_spec (cache_key item) k) as [<-|Hne]; [now right|].
  rewrite dict_get_set_ne by exact Hne. now left.
Qed.

Lemma preload_fold_new_keys source now (L : string) items wm k :
  Forall (fun item => cache_layer item = L) items ->
  cached k (fold_left (preload_item source now) items wm) ->
  cached k wm \/ startswith k (L +:+ ":") = true.
Proof.
  intros Hitems. revert wm.
  induction Hitems as [|item items Hitem _ IH]; intros wm Hk; [now left|].
  simpl in Hk. destruct (IH _ Hk) as [Hk'|Hk']; [|now right].
  destruct (preload_item_new_key _ _ _ _ _ Hk') as [Hold| ->]; [now left|].
  right. rewrite <- Hitem. apply startswith_cache_key.
Qed.

Lemma direct_make_cache_item_layer now (L : string) confidence row item :
  CacheWarmingEngine.make_cache_item now (fun _ => L) confidence row = Ok item ->
  cache_layer item = L.
Proof.
  unfold CacheWarmingEngine.make_cache_item, result_bind, getitem.
  destruct (item_knowledge_type row); [|discriminate].
  destruct (item_category row); [|discriminate].
  destruct (item_created_at row); [|discriminate].
  now intros [= <-].
Qed.

Lemma result_map_raises_any {A B} (f : A -> result B) (l : list A) (x : A) :
  In x l -> (exists ex, f x = Raise ex) ->
  exists ex, result_map f l = Raise ex.
Proof.
  intros Hin Hx. induction l as [|a l IH]; [contradiction|].
  cbn [result_map]. destruct Hin as [->|Hin].
  - destruct Hx as [ex ->]. cbn. eauto.
  - destruct (f a) as [y|ex]; cbn; [|eauto].
    destruct (IH Hin) as [ex ->]. cbn. eauto.
Qed.

Lemma preload_fold_caches source now items wm item :
  In item items ->
  ge (cache_priority item) (cache_priority_threshold wm) = true ->
  cached (cache_key item) (fold_left (preload_item source now) items wm).
Proof.
  revert wm. induction items as [|x items IH]; intros wm Hin Hge;
    [contradiction|].
  simpl. destruct Hin as [->|Hin].
  - apply preload_fold_keeps. unfold cached.
    rewrite preload_item_passes by exact Hge.
    rewrite dict_get_set_eq. eauto.
  - apply IH; [exact Hin|]. now rewrite preload_item_threshold.
Qed.

Lemma direct_make_domain_item now row :
  complete_row row ->
  exists item,
    CacheWarmingEngine.make_cache_item now (fun _ => "domain"%string) None row
    = Ok item /\
    cache_key item = ("domain:" +:+ item_id row)%string /\
    cache_priority item = CacheWarmingEngine.calculate_cache_priority now row.
Proof.
  intros ([kt Hkt] & [cat Hcat] & [created Hcreated]).
  unfold CacheWarmingEngine.make_cache_item. rewrite Hkt, Hcat, Hcreated.
  eexists. split; [reflexivity|]. split; reflexivity.
Qed.

Lemma direct_make_incomplete now layer confidence row :
  ~ complete_row row ->
  exists ex,
    CacheWarmingEngine.make_cache_item now layer confidence row = Raise ex.
Proof.
  intros Hrow. unfold CacheWarmingEngine.make_cache_item, complete_row in *.
  destruct (item_knowledge_type row) as [kt|]; [|cbn; eauto].
  destruct (item_category row) as [cat|]; [|cbn; eauto].
  destruct (item_created_at row) as [created|]; [|cbn; eauto].
  exfalso. apply Hrow. repeat split; eauto.
Qed.

Lemma direct_domain_items now rows :
  Forall complete_row rows ->
  exists items,
    result_map
      (CacheWarmingEngine.make_cache_item now (fun _ => "domain"%string) None)
      rows = Ok items /\
    len items = len rows /\
    forall row, In row rows ->
      exists item,
        In item items /\
        cache_key item = ("domain:" +:+ item_id row)%string /\
        cache_priority item
        = CacheWarmingEngine.calculate_cache_priority now row.
Proof.
  induction 1 as [|row rows Hrow _ IH].
  - exists []. split; [reflexivity|]. split; [reflexivity|]. intros row [].
  - destruct IH as (items & Hmap & Hlen & Hitems).
    destruct (direct_make_domain_item now row Hrow) as (item & Hitem & Hkey & Hp).
    exists (item :: items). cbn [result_map]. rewrite Hitem, Hmap.
    split; [reflexivity|]. split.
    + unfold len in *. cbn [length]. lia.
    + intros row' [<-|Hin].
      * exists item. split; [now left|]. now split.
      * destruct (Hitems row' Hin) as (item' & Hin' & H').
        exists item'. split; [now right|exact H'].
Qed.

(** X11: warm_domain_cache never raises. When the fetch returns rows that
    all carry 'knowledge_type', 'category' and 'created_at', it answers with
    success true and the number of rows fetched as items_loaded (modelled
    [Some n]), and every row whose priority passes the threshold is then
    cached under "domain:<id>". When the fetch raises, or one row lacks one
    of the three keys, it answers with success false (modelled [None]) and
    leaves the engine as it was. In every case the metrics and the warming
    registry are untouched, and every key it adds to the cache begins with
    "domain:". *)
Theorem warm_domain_cache_is_total
    (w : CacheWarmingEngine.world) (domain : string) (e : engine) :
  let r := CAGEngine.warm_domain_cache w domain e in
  let answer := CacheWarmingEngine.fetch w (CacheWarmingEngine.DomainQuery domain) in
  (forall rows,
     answer = Ok rows -> Forall complete_row rows ->
     fst r = Ok (Some (len rows)) /\
     forall row,
       In row rows ->
       ge (CacheWarmingEngine.calculate_cache_priority
             (CacheWarmingEngine.datetime_now w) row)
          (cache_priority_threshold (cache_warmer e)) = true ->
       cached ("domain:" +:+ item_id row) (cache_warmer (snd r))) /\
  (forall ex, answer = Raise ex -> r = (Ok None, e)) /\
  (forall rows row,
     answer = Ok rows -> In row rows -> ~ complete_row row ->
     r = (Ok None, e)) /\
  (exists outcome, fst r = Ok outcome) /\
  performance_metrics (snd r) = performance_metrics e /\
  session_cache_warmed (snd r) = session_cache_warmed e /\
  (forall k, cached k (cache_warmer (snd r)) ->
             cached k (cache_warmer e) \/ startswith k "domain:" = true).
Proof.
  unfold CAGEngine.warm_domain_cache, try_except, mbind, M_bind, bind,
    lift_result, CacheWarmingEngine.preload_to_context, preload_items, zoom,
    modify.
  destruct (CacheWarmingEngine.fetch w _) as [rows|ex]; simpl.
  - destruct (result_map _ rows) as [items|ex] eqn:Hmap; simpl.
    + split; [|split; [|split; [|split; [|split; [reflexivity|split;
        [reflexivity|]]]]]].
      * intros rows' [= <-] Hrows.
        destruct (direct_domain_items (CacheWarmingEngine.datetime_now w) rows
                    Hrows) as (items' & Hmap' & Hlen & Hitems).
        rewrite Hmap in Hmap'. injection Hmap' as <-.
        split; [now rewrite Hlen|].
        intros row Hin Hge.
        destruct (Hitems row Hin) as (item & Hitem & Hkey & Hp).
        rewrite <- Hkey. apply preload_fold_caches; [exact Hitem|].
        now rewrite Hp.
      * intros ex [=].
      * intros rows' row [= <-] Hin Hrow. exfalso.
        destruct (result_map_raises_any _ rows row Hin
                    (direct_make_incomplete (CacheWarmingEngine.datetime_now w)
                       (fun _ => "domain"%string) None row Hrow)) as [ex Hex].
        rewrite Hmap in Hex. discriminate Hex.
      * eauto.
      * intros k Hk.
        apply (preload_fold_new_keys None (CacheWarmingEngine.datetime_now w)
                 "domain" items (cache_warmer e) k); [|exact Hk].
        apply (result_map_Forall _ (fun item => cache_layer item = "domain"%string)
                 rows items) in Hmap; [exact Hmap|].
        intros x y. apply direct_make_cache_item_layer.
    + split; [|split; [|split; [|split; [|split; [reflexivity|split;
        [reflexivity|]]]]]].
      * intros rows' [= <-] Hrows. exfalso.
        destruct (direct_domain_items (CacheWarmingEngine.datetime_now w) rows
                    Hrows) as (items' & Hmap' & _).
        rewrite Hmap in Hmap'. discriminate Hmap'.
      * intros ex' [=].
      * reflexivity.
      * eauto.
      * intros k Hk. now left.
  - split; [|split; [|split; [|split; [|split; [reflexivity|split;
      [reflexivity|]]]]]].
    + intros rows [=].
    + reflexivity.
    + intros rows row [=].
    + eauto.
    + intros k Hk. now left.
Qed.

Lemma warm_domain_cache_is_total_witness :
  fst (CAGEngine.warm_domain_cache three_row_world "cache" (CAGEngine.new 128000))
  = Ok (Some 3) /\
  cached "domain:b"
    (cache_warmer
       (snd (CAGEngine.warm_domain_cache three_row_world "cache"
               (CAGEngine.new 128000)))).
Proof.
  assert (Hrows : Forall complete_row
                    (fetched (CacheWarmingEngine.fetch three_row_world
                                (CacheWarmingEngine.DomainQuery "cache")))).
  { repeat constructor; cbn; eauto. }
  destruct (proj1 (warm_domain_cache_is_total three_row_world "cache"
                     (CAGEngine.new 128000)) _ eq_refl Hrows) as [Hanswer Hcached].
  split; [exact Hanswer|].
  apply (Hcached (scenario_item "b" "t" "c" (Some "general"%string) 0)).
  - cbn. tauto.
  - vm_compute. reflexivity.
Defined.

(** *** The write-back and the project layer of the tool variant *)

Lemma store_interaction_returns w query e :
  CAGEngineMCP._store_interaction_via_mcp w query e = (Ok tt, e).
Proof.
  unfold CAGEngineMCP._store_interaction_via_mcp, try_except, mbind, M_bind,
    bind, lift_result.
  now destruct (CAGCacheWarmerMCP.store_knowledge _ _ _ _ _).
Qed.

(** X12: the write-back never fails the query: whatever the store_knowledge
    tool answers, an id or an exception, process_query of the tool variant
    returns the same result and leaves the engine in the same state. *)
Theorem write_back_outcome_is_ignored
    (answer : string -> string -> string -> Z -> result string)
    (w : CAGCacheWarmerMCP.world) (query session_id : string)
    (uc : option user_context) (e : engine) :
  CAGEngineMCP.process_query (with_store_knowledge answer w) query session_id uc e
  = CAGEngineMCP.process_query w query session_id uc e.
Proof.
  unfold CAGEngineMCP.process_query.
  change (CAGEngineMCP.ensure_cache_warmed (with_store_knowledge answer w))
    with (CAGEngineMCP.ensure_cache_warmed w).
  unfold mbind, M_bind, bind.
  destruct (CAGEngineMCP.ensure_cache_warmed w session_id uc e) as [[b|ex] e1];
    [|reflexivity].
  unfold get.
  change (CAGContextManagerMCP.load_context_for_query (max_tokens e1)
            (with_store_knowledge answer w))
    with (CAGContextManagerMCP.load_context_for_query (max_tokens e1) w).
  unfold lift_result.
  destruct (CAGContextManagerMCP.load_context_for_query _ w query session_id)
    as [context|ex]; [|reflexivity].
  unfold CAGEngineMCP._update_performance_metrics, modify.
  now rewrite !store_interaction_returns.
Qed.

(** X13: a failure of load_project_context, which is not guarded, fails the
    query after the warming: process_query of the tool variant raises that
    exception, the metrics are not updated, and the engine is left as
    ensure_cache_warmed left it, with the session recorded when the warming
    went through. *)
Theorem project_context_failure_fails_the_query
    (w : CAGCacheWarmerMCP.world) (query session_id : string)
    (uc : option user_context) (e : engine) (ex : exn) :
  CAGCacheWarmerMCP.project_context_text w = Raise ex ->
  match CAGEngineMCP.ensure_cache_warmed w session_id uc e with
  | (Ok _, e1) =>
      CAGEngineMCP.process_query w query session_id uc e = (Raise ex, e1) /\
      is_warmed session_id e1 = true /\
      performance_metrics e1 = performance_metrics e
  | (Raise ex', e1) =>
      CAGEngineMCP.process_query w query session_id uc e = (Raise ex', e1) /\
      performance_metrics e1 = performance_metrics e
  end.
Proof.
  intros Hproject.
  pose proof (mcp_ensure_keeps_metrics (performance_metrics e) w session_id uc
                e eq_refl) as Hm.
  unfold keeps_metrics in Hm.
  assert (Hq : CAGEngineMCP.process_query w query session_id uc e
               = match CAGEngineMCP.ensure_cache_warmed w session_id uc e with
                 | (Ok _, e1) => (Raise ex, e1)
                 | (Raise ex', e1) => (Raise ex', e1)
                 end).
  { unfold CAGEngineMCP.process_query, mbind, M_bind, bind.
    destruct (CAGEngineMCP.ensure_cache_warmed w session_id uc e)
      as [[b|ex'] e1]; [|reflexivity].
    unfold get, lift_result, CAGContextManagerMCP.load_context_for_query,
      result_bind.
    now rewrite Hproject. }
  rewrite Hq.
  destruct (CAGEngineMCP.ensure_cache_warmed w session_id uc e) as [[b|ex'] e1]
    eqn:He; simpl in Hm.
  - split; [reflexivity|].
    split; [exact (mcp_ensure_records _ _ _ _ _ _ He)|exact Hm].
  - now split.
Qed.

Lemma project_context_failure_fails_the_query_witness :
  CAGCacheWarmerMCP.project_context_text failing_project_world
  = Raise (ClientError "session_context unavailable") /\
  fst (CAGEngineMCP.process_query failing_project_world "q" "S1" None
         (CAGEngineMCP.new 128000))
  = Raise (ClientError "session_context unavailable") /\
  is_warmed "S1"
    (snd (CAGEngineMCP.process_query failing_project_world "q" "S1" None
            (CAGEngineMCP.new 128000))) = true.
Proof.
  split; [reflexivity|].
  pose proof (project_context_failure_fails_the_query failing_project_world "q"
                "S1" None (CAGEngineMCP.new 128000)
                (ClientError "session_context unavailable") eq_refl) as H.
  destruct (CAGEngineMCP.ensure_cache_warmed failing_project_world "S1" None
              (CAGEngineMCP.new 128000)) as [[b|ex'] e1] eqn:He.
  - destruct H as (Hq & Hw & _). rewrite Hq. now split.
  - exfalso. vm_compute in He. discriminate He.
Defined.

(** *** The hit and miss counters *)

Lemma only_hits_step (calls : Z) (per_query : option Z) (p : performance)
    (m : metrics) :
  cache_hit p = true ->
  per_query = None \/ per_query = Some calls ->
  only_hits per_query m -> only_hits per_query (update_metrics calls p m).
Proof.
  intros Hhit Hper (Hmiss & Hhits & Hcalls).
  unfold only_hits, update_metrics. simpl. rewrite Hhit.
  split; [exact Hmiss|]. split; [lia|]. rewrite Hcalls.
  destruct Hper as [->| ->]; simpl; [reflexivity|f_equal; lia].
Qed.

Lemma direct_exec_only_hits c e :
  only_hits None (performance_metrics e) ->
  only_hits None (performance_metrics (snd (DirectRun.exec c e))).
Proof.
  intros He. destruct c as [w q sid uc|w sid uc|w d]; simpl.
  - pose proof (direct_process_query_metrics w q sid uc e) as Hm.
    pose proof (direct_cache_hit_always w q sid uc e) as Hhit.
    destruct (CAGEngine.process_query w q sid uc e) as [[resp|ex] e1]; simpl.
    + rewrite Hm.
      exact (only_hits_step 0 None _ _ (Hhit resp e1 eq_refl) (or_introl eq_refl) He).
    + now rewrite Hm.
  - now rewrite (direct_ensure_keeps_metrics _ w sid uc e eq_refl).
  - now rewrite (direct_warm_domain_keeps_metrics _ w d e eq_refl).
Qed.

Lemma mcp_exec_only_hits c e :
  only_hits (Some 5) (performance_metrics e) ->
  only_hits (Some 5) (performance_metrics (snd (McpRun.exec c e))).
Proof.
  intros He. destruct c as [w q sid uc|w sid uc]; simpl.
  - pose proof (mcp_process_query_metrics w q sid uc e) as Hm.
    pose proof (mcp_cache_hit_always w q sid uc e) as Hhit.
    destruct (CAGEngineMCP.process_query w q sid uc e) as [[resp|ex] e1]; simpl.
    + rewrite Hm.
      exact (only_hits_step 5 (Some 5) _ _ (Hhit resp e1 eq_refl)
               (or_intror eq_refl) He).
    + now rewrite Hm.
  - now rewrite (mcp_ensure_keeps_metrics _ w sid uc e eq_refl).
Qed.

(** X14: the miss counter is never incremented: after any sequence of calls
    on a freshly constructed engine of either variant cache_misses is 0 and
    cache_hits equals total_queries; in the tool variant mcp_calls is 5 times
    total_queries. *)
Theorem cache_misses_stay_zero :
  (forall (max_tokens : Z) (calls : list DirectRun.call),
     let m := performance_metrics
                (snd (DirectRun.run calls (CAGEngine.new max_tokens))) in
     cache_misses m = 0 /\ cache_hits m = total_queries m /\ mcp_calls m = None) /\
  (forall (max_tokens : Z) (calls : list McpRun.call),
     let m := performance_metrics
                (snd (McpRun.run calls (CAGEngineMCP.new max_tokens))) in
     cache_misses m = 0 /\ cache_hits m = total_queries m /\
     mcp_calls m = Some (5 * total_queries m)).
Proof.
  split; intros max_tokens calls.
  - apply (direct_run_preserves (fun e => only_hits None (performance_metrics e))
             direct_exec_only_hits).
    repeat split.
  - apply (mcp_run_preserves (fun e => only_hits (Some 5) (performance_metrics e))
             mcp_exec_only_hits).
    repeat split.
Qed.

(** *** Rows with a missing key *)

Lemma mcp_make_cache_item_raises now category layer row :
  item_knowledge_type row = None \/ item_created_at row = None ->
  exists key, CAGCacheWarmerMCP.make_cache_item now category layer row
              = Raise (KeyError key).
Proof.
  unfold CAGCacheWarmerMCP.make_cache_item, result_bind, getitem.
  intros [H|H].
  - rewrite H. eauto.
  - rewrite H. destruct (item_knowledge_type row); eauto.
Qed.

Lemma mcp_make_cache_item_key_error now category layer row ex :
  CAGCacheWarmerMCP.make_cache_item now category layer row = Raise ex ->
  exists key, ex = KeyError key.
Proof.
  unfold CAGCacheWarmerMCP.make_cache_item, result_bind, getitem.
  destruct (item_knowledge_type row); [|intros [= <-]; eauto].
  destruct (item_created_at row); [discriminate|intros [= <-]; eauto].
Qed.

Lemma result_map_raises {A B} (f : A -> result B) (bad : A -> Prop)
    (l : list A) (x : A) :
  (forall a, bad a -> exists key, f a = Raise (KeyError key)) ->
  (forall a ex, f a = Raise ex -> exists key, ex = KeyError key) ->
  In x l -> bad x ->
  exists key, result_map f l = Raise (KeyError key).
Proof.
  intros Hbad Hkey. induction l as [|a l IH]; [contradiction|].
  intros [->|Hin] Hx; simpl.
  - destruct (Hbad x Hx) as [key ->]. eauto.
  - destruct (f a) as [y|ex] eqn:Ea; simpl.
    + destruct (IH Hin Hx) as [key ->]. eauto.
    + destruct (Hkey a ex Ea) as [key ->]. eauto.
Qed.

(** X15: the loaders of the tool variant index 'knowledge_type' and
    'created_at' directly, although the scorer has defaults for both: when
    the contextual lookup returns an item that lacks one of the two keys,
    load_core_knowledge and with it warm_cache_for_session raise a KeyError,
    and nothing is written to the cache, not even the well-formed items of
    that answer. *)
Theorem item_without_key_aborts_warming
    (w : CAGCacheWarmerMCP.world) (items : list knowledge_item)
    (item : knowledge_item) (session_id : string) (uc : option user_context)
    (wm : warmer) :
  CAGCacheWarmerMCP.get_contextual_knowledge w
    "CAG core knowledge warming - essential system knowledge" 20 = Ok items ->
  In item items ->
  item_knowledge_type item = None \/ item_created_at item = None ->
  exists key,
    fst (CAGCacheWarmerMCP.load_core_knowledge w wm) = Raise (KeyError key) /\
    fst (CAGCacheWarmerMCP.warm_cache_for_session w session_id uc wm)
    = Raise (KeyError key) /\
    warm_cache (snd (CAGCacheWarmerMCP.warm_cache_for_session w session_id uc wm))
    = warm_cache wm.
Proof.
  intros Hfetch Hin Hbad.
  destruct (result_map_raises
              (CAGCacheWarmerMCP.make_cache_item (CAGCacheWarmerMCP.datetime_now w)
                 "core" CAGCacheWarmerMCP.determine_cache_layer)
              (fun it => item_knowledge_type it = None \/ item_created_at it = None)
              items item) as [key Hkey]; try assumption.
  - intros a. apply mcp_make_cache_item_raises.
  - intros a ex. apply mcp_make_cache_item_key_error.
  - exists key.
    unfold CAGCacheWarmerMCP.warm_cache_for_session,
      CAGCacheWarmerMCP.load_core_knowledge, mbind, M_bind, bind, lift_result,
      log_event, modify.
    rewrite Hfetch, Hkey. simpl. repeat split.
Qed.

Lemma item_without_key_aborts_warming_witness :
  exists key,
    fst (CAGCacheWarmerMCP.warm_cache_for_session undated_item_world "S1" None
           (new_warmer false)) = Raise (KeyError key) /\
    warm_cache (snd (CAGCacheWarmerMCP.warm_cache_for_session undated_item_world
                       "S1" None (new_warmer false))) = [].
Proof.
  destruct (item_without_key_aborts_warming undated_item_world
              [scenario_item "k1" "t" "c" None 0; technical_item] technical_item
              "S1" None (new_warmer false) eq_refl
              (or_intror (or_introl eq_refl)) (or_intror eq_refl))
    as (key & _ & Hraise & Hcache).
  exists key. split; [exact Hraise|exact Hcache].
Defined.

(** *** Ranking *)

Section Descending.
Context {A : Type} (key : A -> float).

Lemma descending_tail (x : A) (l : list A) :
  descending key (x :: l) -> descending key l.
Proof. intros [_ H]. exact H. Qed.

Lemma insert_desc_head (x : A) (l : list A) :
  exists l', insert_desc key x l = x :: l' \/
             (exists y l0, l = y :: l0 /\ insert_desc key x l = y :: l'
                           /\ PrimFloat.ltb (key x) (key y) = true).
Proof.
  destruct l as [|y l0]; simpl.
  - exists []. now left.
  - destruct (PrimFloat.ltb (key x) (key y)) eqn:E.
    + exists (insert_desc key x l0). right. exists y, l0. now repeat split.
    + exists (y :: l0). now left.
Qed.

Lemma insert_desc_descending (x : A) (l : list A) :
  descending key l -> descending key (insert_desc key x l).
Proof.
  induction l as [|y l IH]; intros Hl; simpl.
  - now split.
  - destruct (PrimFloat.ltb (key x) (key y)) eqn:E.
    + specialize (IH (descending_tail y l Hl)). split; [|exact IH].
      destruct l as [|z l0]; simpl.
      * now apply ltb_asym.
      * destruct (PrimFloat.ltb (key x) (key z)).
        -- destruct Hl as [Hyz _]. exact Hyz.
        -- now apply ltb_asym.
    + split; [exact E|exact Hl].
Qed.

Lemma sorted_desc_descending (l : list A) : descending key (sorted_desc key l).
Proof.
  induction l as [|x l IH]; simpl; [exact Logic.I|].
  now apply insert_desc_descending.
Qed.

End Descending.

(** *** The order of binary64 numbers *)

Ltac compare_cases :=
  repeat match goal with
  | H : context [PosDef.Pos.compare_cont Eq ?x ?y] |- _ =>
      change (PosDef.Pos.compare_cont Eq x y) with (Pos.compare x y) in H
  | |- context [PosDef.Pos.compare_cont Eq ?x ?y] =>
      change (PosDef.Pos.compare_cont Eq x y) with (Pos.compare x y)
  end;
  repeat match goal with
  | H : context [(?x ?= ?y)%Z] |- _ => destruct (Z.compare_spec x y)
  | |- context [(?x ?= ?y)%Z] => destruct (Z.compare_spec x y)
  | H : context [(?x ?= ?y)%positive] |- _ => destruct (Pos.compare_spec x y)
  | |- context [(?x ?= ?y)%positive] => destruct (Pos.compare_spec x y)
  end.

Lemma not_below_trans (a b c : spec_float) :
  not_below a b -> not_below b c -> not_below a c.
Proof.
  unfold not_below.
  destruct a as [sa|sa| |sa ma ea], b as [sb|sb| |sb mb eb],
    c as [sc|sc| |sc mc ec]; simpl;
    repeat match goal with s : bool |- _ => destruct s end; simpl;
    intros [H1|H1] [H2|H2]; try discriminate; try (now left); try (now right);
    compare_cases; simpl in *; try discriminate; try (now left);
    try (now right); try lia.
Qed.

Lemma number_not_nan (x : float) : is_number x = true -> Prim2SF x <> S754_nan.
Proof.
  unfold is_number. rewrite FloatAxioms.eqb_spec. unfold SFeqb. intros H E.
  rewrite E in H. discriminate H.
Qed.

Lemma numbers_compare (a b : spec_float) :
  a <> S754_nan -> b <> S754_nan -> exists r, SFcompare a b = Some r.
Proof.
  intros Ha Hb.
  destruct a as [sa|sa| |sa ma ea], b as [sb|sb| |sb mb eb]; simpl;
    try contradiction; eauto.
Qed.

Lemma ltb_false_not_below (x y : float) :
  is_number x = true -> is_number y = true ->
  PrimFloat.ltb x y = false <-> not_below (Prim2SF x) (Prim2SF y).
Proof.
  intros Hx Hy. apply number_not_nan in Hx, Hy.
  destruct (numbers_compare _ _ Hx Hy) as [r Hr].
  rewrite ltb_spec. unfold SFltb, not_below. rewrite Hr.
  destruct r; split; intros H; try reflexivity; try discriminate H;
    try (now left); try (now right).
  destruct H as [H|H]; discriminate H.
Qed.

(** On numbers, "not less than" is transitive. *)
Lemma ltb_false_trans (x y z : float) :
  is_number x = true -> is_number y = true -> is_number z = true ->
  PrimFloat.ltb x y = false -> PrimFloat.ltb y z = false ->
  PrimFloat.ltb x z = false.
Proof.
  intros Hx Hy Hz Hxy Hyz.
  apply (ltb_false_not_below x z Hx Hz).
  apply (not_below_trans _ (Prim2SF y)).
  - now apply (ltb_false_not_below x y Hx Hy).
  - now apply (ltb_false_not_below y z Hy Hz).
Qed.

Lemma descending_ranked {A} (key : A -> float) (l : list A) :
  Forall (fun x => is_number (key x) = true) l ->
  descending key l -> ranked key l.
Proof.
  unfold ranked. induction l as [|x l IH]; intros Hnum Hdesc; [constructor|].
  inversion Hnum as [|? ? Hx Hl]; subst.
  destruct Hdesc as [Hhead Htail]. specialize (IH Hl Htail).
  constructor; [exact IH|].
  destruct l as [|y l]; [constructor|].
  inversion IH as [|? ? _ Hy]; subst.
  inversion Hl as [|? ? Hynum Hlnum]; subst.
  constructor; [exact Hhead|].
  apply List.Forall_forall. intros z Hz.
  apply (ltb_false_trans (key x) (key y) (key z) Hx Hynum).
  - exact (proj1 (List.Forall_forall _ _) Hlnum z Hz).
  - exact Hhead.
  - exact (proj1 (List.Forall_forall _ _) Hy z Hz).
Qed.

(** *** Slices *)

Lemma slice_to_firstn {A} (stop : Z) (l : list A) :
  exists k, slice_to stop l = firstn k l /\
            (0 <= stop -> k = Z.to_nat stop) /\
            (stop < 0 -> k = Z.to_nat (len l + stop)).
Proof.
  unfold slice_to. destruct (stop <? 0) eqn:E.
  - apply Z.ltb_lt in E. eexists. split; [reflexivity|]. split; [lia|reflexivity].
  - apply Z.ltb_ge in E. eexists. split; [reflexivity|]. split; [reflexivity|lia].
Qed.

Lemma len_firstn {A} (k : nat) (l : list A) :
  len (firstn k l) = Z.min (Z.of_nat k) (len l).
Proof. unfold len. rewrite length_firstn. lia. Qed.

Lemma len_slice_to {A} (stop : Z) (l : list A) :
  (0 <= stop -> len (slice_to stop l) = Z.min stop (len l)) /\
  (stop < 0 -> len (slice_to stop l) = Z.max 0 (len l + stop)).
Proof.
  destruct (slice_to_firstn stop l) as [k [-> [Hpos Hneg]]].
  rewrite len_firstn. unfold len in *. split; intros H.
  - rewrite (Hpos H). lia.
  - rewrite (Hneg H). lia.
Qed.




(** *** Substrings and word counts *)

Lemma contains_prefix (haystack needle : string) :
  String.prefix needle haystack = true -> contains haystack needle = true.
Proof. intros H. destruct haystack; cbn [contains]; rewrite H; reflexivity. Qed.

Lemma contains_append_r (s t needle : string) :
  contains t needle = true -> contains (s +:+ t) needle = true.
Proof.
  intros H. induction s as [|c s IH]; [exact H|].
  rewrite append_cons. cbn [contains]. rewrite IH. apply orb_true_r.
Qed.

Lemma prefix_append_l (needle s t : string) :
  String.prefix needle s = true -> String.prefix needle (s +:+ t) = true.
Proof.
  revert s. induction needle as [|a needle IH]; intros s H.
  - apply prefix_nil.
  - destruct s as [|c s]; [discriminate H|].
    rewrite append_cons, prefix_cons. rewrite prefix_cons in H.
    destruct (ascii_dec a c); [now apply IH|discriminate H].
Qed.

Lemma contains_append_l (s t needle : string) :
  contains s needle = true -> contains (s +:+ t) needle = true.
Proof.
  induction s as [|c s IH]; intros H.
  - cbn [contains] in H. rewrite orb_false_r in H.
    destruct needle; [|discriminate H].
    apply contains_prefix, prefix_nil.
  - rewrite append_cons. cbn [contains] in H |- *.
    apply orb_true_iff in H. apply orb_true_iff. destruct H as [H|H].
    + left. exact (prefix_append_l needle (String c s) t H).
    + right. now apply IH.
Qed.

Lemma contains_join (sep needle : string) (parts : list string) (p : string) :
  In p parts -> contains p needle = true ->
  contains (join sep parts) needle = true.
Proof.
  intros Hin Hp. induction parts as [|a parts IH]; [destruct Hin|].
  destruct parts as [|b parts].
  - destruct Hin as [->|[]]. exact Hp.
  - rewrite join_cons. destruct Hin as [->|Hin].
    + now apply contains_append_l.
    + apply contains_append_r, contains_append_r. now apply IH.
Qed.

Lemma count_words_space (s : string) (inside : bool) (c : ascii) (t : string) :
  isspace c = true ->
  count_words inside (s +:+ String c t)
  = (count_words inside s + count_words false t)%Z.
Proof.
  intros Hc. revert inside.
  induction s as [|a s IH]; intros inside.
  - change ("" +:+ String c t) with (String c t). cbn [count_words].
    rewrite Hc. lia.
  - rewrite append_cons. cbn [count_words].
    destruct (isspace a); rewrite IH; lia.
Qed.

Lemma layer_block_words (header : string -> string) (context : dict string)
    (layer : ContextLayer) (t : string) :
  count_words false (layer_block header context layer +:+ t)
  = (count_words false (header (value layer))
     + count_words false (layer_body context layer)
     + count_words false t)%Z.
Proof.
  unfold layer_block. rewrite !append_assoc.
  change (newline +:+ layer_body context layer +:+ newline +:+ t)
    with (String (ascii_of_nat 10) (layer_body context layer
                                    +:+ String (ascii_of_nat 10) t)).
  rewrite count_words_space by reflexivity.
  rewrite count_words_space by reflexivity. lia.
Qed.

Lemma compiled_format_words (header : string -> string) (context : dict string)
    (layers : list ContextLayer) :
  count_words false (join newline (map (layer_block header context) layers))
  = sum_Z (map (fun layer =>
                  count_words false (header (value layer))
                  + count_words false (layer_body context layer))%Z layers).
Proof.
  induction layers as [|layer layers IH]; [reflexivity|].
  destruct layers as [|l2 layers].
  - cbn [map join sum_Z fold_right].
    rewrite <- (append_nil_r (layer_block header context layer)).
    rewrite layer_block_words. reflexivity.
  - cbn [map] in IH |- *. rewrite join_cons.
    rewrite layer_block_words.
    change (newline +:+ ?s) with (String (ascii_of_nat 10) s).
    cbn [count_words]. change (isspace (ascii_of_nat 10)) with true. cbn iota.
    rewrite IH. cbn [sum_Z fold_right map]. lia.
Qed.

(** X18: the size of a compiled context. For every context dictionary the
    compiled string has, for each non-empty layer, the words of the layer
    body plus those of its header line, four in the direct-store variant
    and five in the tool variant; count_tokens multiplies that count by
    1.3. *)
Theorem compiled_context_word_count (context : dict string) :
  let words variant_header_words :=
    sum_Z (map (fun layer =>
                  variant_header_words
                  + count_words false (layer_body context layer))%Z
               (emitted_layers context)) in
  count_words false (CAGContextManager.compile_context context) = words 4%Z /\
  count_words false (CAGContextManagerMCP.compile_context context) = words 5%Z /\
  CAGContextManager.count_tokens (CAGContextManager.compile_context context)
  = (float_of_Z (words 4%Z) * 1.3)%float /\
  CAGContextManagerMCP.count_tokens
    (CAGContextManagerMCP.compile_context context)
  = (float_of_Z (words 5%Z) * 1.3)%float.
Proof.
  intros words.
  assert (Hd : count_words false (CAGContextManager.compile_context context)
               = words 4%Z).
  { unfold CAGContextManager.compile_context.
    rewrite compile_context_format. unfold compiled_format.
    rewrite compiled_format_words. unfold words. f_equal.
    apply map_ext_in. intros layer _.
    assert (H : count_words false (CAGContextManager.header (value layer)) = 4%Z)
      by (destruct layer; vm_compute; reflexivity).
    now rewrite H. }
  assert (Hm : count_words false (CAGContextManagerMCP.compile_context context)
               = words 5%Z).
  { unfold CAGContextManagerMCP.compile_context.
    rewrite compile_context_format. unfold compiled_format.
    rewrite compiled_format_words. unfold words. f_equal.
    apply map_ext_in. intros layer _.
    assert (H : count_words false (CAGContextManagerMCP.header (value layer))
                = 5%Z)
      by (destruct layer; vm_compute; reflexivity).
    now rewrite H. }
  split; [exact Hd|]. split; [exact Hm|]. split.
  - unfold CAGContextManager.count_tokens, count_tokens. now rewrite Hd.
  - unfold CAGContextManagerMCP.count_tokens, count_tokens. now rewrite Hm.
Qed.

(** *** Layer analysis of a compiled context *)

Lemma value_injective (l1 l2 : ContextLayer) : value l1 = value l2 -> l1 = l2.
Proof. destruct l1, l2; intros H; try reflexivity; discriminate H. Qed.

Lemma layer_eq_dec (l1 l2 : ContextLayer) : {l1 = l2} + {l1 <> l2}.
Proof. decide equality. Qed.

Lemma analysis_lookup (f : ContextLayer -> bool) (layer : ContextLayer)
    (layers : list ContextLayer) (acc : dict bool) :
  In layer layers \/ dict_get acc (value layer) = Some (f layer) ->
  dict_get
    (fold_left (fun d l => dict_set d (value l) (f l)) layers acc)
    (value layer)
  = Some (f layer).
Proof.
  revert acc. induction layers as [|a layers IH]; intros acc H.
  - destruct H as [[]|H]. exact H.
  - cbn [fold_left]. apply IH.
    destruct (layer_eq_dec a layer) as [->|Hne].
    + right. apply dict_get_set_eq.
    + destruct H as [[Heq|Hin]|Hacc]; [contradiction|now left|].
      right. rewrite dict_get_set_ne; [exact Hacc|].
      intros Hv. apply Hne. now apply value_injective.
Qed.

Lemma all_layers_complete (layer : ContextLayer) : In layer all_layers.
Proof. destruct layer; simpl; tauto. Qed.

Lemma analysis_entry (context : string) (layer : ContextLayer) :
  dict_get (CAGEngine._analyze_context_layers context) (value layer)
  = Some (contains context (CAGContextManager.header (value layer))).
Proof.
  unfold CAGEngine._analyze_context_layers.
  apply (analysis_lookup
           (fun l => contains context (CAGContextManager.header (value l)))).
  left. apply all_layers_complete.
Qed.

Lemma compiled_contains_header (context : dict string) (layer : ContextLayer) :
  truthy (layer_body context layer) = true ->
  contains (CAGContextManager.compile_context context)
    (CAGContextManager.header (value layer)) = true.
Proof.
  intros Hbody. unfold CAGContextManager.compile_context.
  rewrite compile_context_format. unfold compiled_format.
  apply (contains_join _ _ _ (layer_block CAGContextManager.header context layer)).
  - apply in_map. unfold emitted_layers. apply filter_In.
    split; [apply all_layers_complete|exact Hbody].
  - unfold layer_block. apply contains_append_l, contains_prefix.
    unfold CAGContextManager.header. destruct layer; reflexivity.
Qed.

(** X19: compiling and then analysing a context. For every context
    dictionary, the analysis the direct-store engine makes of the compiled
    string has an entry for each of the eight layers, it reports every layer
    whose body is non-empty as present, and it reports nothing as present for
    the empty dictionary. *)
Theorem compiled_layers_are_reported (context : dict string)
    (layer : ContextLayer) :
  let report :=
    CAGEngine._analyze_context_layers
      (CAGContextManager.compile_context context) in
  (exists present, dict_get report (value layer) = Some present) /\
  (truthy (layer_body context layer) = true ->
   dict_get report (value layer) = Some true) /\
  dict_get (CAGEngine._analyze_context_layers
              (CAGContextManager.compile_context []))
    (value layer) = Some false.
Proof.
  intros report. split; [|split].
  - eexists. apply analysis_entry.
  - intros Hbody. unfold report. rewrite analysis_entry. f_equal.
    now apply compiled_contains_header.
  - rewrite analysis_entry. destruct layer; reflexivity.
Qed.

Lemma compiled_layers_are_reported_witness :
  dict_get (CAGEngine._analyze_context_layers
              (CAGContextManager.compile_context system_only_context))
    (value SYSTEM) = Some true.
Proof.
  apply (compiled_layers_are_reported system_only_context SYSTEM).
  reflexivity.
Defined.

(** *** Query analysis *)

Lemma lower_char_upper_char (c : ascii) : lower_char (upper_char c) = lower_char c.
Proof. destruct c as [[] [] [] [] [] [] [] []]; reflexivity. Qed.

Lemma lower_char_idempotent (c : ascii) : lower_char (lower_char c) = lower_char c.
Proof. destruct c as [[] [] [] [] [] [] [] []]; reflexivity. Qed.

Lemma lower_upper (s : string) : lower (upper s) = lower s.
Proof.
  induction s as [|c s IH]; [reflexivity|].
  cbn [upper lower]. now rewrite lower_char_upper_char, IH.
Qed.

Lemma lower_idempotent (s : string) : lower (lower s) = lower s.
Proof.
  induction s as [|c s IH]; [reflexivity|].
  cbn [lower]. now rewrite lower_char_idempotent, IH.
Qed.

Lemma domains_loop (query_lower : string) (table : dict (list string))
    (acc : list string) :
  fold_left
    (fun domains kv =>
       if any_keyword_in query_lower (snd kv) then domains ++ [fst kv]
       else domains)
    table acc
  = acc ++ map fst
             (List.filter (fun kv => any_keyword_in query_lower (snd kv)) table).
Proof.
  revert acc. induction table as [|kv table IH]; intros acc; cbn [fold_left].
  - cbn. now rewrite app_nil_r.
  - rewrite IH. cbn [List.filter].
    destruct (any_keyword_in query_lower (snd kv)); [|reflexivity].
    cbn [map]. now rewrite <- app_assoc.
Qed.

Lemma analyze_query_domains_spec (table : dict (list string)) (query : string) :
  analyze_query_domains table query
  = match matching_domains table query with
    | [] => ["general"%string]
    | d :: ds => d :: ds
    end.
Proof.
  unfold analyze_query_domains, matching_domains. rewrite domains_loop.
  cbn [app]. now destruct (map fst _).
Qed.

(** X20: analyze_query_domains, for every keyword table and query: the
    result is never empty; it is the domains with a keyword occurring in the
    lower-cased query, in the order of the table, or exactly ['general'] when
    there is none; and it does not depend on the case of the query's ASCII
    letters. *)
Theorem query_domains (table : dict (list string)) (query : string) :
  let domains := analyze_query_domains table query in
  domains <> [] /\
  (matching_domains table query = [] -> domains = ["general"%string]) /\
  (matching_domains table query <> [] ->
   domains = matching_domains table query) /\
  analyze_query_domains table (upper query) = domains /\
  analyze_query_domains table (lower query) = domains.
Proof.
  intros domains. unfold domains. rewrite analyze_query_domains_spec.
  split; [|split; [|split; [|split]]].
  - destruct (matching_domains table query); discriminate.
  - now intros ->.
  - destruct (matching_domains table query); [congruence|reflexivity].
  - rewrite analyze_query_domains_spec. unfold matching_domains.
    now rewrite lower_upper.
  - rewrite analyze_query_domains_spec. unfold matching_domains.
    now rewrite lower_idempotent.
Qed.

Lemma matching_domains_app (t1 t2 : dict (list string)) (query : string) :
  matching_domains (t1 ++ t2) query
  = matching_domains t1 query ++ matching_domains t2 query.
Proof. unfold matching_domains. now rewrite List.filter_app, map_app. Qed.

Lemma matching_domains_names (table : dict (list string)) (query d : string) :
  In d (matching_domains table query) -> In d (map fst table).
Proof.
  unfold matching_domains. intros H. apply in_map_iff in H.
  destruct H as [kv [<- H]]. apply filter_In in H. apply in_map, H.
Qed.

(** X21: the two keyword tables. For every query, the tool variant's
    analysis is the direct-store variant's when none of 'mcp', 'integration',
    'tools', 'framework' occurs in the lower-cased query; otherwise it is the
    direct-store variant's matching domains followed by 'mcp'. Every domain
    other than 'general' that the direct-store variant reports, the tool
    variant reports too, and a query mentioning 'framework' is put in both
    'architecture' and 'mcp'. *)
Theorem mcp_query_analysis_extends_direct (query : string) :
  let direct := CAGContextManagerQueries.analyze_query_domains query in
  let mcp := CAGContextManagerMCPQueries.analyze_query_domains query in
  let tool_words :=
    any_keyword_in (lower query) ["mcp"; "integration"; "tools"; "framework"]%string in
  (tool_words = false -> mcp = direct) /\
  (tool_words = true ->
   mcp = matching_domains CAGContextManagerQueries.domain_keywords query
         ++ ["mcp"%string]) /\
  (forall d, In d direct -> d <> "general"%string -> In d mcp) /\
  (contains (lower query) "framework" = true ->
   In "architecture"%string mcp /\ In "mcp"%string mcp /\
   In "architecture"%string direct).
Proof.
  intros direct mcp tool_words.
  assert (Hsplit : matching_domains CAGContextManagerMCPQueries.domain_keywords query
                   = matching_domains CAGContextManagerQueries.domain_keywords query
                     ++ (if tool_words then ["mcp"%string] else [])).
  { change CAGContextManagerMCPQueries.domain_keywords
      with (CAGContextManagerQueries.domain_keywords
            ++ [("mcp", ["mcp"; "integration"; "tools"; "framework"])]%string).
    rewrite matching_domains_app. f_equal.
    unfold matching_domains, tool_words. cbn [List.filter snd].
    now destruct (any_keyword_in _ _). }
  assert (Hmcp : mcp = match matching_domains
                                 CAGContextManagerQueries.domain_keywords query
                               ++ (if tool_words then ["mcp"%string] else []) with
                       | [] => ["general"%string]
                       | d :: ds => d :: ds
                       end).
  { unfold mcp, CAGContextManagerMCPQueries.analyze_query_domains.
    now rewrite analyze_query_domains_spec, Hsplit. }
  assert (Hdirect : direct = match matching_domains
                                     CAGContextManagerQueries.domain_keywords query with
                             | [] => ["general"%string]
                             | d :: ds => d :: ds
                             end).
  { unfold direct, CAGContextManagerQueries.analyze_query_domains.
    now rewrite analyze_query_domains_spec. }
  assert (Harch : contains (lower query) "framework" = true ->
                  In "architecture"%string
                    (matching_domains CAGContextManagerQueries.domain_keywords query)).
  { intros Hf. unfold matching_domains.
    apply (in_map fst _ ("architecture", ["architecture"; "design"; "system";
                                          "framework"])%string).
    apply filter_In. split; [simpl; tauto|].
    unfold any_keyword_in. cbn [snd existsb]. rewrite Hf.
    now rewrite !orb_true_r. }
  assert (Hword : contains (lower query) "framework" = true -> tool_words = true).
  { intros Hf. unfold tool_words, any_keyword_in. cbn [existsb]. rewrite Hf.
    now rewrite !orb_true_r. }
  clearbody direct mcp tool_words.
  split; [|split; [|split]].
  - intros Ht. rewrite Hmcp, Hdirect, Ht. now rewrite app_nil_r.
  - intros Ht. rewrite Hmcp, Ht.
    destruct (matching_domains CAGContextManagerQueries.domain_keywords query);
      reflexivity.
  - intros d Hd Hne. rewrite Hmcp. rewrite Hdirect in Hd.
    destruct (matching_domains CAGContextManagerQueries.domain_keywords query)
      as [|d0 ds] eqn:E.
    + destruct Hd as [<-|[]]. now contradiction Hne.
    + cbn [app]. destruct Hd as [<-|Hd]; [now left|].
      right. apply in_or_app. now left.
  - intros Hf. specialize (Harch Hf).
    assert (Ht : tool_words = true) by exact (Hword Hf).
    rewrite Hmcp, Hdirect, Ht.
    destruct (matching_domains CAGContextManagerQueries.domain_keywords query)
      as [|d0 ds] eqn:E; [destruct Harch|].
    cbn [app]. split; [|split].
    + change (d0 :: ds ++ ["mcp"%string]) with ((d0 :: ds) ++ ["mcp"%string]).
      apply in_or_app. now left.
    + change (d0 :: ds ++ ["mcp"%string]) with ((d0 :: ds) ++ ["mcp"%string]).
      apply in_or_app. right. now left.
    + exact Harch.
Qed.

Lemma mcp_query_analysis_extends_direct_witness :
  In "mcp"%string
    (CAGContextManagerMCPQueries.analyze_query_domains
       "Which Framework do we use?").
Proof.
  assert (Hf : contains (lower "Which Framework do we use?") "framework" = true)
    by (vm_compute; reflexivity).
  exact (proj1 (proj2 (proj2 (proj2 (proj2
           (mcp_query_analysis_extends_direct "Which Framework do we use?")))
           Hf))).
Defined.

(** *** The loaders of the direct-store context manager *)

Lemma truthy_append (s t : string) : truthy s = true -> truthy (s +:+ t) = true.
Proof. now destruct s. Qed.

Lemma truthy_join (sep : string) (lines : list string) :
  lines <> [] -> Forall (fun line => truthy line = true) lines ->
  truthy (join sep lines) = true.
Proof.
  intros Hne Hall. destruct lines as [|l lines]; [contradiction|].
  inversion Hall as [|? ? Hl _]; subst.
  destruct lines as [|q lines]; [exact Hl|].
  rewrite join_cons. now apply truthy_append.
Qed.

Lemma truthy_join_head (sep first : string) (rest : list string) :
  truthy first = true -> truthy (join sep (first :: rest)) = true.
Proof.
  intros H. destruct rest as [|r rest]; [exact H|].
  rewrite join_cons. now apply truthy_append.
Qed.

Lemma truthy_join_or (alternative : string) (lines : list string) :
  truthy alternative = true ->
  Forall (fun line => truthy line = true) lines ->
  truthy (join_or alternative lines) = true.
Proof.
  intros Halt Hall. destruct lines as [|l lines]; [exact Halt|].
  unfold join_or. now apply truthy_join.
Qed.

Lemma truthy_or_error_text (prefix : string) (r : result string) :
  truthy prefix = true ->
  (forall text, r = Ok text -> truthy text = true) ->
  truthy (or_error_text prefix r) = true.
Proof.
  intros Hp Hr. destruct r as [text|e]; simpl.
  - now apply Hr.
  - now apply truthy_append.
Qed.

Lemma row_lines_truthy (tag_key : string) (tag : knowledge_item -> option string)
    (n : nat) (rows : list knowledge_item) (lines : list string) :
  result_map (CAGContextManagerLoaders.row_line tag_key tag n) rows = Ok lines ->
  Forall (fun line => truthy line = true) lines.
Proof.
  apply result_map_Forall. intros item line.
  unfold CAGContextManagerLoaders.row_line.
  destruct (tag item) as [t|]; simpl; [|discriminate].
  now intros [= <-].
Qed.

(** What the three row loaders share: the test of the configuration, then a
    [try] block around connecting, fetching and formatting. *)
Lemma row_loader_truthy (db : CAGContextManagerLoaders.database)
    (no_config prefix no_connection alternative tag_key : string)
    (tag : knowledge_item -> option string) (n : nat)
    (rows : result (list knowledge_item)) :
  truthy no_config = true -> truthy prefix = true ->
  truthy no_connection = true -> truthy alternative = true ->
  truthy
    (if negb (CAGContextManagerLoaders.db_config db) then no_config
     else
       or_error_text prefix
         (result_bind (CAGContextManagerLoaders.connect_db db) (fun conn =>
          match conn with
          | None => Ok no_connection
          | Some _ =>
              result_bind rows (fun results =>
              result_bind
                (result_map (CAGContextManagerLoaders.row_line tag_key tag n)
                   results) (fun lines =>
              Ok (join_or alternative lines)))
          end))) = true.
Proof.
  intros Hc Hp Hn Ha.
  destruct (negb (CAGContextManagerLoaders.db_config db)); [exact Hc|].
  apply truthy_or_error_text; [exact Hp|]. intros text.
  destruct (CAGContextManagerLoaders.connect_db db) as [[conn|]|e]; simpl;
    [|now intros [= <-]|discriminate].
  destruct rows as [results|e]; simpl; [|discriminate].
  destruct (result_map _ results) as [lines|e] eqn:Hmap; simpl; [|discriminate].
  intros [= <-]. apply truthy_join_or; [exact Ha|].
  exact (row_lines_truthy _ _ _ _ _ Hmap).
Qed.

Lemma load_domain_knowledge_truthy db domains :
  truthy (CAGContextManagerLoaders.load_domain_knowledge db domains) = true.
Proof. now apply row_loader_truthy. Qed.

Lemma load_relevant_experience_truthy db query :
  truthy (CAGContextManagerLoaders.load_relevant_experience db query) = true.
Proof. now apply row_loader_truthy. Qed.

Lemma load_strategic_insights_truthy db query :
  truthy (CAGContextManagerLoaders.load_strategic_insights db query) = true.
Proof. now apply row_loader_truthy. Qed.

(** The dictionary [load_context_for_query] compiles. *)
Lemma direct_context_dict max w query session_id :
  CAGContextManager.load_context_for_query max w query session_id
  = CAGContextManager.compile_context
      [ ("system", CAGContextManager.load_system_instructions);
        ("project", CAGContextManager.load_project_context);
        ("session", CacheWarmingEngine.session_history_text w);
        ("domain", CacheWarmingEngine.domain_knowledge_text w);
        ("experience", CacheWarmingEngine.experience_text w);
        ("strategic", CacheWarmingEngine.strategic_insights_text w);
        ("dynamic",
         load_dynamic_content (CacheWarmingEngine.dynamic_content_text w)
           (calculate_remaining_tokens max
              [ ("system", CAGContextManager.load_system_instructions);
                ("project", CAGContextManager.load_project_context);
                ("session", CacheWarmingEngine.session_history_text w);
                ("domain", CacheWarmingEngine.domain_knowledge_text w);
                ("experience", CacheWarmingEngine.experience_text w);
                ("strategic", CacheWarmingEngine.strategic_insights_text w) ]))
      ]%string.
Proof. reflexivity. Qed.

Lemma direct_loaded_layers max w db query session_id layer :
  In layer always_loaded ->
  contains
    (CAGContextManagerLoaders.load_context_for_query max w db query session_id)
    (CAGContextManager.header (value layer)) = true.
Proof.
  intros Hin. unfold CAGContextManagerLoaders.load_context_for_query.
  rewrite direct_context_dict. apply compiled_contains_header.
  unfold always_loaded in Hin. simpl in Hin.
  destruct Hin as [<-|[<-|[<-|[<-|[<-|[]]]]]].
  - reflexivity.
  - reflexivity.
  - apply load_domain_knowledge_truthy.
  - apply load_relevant_experience_truthy.
  - apply load_strategic_insights_truthy.
Qed.

(** The envelope of an answer is built from the compiled context. *)
Lemma direct_response_context w query session_id uc e :
  match CAGEngine.process_query w query session_id uc e with
  | (Ok resp, _) =>
      exists max,
        full_context resp
        = CAGContextManager.load_context_for_query max w query session_id /\
        context_layers resp
        = Some (CAGEngine._analyze_context_layers (full_context resp)) /\
        context_size_tokens resp
        = CAGContextManager.count_tokens (full_context resp)
  | (Raise _, _) => True
  end.
Proof.
  unfold CAGEngine.process_query, mbind, M_bind, bind.
  destruct (CAGEngine.ensure_cache_warmed w session_id uc e) as [[b|ex] e1];
    simpl; [|exact Logic.I].
  exists (max_tokens e1). now repeat split.
Qed.

Lemma direct_warmed_query_returns w query session_id uc e :
  is_warmed session_id e = true ->
  exists resp e', CAGEngine.process_query w query session_id uc e = (Ok resp, e').
Proof.
  intros Hw. unfold CAGEngine.process_query, CAGEngine.ensure_cache_warmed,
    mbind, M_bind, bind. simpl. rewrite Hw. simpl. eauto.
Qed.

(** X22: what every answer of the direct-store engine contains. Whatever the
    database does (not configured, unreachable, failing on any statement, or
    answering with any rows), the loaders of the domain, experience and
    strategic layers return a non-empty text; so an answer of process_query
    always has the system, project, domain, experience and strategic sections
    in its full context and reports these five layers as present. The
    context loading itself never fails: a query on a warmed session always
    returns. *)
Theorem direct_answers_carry_five_layers
    (w : CacheWarmingEngine.world) (db : CAGContextManagerLoaders.database)
    (query session_id : string) (uc : option user_context) (e : engine)
    (layer : ContextLayer) :
  In layer always_loaded ->
  (forall resp e',
     CAGContextManagerLoaders.process_query w db query session_id uc e
     = (Ok resp, e') ->
     contains (full_context resp) (CAGContextManager.header (value layer)) = true /\
     exists report,
       context_layers resp = Some report /\
       dict_get report (value layer) = Some true) /\
  (is_warmed session_id e = true ->
   exists resp e',
     CAGContextManagerLoaders.process_query w db query session_id uc e
     = (Ok resp, e')).
Proof.
  intros Hin. split.
  - intros resp e' Hq. unfold CAGContextManagerLoaders.process_query in Hq.
    pose proof (direct_response_context
                  (CAGContextManagerLoaders.loaded w db query session_id)
                  query session_id uc e) as H.
    rewrite Hq in H. destruct H as [max [Hctx [Hlayers _]]].
    assert (Hc : contains (full_context resp)
                   (CAGContextManager.header (value layer)) = true).
    { rewrite Hctx.
      exact (direct_loaded_layers max w db query session_id layer Hin). }
    split; [exact Hc|].
    eexists. split; [exact Hlayers|]. now rewrite analysis_entry, Hc.
  - intros Hw. now apply direct_warmed_query_returns.
Qed.

Lemma direct_answers_carry_five_layers_witness :
  exists resp e',
    CAGContextManagerLoaders.process_query empty_store_world
      unreachable_database "How is the cache warmed?" "s1" None
      (CAGEngine.new 128000)
    = (Ok resp, e') /\
    contains (full_context resp) "=== DOMAIN CONTEXT ===" = true.
Proof.
  destruct (CAGContextManagerLoaders.process_query empty_store_world
              unreachable_database "How is the cache warmed?" "s1" None
              (CAGEngine.new 128000)) as [[resp|ex] e'] eqn:Hq.
  - exists resp, e'. split; [reflexivity|].
    exact (proj1 (proj1 (direct_answers_carry_five_layers empty_store_world
                           unreachable_database "How is the cache warmed?" "s1"
                           None (CAGEngine.new 128000) DOMAIN
                           (or_intror (or_intror (or_introl eq_refl))))
                    resp e' Hq)).
  - exfalso. vm_compute in Hq. discriminate Hq.
Defined.

(** X23: a context manager without a database configuration. For every
    window size, the compiled context does not depend on the query, on the
    session or on anything the database would answer: each loader returns its
    fixed notice. With the default window of 128000 tokens the dynamic layer
    reads 'Dynamic content unavailable', the session layer 'Session history
    unavailable - no database connection'. *)
Theorem context_without_database
    (max : Z) (w w' : CacheWarmingEngine.world)
    (db db' : CAGContextManagerLoaders.database)
    (query query' session_id session_id' : string) :
  CAGContextManagerLoaders.db_config db = false ->
  CAGContextManagerLoaders.db_config db' = false ->
  CAGContextManagerLoaders.load_context_for_query max w db query session_id
  = CAGContextManagerLoaders.load_context_for_query max w' db' query' session_id'
  /\
  (max = 128000 ->
   CAGContextManagerLoaders.load_context_for_query max w db query session_id
   = CAGContextManager.compile_context
       [ ("system", CAGContextManager.load_system_instructions);
         ("project", CAGContextManager.load_project_context);
         ("session", "Session history unavailable - no database connection");
         ("domain", "Domain knowledge unavailable - no database connection");
         ("experience", "Experience memory unavailable - no database connection");
         ("strategic", "Strategic insights unavailable - no database connection");
         ("dynamic", "Dynamic content unavailable") ]%string).
Proof.
  intros Hdb Hdb'.
  assert (Hfixed : forall w0 db0 q0 s0,
            CAGContextManagerLoaders.db_config db0 = false ->
            CAGContextManagerLoaders.load_context_for_query max w0 db0 q0 s0
            = CAGContextManagerLoaders.load_context_for_query max
                empty_store_world no_database "" "").
  { intros w0 db0 q0 s0 H0.
    unfold CAGContextManagerLoaders.load_context_for_query.
    rewrite !direct_context_dict.
    unfold CAGContextManagerLoaders.loaded; cbn [
      CacheWarmingEngine.session_history_text
      CacheWarmingEngine.domain_knowledge_text
      CacheWarmingEngine.experience_text
      CacheWarmingEngine.strategic_insights_text
      CacheWarmingEngine.dynamic_content_text].
    unfold CAGContextManagerLoaders.load_session_history,
      CAGContextManagerLoaders.load_domain_knowledge,
      CAGContextManagerLoaders.load_relevant_experience,
      CAGContextManagerLoaders.load_strategic_insights,
      CAGContextManagerLoaders.dynamic_content,
      CAGContextManagerLoaders.connect_db.
    rewrite H0. reflexivity. }
  split.
  - rewrite (Hfixed w db query session_id Hdb).
    now rewrite (Hfixed w' db' query' session_id' Hdb').
  - intros ->. rewrite (Hfixed w db query session_id Hdb).
    vm_compute. reflexivity.
Qed.

Lemma context_without_database_witness :
  CAGContextManagerLoaders.load_context_for_query 128000 empty_store_world
    no_database "What is cached?" "s1"
  = CAGContextManagerLoaders.load_context_for_query 128000 one_row_world
      no_database "Which framework?" "s2".
Proof.
  exact (proj1 (context_without_database 128000 empty_store_world one_row_world
                  no_database no_database "What is cached?" "Which framework?"
                  "s1" "s2" eq_refl eq_refl)).
Defined.

(** *** The loaders of the tool variant's context manager *)

Lemma prefix_refl (s : string) : String.prefix s s = true.
Proof.
  induction s as [|c s IH]; [reflexivity|].
  rewrite prefix_cons. destruct (ascii_dec c c); [exact IH|contradiction].
Qed.

Lemma compiled_contains_header_of (header : string -> string)
    (context : dict string) (layer : ContextLayer) :
  truthy (layer_body context layer) = true ->
  contains (compile_context header context) (header (value layer)) = true.
Proof.
  intros Hbody. rewrite compile_context_format. unfold compiled_format.
  apply (contains_join _ _ _ (layer_block header context layer)).
  - apply in_map. unfold emitted_layers. apply filter_In.
    split; [apply all_layers_complete|exact Hbody].
  - unfold layer_block. apply contains_append_l, contains_prefix, prefix_refl.
Qed.

Lemma In_last_n {A} (n : nat) (l : list A) (x : A) :
  In x (last_n n l) -> In x l.
Proof.
  unfold last_n. generalize (length l - n)%nat. intros k. revert l.
  induction k as [|k IH]; intros l H; [exact H|].
  destruct l as [|y l]; [exact H|]. right. now apply IH.
Qed.

Lemma last_n_nonempty {A} (n : nat) (l : list A) :
  (0 < n)%nat -> l <> [] -> last_n n l <> [].
Proof.
  intros Hn Hl Hnil. unfold last_n in Hnil.
  assert (Hlen : length (skipn (length l - n) l) = 0%nat) by now rewrite Hnil.
  rewrite length_skipn in Hlen.
  destruct l as [|x l]; [contradiction|]. simpl in Hlen. lia.
Qed.

Lemma mcp_history_truthy (items : list knowledge_item)
    (acc : result (list string)) (history : list string) :
  (forall lines, acc = Ok lines -> Forall (fun l => truthy l = true) lines) ->
  fold_left (fun history item =>
               result_bind history (fun history =>
               CAGContextManagerMCPLoaders.history_step history item))
    items acc = Ok history ->
  Forall (fun l => truthy l = true) history.
Proof.
  revert acc. induction items as [|item items IH]; intros acc Hacc; simpl.
  - intros H. now apply Hacc.
  - apply IH. intros lines.
    destruct acc as [h|e]; simpl; [|discriminate].
    unfold CAGContextManagerMCPLoaders.history_step.
    destruct (item_knowledge_type item) as [kt|]; simpl; [|discriminate].
    specialize (Hacc h eq_refl).
    destruct (String.eqb kt "contextual"); intros [= <-]; [|exact Hacc].
    apply Forall_app. split; [exact Hacc|]. now constructor.
Qed.

Lemma mcp_session_history_truthy gsc session_id :
  truthy (CAGContextManagerMCPLoaders.load_session_history gsc session_id) = true.
Proof.
  unfold CAGContextManagerMCPLoaders.load_session_history.
  apply truthy_or_error_text; [reflexivity|]. intros text.
  destruct (gsc 10 None) as [items|e]; simpl; [|discriminate].
  destruct (fold_left _ items (Ok [])) as [history|e] eqn:Hfold; simpl;
    [|discriminate].
  assert (Hall : Forall (fun l => truthy l = true) history).
  { apply (mcp_history_truthy items (Ok []) history); [|exact Hfold].
    intros lines [= <-]. constructor. }
  destruct history as [|h history]; intros [= <-]; [reflexivity|].
  apply truthy_join.
  - apply last_n_nonempty; [lia|discriminate].
  - apply List.Forall_forall. intros x Hx. apply In_last_n in Hx.
    exact (proj1 (List.Forall_forall _ _) Hall x Hx).
Qed.

Lemma mcp_domain_knowledge_truthy w domains :
  truthy (CAGContextManagerMCPLoaders.load_domain_knowledge w domains) = true.
Proof.
  unfold CAGContextManagerMCPLoaders.load_domain_knowledge.
  apply truthy_or_error_text; [reflexivity|]. intros text. cbv zeta.
  destruct (CAGCacheWarmerMCP.search_knowledge w _ _ _) as [results|e]; simpl;
    [|discriminate].
  destruct (result_map _ results) as [lines|e] eqn:Hmap; simpl; [|discriminate].
  intros [= <-]. apply truthy_join_or; [reflexivity|].
  exact (row_lines_truthy _ _ _ _ _ Hmap).
Qed.

Lemma experiences_truthy (results : list knowledge_item) (acc : list string) :
  Forall (fun l => truthy l = true) acc ->
  Forall (fun l => truthy l = true)
    (fold_left
       (fun experiences item =>
          match item_knowledge_type item with
          | Some knowledge_type =>
              if String.eqb knowledge_type "experiential"
              then experiences
                   ++ [CAGContextManagerMCPLoaders.tagged_line "Experience" item]
              else experiences
          | None => experiences
          end)
       results acc).
Proof.
  revert acc. induction results as [|item results IH]; intros acc Hacc;
    [exact Hacc|].
  simpl. apply IH.
  destruct (item_knowledge_type item) as [kt|]; [|exact Hacc].
  destruct (String.eqb kt "experiential"); [|exact Hacc].
  apply Forall_app. split; [exact Hacc|]. now constructor.
Qed.

Lemma mcp_relevant_experience_truthy w query :
  truthy (CAGContextManagerMCPLoaders.load_relevant_experience w query) = true.
Proof.
  unfold CAGContextManagerMCPLoaders.load_relevant_experience.
  apply truthy_or_error_text; [reflexivity|]. intros text.
  destruct (CAGCacheWarmerMCP.get_contextual_knowledge w _ _) as [results|e];
    simpl; [|discriminate].
  intros [= <-]. apply truthy_join_or; [reflexivity|].
  apply experiences_truthy. constructor.
Qed.

Lemma mcp_strategic_insights_truthy w query :
  truthy (CAGContextManagerMCPLoaders.load_strategic_insights w query) = true.
Proof.
  unfold CAGContextManagerMCPLoaders.load_strategic_insights.
  apply truthy_or_error_text; [reflexivity|]. intros text.
  destruct (CAGCacheWarmerMCP.search_knowledge w _ _ _) as [results|e]; simpl;
    [|discriminate].
  intros [= <-]. apply truthy_join_or; [reflexivity|].
  apply List.Forall_forall. intros line Hin. apply in_map_iff in Hin.
  now destruct Hin as [item [<- _]].
Qed.

Lemma project_lines_start (items : list knowledge_item) (first : string)
    (acc : list string) :
  exists rest,
    fold_left
      (fun project_context item =>
         project_context
         ++ ["- " +:+ item_title item +:+ ": "
             +:+ String.substring 0 100 (item_content item) +:+ "..."])
      items (first :: acc) = first :: rest.
Proof.
  revert acc. induction items as [|item items IH]; intros acc; simpl.
  - now exists acc.
  - apply IH.
Qed.

Lemma mcp_project_context_truthy gsc text :
  CAGContextManagerMCPLoaders.load_project_context gsc = Ok text ->
  truthy text = true.
Proof.
  unfold CAGContextManagerMCPLoaders.load_project_context.
  destruct (gsc 5 (Some "KnowledgePersistence-AI"%string)) as [items|e]; simpl;
    [|discriminate].
  destruct (project_lines_start items "Project: KnowledgePersistence-AI"
              ["Status: Phase 5 - CAG-MCP Integration Active";
               "Framework: MCP-integrated knowledge persistence"]%string)
    as [rest Hrest].
  rewrite Hrest. intros [= <-]. now apply truthy_join_head.
Qed.

(** The dictionary [load_context_for_query] of the tool variant compiles. *)
Lemma mcp_context_dict max w query session_id :
  CAGContextManagerMCP.load_context_for_query max w query session_id
  = result_bind (CAGCacheWarmerMCP.project_context_text w) (fun project_context =>
    Ok (CAGContextManagerMCP.compile_context
      [ ("system", CAGContextManagerMCP.load_system_instructions);
        ("project", project_context);
        ("session", CAGCacheWarmerMCP.session_history_text w);
        ("domain", CAGCacheWarmerMCP.domain_knowledge_text w);
        ("experience", CAGCacheWarmerMCP.experience_text w);
        ("strategic", CAGCacheWarmerMCP.strategic_insights_text w);
        ("dynamic",
         load_dynamic_content (CAGCacheWarmerMCP.dynamic_content_text w)
           (calculate_remaining_tokens max
              [ ("system", CAGContextManagerMCP.load_system_instructions);
                ("project", project_context);
                ("session", CAGCacheWarmerMCP.session_history_text w);
                ("domain", CAGCacheWarmerMCP.domain_knowledge_text w);
                ("experience", CAGCacheWarmerMCP.experience_text w);
                ("strategic", CAGCacheWarmerMCP.strategic_insights_text w) ]))
      ]%string)).
Proof. reflexivity. Qed.

Lemma mcp_loaded_layers max w gsc query session_id layer context :
  In layer always_loaded_mcp ->
  CAGContextManagerMCPLoaders.load_context_for_query max w gsc query session_id
  = Ok context ->
  contains context (CAGContextManagerMCP.header (value layer)) = true.
Proof.
  intros Hin. unfold CAGContextManagerMCPLoaders.load_context_for_query.
  rewrite mcp_context_dict.
  unfold CAGContextManagerMCPLoaders.loaded at 1.
  cbn [CAGCacheWarmerMCP.project_context_text].
  destruct (CAGContextManagerMCPLoaders.load_project_context gsc)
    as [project_context|e] eqn:Hproject; simpl; [|discriminate].
  intros [= <-]. unfold CAGContextManagerMCP.compile_context.
  apply compiled_contains_header_of.
  unfold always_loaded_mcp in Hin. simpl in Hin.
  destruct Hin as [<-|[<-|[<-|[<-|[<-|[<-|[]]]]]]].
  - reflexivity.
  - exact (mcp_project_context_truthy gsc project_context Hproject).
  - apply mcp_session_history_truthy.
  - apply mcp_domain_knowledge_truthy.
  - apply mcp_relevant_experience_truthy.
  - apply mcp_strategic_insights_truthy.
Qed.

Lemma mcp_response_context w query session_id uc e :
  match CAGEngineMCP.process_query w query session_id uc e with
  | (Ok resp, _) =>
      exists max,
        CAGContextManagerMCP.load_context_for_query max w query session_id
        = Ok (full_context resp)
  | (Raise _, _) => True
  end.
Proof.
  unfold CAGEngineMCP.process_query, mbind, M_bind, bind.
  destruct (CAGEngineMCP.ensure_cache_warmed w session_id uc e) as [[b|ex] e1];
    simpl; [|exact Logic.I].
  destruct (CAGContextManagerMCP.load_context_for_query (max_tokens e1) w query
              session_id) as [context|ex] eqn:Hctx; simpl; [|exact Logic.I].
  unfold CAGEngineMCP._store_interaction_via_mcp, try_except, mbind, M_bind,
    bind, lift_result.
  destruct (CAGCacheWarmerMCP.store_knowledge _ _ _ _ _) as [stored|ex]; simpl;
    exists (max_tokens e1); exact Hctx.
Qed.

(** X24: what every answer of the tool variant contains. Whatever the
    knowledge client answers, items or exceptions, the loaders of the session,
    domain, experience and strategic layers return a non-empty text; so the
    context of every answer of process_query has the system, project, session,
    domain, experience and strategic sections. For items that carry a title
    and a content, loading the context fails in one case only: when the
    client's get_session_context fails for the project. *)
Theorem mcp_answers_carry_six_layers
    (w : CAGCacheWarmerMCP.world)
    (get_session_context : CAGContextManagerMCPLoaders.session_context)
    (query session_id : string) (uc : option user_context) (e : engine)
    (layer : ContextLayer) :
  In layer always_loaded_mcp ->
  (forall resp e',
     CAGContextManagerMCPLoaders.process_query w get_session_context query
       session_id uc e = (Ok resp, e') ->
     contains (full_context resp) (CAGContextManagerMCP.header (value layer))
     = true) /\
  (forall max,
     (exists context,
        CAGContextManagerMCPLoaders.load_context_for_query max w
          get_session_context query session_id = Ok context) <->
     (exists items,
        get_session_context 5 (Some "KnowledgePersistence-AI"%string)
        = Ok items)).
Proof.
  intros Hin. split.
  - intros resp e' Hq. unfold CAGContextManagerMCPLoaders.process_query in Hq.
    pose proof (mcp_response_context
                  (CAGContextManagerMCPLoaders.loaded w get_session_context
                     query session_id) query session_id uc e) as H.
    rewrite Hq in H. destruct H as [max Hctx].
    exact (mcp_loaded_layers max w get_session_context query session_id layer
             (full_context resp) Hin Hctx).
  - intros max. unfold CAGContextManagerMCPLoaders.load_context_for_query.
    rewrite mcp_context_dict.
    unfold CAGContextManagerMCPLoaders.loaded at 1.
    cbn [CAGCacheWarmerMCP.project_context_text].
    unfold CAGContextManagerMCPLoaders.load_project_context.
    destruct (get_session_context 5 (Some "KnowledgePersistence-AI"%string))
      as [items|ex]; simpl.
    + split; intros _; eauto.
    + split; intros [x Hx]; discriminate Hx.
Qed.

Lemma mcp_answers_carry_six_layers_witness :
  exists resp e',
    CAGContextManagerMCPLoaders.process_query empty_client_world
      no_session_context "How is the cache warmed?" "s1" None
      (CAGEngineMCP.new 128000)
    = (Ok resp, e') /\
    contains (full_context resp) "=== SESSION CONTEXT (MCP-INTEGRATED) ==="
    = true.
Proof.
  destruct (CAGContextManagerMCPLoaders.process_query empty_client_world
              no_session_context "How is the cache warmed?" "s1" None
              (CAGEngineMCP.new 128000)) as [[resp|ex] e'] eqn:Hq.
  - exists resp, e'. split; [reflexivity|].
    exact (proj1 (mcp_answers_carry_six_layers empty_client_world
                    no_session_context "How is the cache warmed?" "s1"
                    None (CAGEngineMCP.new 128000) SESSION
                    (or_intror (or_intror (or_introl eq_refl))))
             resp e' Hq).
  - exfalso. vm_compute in Hq. discriminate Hq.
Defined.

(** *** The knowledge client as shipped *)

Lemma result_map_all_ok {A B} (f : A -> result B) (g : A -> B) (l : list A) :
  (forall x, In x l -> f x = Ok (g x)) -> result_map f l = Ok (map g l).
Proof.
  induction l as [|x l IH]; intros H; [reflexivity|].
  simpl. rewrite (H x (or_introl eq_refl)). simpl.
  rewrite IH; [reflexivity|]. intros y Hy. apply H. now right.
Qed.

Lemma fresh_days_old (now created : Z) (item : knowledge_item) :
  item_created_at item = Some created ->
  created <= now < created + microseconds_per_day ->
  days_old now item = 0.
Proof.
  intros Hc Hfresh. unfold days_old, timedelta_days. rewrite Hc. simpl.
  apply Z.div_small. lia.
Qed.

Lemma make_fresh_candidate (now created : Z) (kt category : string)
    (layer : knowledge_item -> string) (item : knowledge_item) :
  item_knowledge_type item = Some kt ->
  item_created_at item = Some created ->
  created <= now < created + microseconds_per_day ->
  CAGCacheWarmerMCP.make_cache_item now category layer item
  = Ok (fresh_candidate category layer item).
Proof.
  intros Hkt Hc Hfresh.
  unfold CAGCacheWarmerMCP.make_cache_item, fresh_candidate.
  rewrite Hkt, Hc. simpl. do 2 f_equal.
  unfold CAGCacheWarmerMCP.calculate_cache_priority, recency.
  rewrite (fresh_days_old now created item Hc Hfresh).
  reflexivity.
Qed.

(** A warming whose three loaders return. *)
Lemma mcp_warm_run w session_id uc wm (core session strategic : list cache_item) :
  (forall s, CAGCacheWarmerMCP.load_core_knowledge w s = (Ok core, s)) ->
  (forall s,
     CAGCacheWarmerMCP.predict_session_knowledge w
       (default CAGCacheWarmerMCP.default_user_context uc) s = (Ok session, s)) ->
  (forall s, CAGCacheWarmerMCP.load_strategic_insights w s = (Ok strategic, s)) ->
  let preload items s :=
    fold_left (preload_item (Some "mcp_integrated"%string)
                 (CAGCacheWarmerMCP.datetime_now w)) items s in
  let wm3 :=
    preload strategic
      (preload session
         (preload core (snd (log_event (WarmingStarted session_id) wm)))) in
  CAGCacheWarmerMCP.warm_cache_for_session w session_id uc wm
  = (Ok {| phases_completed := 3;
           items_loaded := 0 + len core + len session + len strategic;
           cache_size := len (warm_cache wm3);
           warming_time :=
             (CAGCacheWarmerMCP.t_warming_end w
              - CAGCacheWarmerMCP.t_warming_start w)%float;
           stats_mcp_integrated := Some true |},
     snd (log_event (WarmingCompleted session_id) wm3)).
Proof.
  intros Hcore Hsession Hstrategic preload wm3.
  unfold CAGCacheWarmerMCP.warm_cache_for_session,
    CAGCacheWarmerMCP.preload_to_context, preload_items, mbind, M_bind, bind.
  unfold log_event at 1, modify at 1. cbv beta iota.
  rewrite Hcore. cbv beta iota. unfold modify at 1. cbv beta iota.
  rewrite Hsession. cbv beta iota. unfold modify at 1. cbv beta iota.
  rewrite Hstrategic. cbv beta iota. unfold modify at 1. cbv beta iota.
  reflexivity.
Qed.

Lemma filter_map_none {A B} (p : B -> bool) (f : A -> B) (l : list A) :
  (forall x, In x l -> p (f x) = false) -> List.filter p (map f l) = [].
Proof.
  induction l as [|x l IH]; intros H; [reflexivity|].
  cbn [map List.filter]. rewrite (H x (or_introl eq_refl)).
  apply IH. intros y Hy. apply H. now right.
Qed.

Lemma range_nonnegative (n i : Z) : In i (MCPKnowledgeClient.range n) -> 0 <= i.
Proof.
  unfold MCPKnowledgeClient.range. intros H. apply in_map_iff in H.
  destruct H as [k [<- _]]. lia.
Qed.

Section StockClient.
Variable mcp_available : bool.
Variable now : MCPKnowledgeClient.clock.
Variable seconds : Z.
Variable w : CAGCacheWarmerMCP.world.
Hypothesis now_fresh : fresh now w.

Let sw := MCPKnowledgeClient.stock mcp_available now seconds w.

Lemma stock_contextual_items situation max_results :
  CAGCacheWarmerMCP.get_contextual_knowledge sw situation max_results
  = Ok (MCPKnowledgeClient._mock_contextual_knowledge now situation max_results).
Proof.
  unfold sw, MCPKnowledgeClient.stock. cbn [CAGCacheWarmerMCP.get_contextual_knowledge].
  unfold MCPKnowledgeClient.get_contextual_knowledge.
  now destruct (negb mcp_available).
Qed.

Lemma stock_search_items query knowledge_types limit :
  CAGCacheWarmerMCP.search_knowledge sw query knowledge_types limit
  = Ok (MCPKnowledgeClient._mock_search_knowledge now query
          (passed_types mcp_available knowledge_types) limit).
Proof.
  unfold sw, MCPKnowledgeClient.stock. cbn [CAGCacheWarmerMCP.search_knowledge].
  unfold MCPKnowledgeClient.search_knowledge, passed_types.
  now destruct (negb mcp_available).
Qed.

Lemma mock_contextual_fresh situation max_results item :
  In item (MCPKnowledgeClient._mock_contextual_knowledge now situation max_results) ->
  item_knowledge_type item = Some "contextual"%string /\
  exists created,
    item_created_at item = Some created /\
    created <= CAGCacheWarmerMCP.datetime_now w < created + microseconds_per_day.
Proof.
  unfold MCPKnowledgeClient._mock_contextual_knowledge. intros Hin.
  apply in_map_iff in Hin. destruct Hin as [i [<- _]]. simpl.
  split; [reflexivity|]. eexists. split; [reflexivity|]. apply now_fresh.
Qed.

Lemma mock_search_fresh query knowledge_types limit item :
  In item (MCPKnowledgeClient._mock_search_knowledge now query knowledge_types limit) ->
  (exists kt, item_knowledge_type item = Some kt) /\
  exists created,
    item_created_at item = Some created /\
    created <= CAGCacheWarmerMCP.datetime_now w < created + microseconds_per_day.
Proof.
  unfold MCPKnowledgeClient._mock_search_knowledge. intros Hin.
  apply in_map_iff in Hin. destruct Hin as [i [<- _]]. simpl.
  split; [eexists; reflexivity|]. eexists. split; [reflexivity|]. apply now_fresh.
Qed.

Lemma stock_load_core (s : warmer) :
  CAGCacheWarmerMCP.load_core_knowledge sw s
  = (Ok (sorted_desc cache_priority
           (map (fresh_candidate "core" CAGCacheWarmerMCP.determine_cache_layer)
              (MCPKnowledgeClient._mock_contextual_knowledge now
                 "CAG core knowledge warming - essential system knowledge" 20))),
     s).
Proof.
  unfold CAGCacheWarmerMCP.load_core_knowledge, mbind, M_bind, bind, lift_result.
  rewrite stock_contextual_items.
  rewrite (result_map_all_ok _
             (fresh_candidate "core" CAGCacheWarmerMCP.determine_cache_layer)).
  - reflexivity.
  - intros item Hin. apply mock_contextual_fresh in Hin.
    destruct Hin as [Hkt [created [Hc Hf]]].
    exact (make_fresh_candidate _ created _ _ _ item Hkt Hc Hf).
Qed.

Lemma stock_predict_session (uc : user_context) (s : warmer) :
  CAGCacheWarmerMCP.predict_session_knowledge sw uc s
  = (Ok (sorted_desc cache_priority
           (map (fresh_candidate "session"
                   CAGCacheWarmerMCP.determine_cache_layer)
              (MCPKnowledgeClient._mock_search_knowledge now
                 (session_search uc) (passed_types mcp_available None) 15))),
     s).
Proof.
  unfold CAGCacheWarmerMCP.predict_session_knowledge, mbind, M_bind, bind,
    lift_result.
  fold (session_search uc). rewrite stock_search_items.
  rewrite (result_map_all_ok _
             (fresh_candidate "session" CAGCacheWarmerMCP.determine_cache_layer)).
  - reflexivity.
  - intros item Hin. apply mock_search_fresh in Hin.
    destruct Hin as [[kt Hkt] [created [Hc Hf]]].
    exact (make_fresh_candidate _ created _ _ _ item Hkt Hc Hf).
Qed.

Lemma mock_search_importance query knowledge_types limit :
  List.filter (fun item => 60 <? default 0 (item_importance_score item))
    (MCPKnowledgeClient._mock_search_knowledge now query knowledge_types limit)
  = [].
Proof.
  unfold MCPKnowledgeClient._mock_search_knowledge.
  apply filter_map_none. intros i Hi. apply range_nonnegative in Hi.
  simpl. apply Z.ltb_ge. lia.
Qed.

Lemma stock_load_strategic (s : warmer) :
  CAGCacheWarmerMCP.load_strategic_insights sw s = (Ok [], s).
Proof.
  unfold CAGCacheWarmerMCP.load_strategic_insights, mbind, M_bind, bind,
    lift_result.
  rewrite stock_search_items. now rewrite mock_search_importance.
Qed.

Lemma stock_warming_run session_id uc wm :
  let core :=
    sorted_desc cache_priority
      (map (fresh_candidate "core" CAGCacheWarmerMCP.determine_cache_layer)
         (MCPKnowledgeClient._mock_contextual_knowledge now
            "CAG core knowledge warming - essential system knowledge" 20)) in
  let session :=
    sorted_desc cache_priority
      (map (fresh_candidate "session" CAGCacheWarmerMCP.determine_cache_layer)
         (MCPKnowledgeClient._mock_search_knowledge now
            (session_search (default CAGCacheWarmerMCP.default_user_context uc))
            (passed_types mcp_available None) 15)) in
  let preload items s :=
    fold_left (preload_item (Some "mcp_integrated"%string)
                 (CAGCacheWarmerMCP.datetime_now w)) items s in
  let wm3 :=
    preload session
      (preload core (snd (log_event (WarmingStarted session_id) wm))) in
  CAGCacheWarmerMCP.warm_cache_for_session sw session_id uc wm
  = (Ok {| phases_completed := 3;
           items_loaded := 0 + len core + len session + len (@nil cache_item);
           cache_size := len (warm_cache wm3);
           warming_time :=
             (CAGCacheWarmerMCP.t_warming_end w
              - CAGCacheWarmerMCP.t_warming_start w)%float;
           stats_mcp_integrated := Some true |},
     snd (log_event (WarmingCompleted session_id) wm3)).
Proof.
  exact (mcp_warm_run sw session_id uc wm _ _ [] stock_load_core
           (stock_predict_session _) stock_load_strategic).
Qed.
End StockClient.


(** X26: warming with the knowledge client as shipped. Whether or not the
    mcp package is installed, for every session and user context, when the
    items the mock builds are less than a day old the warming returns with
    3 phases and 13 items loaded: the 5 contextual items, the 8 search
    results, and no strategic item, since no mock search result has an
    importance above 60. On a new warmer the cache then holds 13 entries:
    the contextual items in the session layer, the procedural search results
    in the domain layer and the factual ones in the dynamic layer. *)
Theorem stock_client_warming
    (mcp_available : bool) (now : MCPKnowledgeClient.clock) (seconds : Z)
    (w : CAGCacheWarmerMCP.world) (session_id : string)
    (uc : option user_context) (wm : warmer) :
  fresh now w ->
  let sw := MCPKnowledgeClient.stock mcp_available now seconds w in
  (exists stats wm',
     CAGCacheWarmerMCP.warm_cache_for_session sw session_id uc wm
     = (Ok stats, wm') /\
     phases_completed stats = 3 /\ items_loaded stats = 13) /\
  CAGCacheWarmerMCP.load_strategic_insights sw wm = (Ok [], wm) /\
  (exists stats wm',
     CAGCacheWarmerMCP.warm_cache_for_session sw session_id uc
       (new_warmer false) = (Ok stats, wm') /\
     cache_size stats = 13 /\
     map fst (warm_cache wm') = stock_keys).
Proof.
  intros Hfresh sw. split; [|split].
  - unfold sw.
    rewrite (stock_warming_run mcp_available now seconds w Hfresh session_id uc wm).
    eexists _, _. split; [reflexivity|]. split; [reflexivity|].
    cbn [items_loaded]. destruct mcp_available; vm_compute; reflexivity.
  - exact (stock_load_strategic mcp_available now seconds w wm).
  - unfold sw.
    rewrite (stock_warming_run mcp_available now seconds w Hfresh session_id uc
               (new_warmer false)).
    eexists _, _. split; [reflexivity|].
    split; destruct mcp_available; vm_compute; reflexivity.
Qed.

Lemma stock_client_warming_witness :
  exists stats wm',
    CAGCacheWarmerMCP.warm_cache_for_session
      (MCPKnowledgeClient.stock false still_clock 0 empty_client_world)
      "s1" None (new_warmer false) = (Ok stats, wm') /\
    phases_completed stats = 3 /\ items_loaded stats = 13.
Proof.
  assert (Hfresh : fresh still_clock empty_client_world).
  { intros call i. unfold still_clock, microseconds_per_day. simpl. lia. }
  exact (proj1 (stock_client_warming false still_clock 0 empty_client_world
                  "s1" None (new_warmer false) Hfresh)).
Defined.

(** X25: the context manager served by the knowledge client as shipped. For
    every query and session the experience layer reads 'No experience memory
    available' and the strategic layer 'No strategic insights available': the
    mock returns no experiential item and no importance above 60. The context
    always loads. When the mcp package is installed the session layer is the
    notice 'Session history unavailable: ...' of a failed call, since the
    mock behind get_session_context is then called without its project
    argument; otherwise it lists the three mock session items. *)
Theorem stock_client_context
    (mcp_available : bool) (now : MCPKnowledgeClient.clock) (seconds : Z)
    (w : CAGCacheWarmerMCP.world) (query session_id : string) (max : Z) :
  let sw := MCPKnowledgeClient.stock mcp_available now seconds w in
  let get_session_context :=
    MCPKnowledgeClient.get_session_context mcp_available now in
  CAGContextManagerMCPLoaders.load_relevant_experience sw query
  = "No experience memory available"%string /\
  CAGContextManagerMCPLoaders.load_strategic_insights sw query
  = "No strategic insights available"%string /\
  (if mcp_available
   then startswith
          (CAGContextManagerMCPLoaders.load_session_history get_session_context
             session_id)
          "Session history unavailable: " = true
   else CAGContextManagerMCPLoaders.load_session_history get_session_context
          session_id
        = join newline
            (repeat "Previous: Mock session context for project: default..."%string
               3)) /\
  exists context,
    CAGContextManagerMCPLoaders.load_context_for_query max sw
      get_session_context query session_id = Ok context.
Proof.
  intros sw get_session_context. split; [|split; [|split]].
  - unfold sw, get_session_context. destruct mcp_available; vm_compute; reflexivity.
  - unfold CAGContextManagerMCPLoaders.load_strategic_insights, sw.
    rewrite stock_search_items. cbn [result_bind or_error_text].
    rewrite mock_search_importance. reflexivity.
  - unfold get_session_context. destruct mcp_available; vm_compute; reflexivity.
  - unfold CAGContextManagerMCPLoaders.load_context_for_query.
    rewrite mcp_context_dict.
    unfold CAGContextManagerMCPLoaders.loaded at 1.
    cbn [CAGCacheWarmerMCP.project_context_text].
    unfold CAGContextManagerMCPLoaders.load_project_context, get_session_context,
      MCPKnowledgeClient.get_session_context.
    destruct (negb mcp_available); cbn [result_bind]; eauto.
Qed.


(** *** The first query on a new engine of the tool variant *)

Lemma compiled_contains_block (header : string -> string)
    (context : dict string) (layer : ContextLayer) :
  truthy (layer_body context layer) = true ->
  contains (compile_context header context) (layer_block header context layer)
  = true.
Proof.
  intros Hbody. rewrite compile_context_format. unfold compiled_format.
  apply (contains_join _ _ _ (layer_block header context layer)).
  - apply in_map. unfold emitted_layers. apply filter_In.
    split; [apply all_layers_complete|exact Hbody].
  - apply contains_prefix, prefix_refl.
Qed.

Lemma is_warmed_new (session_id : string) (max_tokens : Z) :
  is_warmed session_id (CAGEngineMCP.new max_tokens) = false.
Proof.
  unfold is_warmed, CAGEngineMCP.new. cbn [session_cache_warmed].
  rewrite lookup_empty. apply bool_decide_eq_false. intros [x Hx]. discriminate Hx.
Qed.

Lemma mcp_first_query w query session_id uc window stats wm' context :
  CAGCacheWarmerMCP.warm_cache_for_session w session_id
    (Some (default CAGEngineMCP.default_user_context uc)) (new_warmer false)
  = (Ok stats, wm') ->
  CAGContextManagerMCP.load_context_for_query window w query session_id
  = Ok context ->
  exists resp e',
    CAGEngineMCP.process_query w query session_id uc (CAGEngineMCP.new window)
    = (Ok resp, e') /\
    full_context resp = context /\
    cached_knowledge_items resp = len (warm_cache wm') /\
    cache_hit (resp_performance resp) = true /\
    cache_warmer e' = wm' /\
    record_cache_stats <$> (session_cache_warmed e' !! session_id) = Some stats /\
    total_queries (performance_metrics e') = 1.
Proof.
  intros Hwarm Hcontext.
  assert (Hensure : CAGEngineMCP.ensure_cache_warmed w session_id uc
                      (CAGEngineMCP.new window)
                    = (Ok true,
                       set_session_cache_warmed
                         (<[session_id :=
                              {| warmed_at := CAGCacheWarmerMCP.datetime_now w;
                                 record_cache_stats := stats;
                                 record_mcp_integrated := Some true |}]> ∅)
                         (set_cache_warmer wm' (CAGEngineMCP.new window)))).
  { unfold CAGEngineMCP.ensure_cache_warmed, mbind, M_bind, bind, get.
    rewrite is_warmed_new. unfold zoom.
    change (cache_warmer (CAGEngineMCP.new window)) with (new_warmer false).
    rewrite Hwarm. reflexivity. }
  unfold CAGEngineMCP.process_query.
  unfold mbind at 1, M_bind at 1, bind at 1. rewrite Hensure.
  unfold mbind, M_bind, bind, get, lift_result.
  change (max_tokens
            (set_session_cache_warmed
               (<[session_id :=
                    {| warmed_at := CAGCacheWarmerMCP.datetime_now w;
                       record_cache_stats := stats;
                       record_mcp_integrated := Some true |}]> ∅)
               (set_cache_warmer wm' (CAGEngineMCP.new window))))
    with window.
  rewrite Hcontext.
  unfold CAGEngineMCP._update_performance_metrics, modify.
  rewrite store_interaction_returns.
  eexists _, _. split; [reflexivity|].
  cbn [full_context cached_knowledge_items resp_performance cache_hit
       cache_warmer set_performance_metrics set_session_cache_warmed
       set_cache_warmer session_cache_warmed performance_metrics].
  repeat split.
  - apply is_warmed_insert_eq.
  - now rewrite lookup_insert_eq.
Qed.

(** X27: the first query on a new engine served by the knowledge client as
    shipped. Whether or not the mcp package is importable, for every query,
    session, user context and window size, when the items the mock builds are
    less than a day old process_query returns; the answer reports 13 cached
    knowledge items and a cache hit, the session is recorded with 3 phases
    and 13 items loaded, and its context has no experience and no strategic
    content. *)
Theorem stock_first_query
    (mcp_available : bool) (now : MCPKnowledgeClient.clock) (seconds : Z)
    (w : CAGCacheWarmerMCP.world) (query session_id : string)
    (uc : option user_context) (window : Z) :
  fresh now w ->
  exists resp e' stats,
    CAGContextManagerMCPLoaders.process_query
      (MCPKnowledgeClient.stock mcp_available now seconds w)
      (MCPKnowledgeClient.get_session_context mcp_available now)
      query session_id uc (CAGEngineMCP.new window)
    = (Ok resp, e') /\
    cached_knowledge_items resp = 13 /\
    cache_hit (resp_performance resp) = true /\
    record_cache_stats <$> (session_cache_warmed e' !! session_id) = Some stats /\
    phases_completed stats = 3 /\ items_loaded stats = 13 /\
    cache_size stats = 13 /\
    total_queries (performance_metrics e') = 1 /\
    contains (full_context resp)
      ("=== EXPERIENCE CONTEXT (MCP-INTEGRATED) ===" +:+ newline
       +:+ "No experience memory available" +:+ newline) = true /\
    contains (full_context resp)
      ("=== STRATEGIC CONTEXT (MCP-INTEGRATED) ===" +:+ newline
       +:+ "No strategic insights available" +:+ newline) = true.
Proof.
  intros Hfresh.
  set (sw := MCPKnowledgeClient.stock mcp_available now seconds w).
  set (gsc := MCPKnowledgeClient.get_session_context mcp_available now).
  set (served := CAGContextManagerMCPLoaders.loaded sw gsc query session_id).
  pose proof (stock_warming_run mcp_available now seconds w Hfresh session_id
                (Some (default CAGEngineMCP.default_user_context uc))
                (new_warmer false)) as Hwarm.
  cbv zeta in Hwarm.
  change (CAGCacheWarmerMCP.warm_cache_for_session
            (MCPKnowledgeClient.stock mcp_available now seconds w))
    with (CAGCacheWarmerMCP.warm_cache_for_session served) in Hwarm.
  destruct (CAGContextManagerMCP.load_context_for_query window served query
              session_id) as [context|ex] eqn:Hcontext.
  - destruct (mcp_first_query served query session_id uc window _ _ context
                Hwarm Hcontext)
      as (resp & e' & Hq & Hfull & Hitems & Hhit & _ & Hrecord & Htotal).
    exists resp, e'. eexists. split; [exact Hq|].
    split; [|split; [exact Hhit|split; [exact Hrecord|]]].
    + rewrite Hitems. destruct mcp_available; vm_compute; reflexivity.
    + split; [reflexivity|]. split; [destruct mcp_available; vm_compute; reflexivity|].
      split; [destruct mcp_available; vm_compute; reflexivity|].
      split; [exact Htotal|].
      rewrite Hfull. clear Hq Hfull Hitems Hhit Hrecord Htotal Hwarm.
      assert (Hexp : CAGCacheWarmerMCP.experience_text served
                     = "No experience memory available"%string).
      { unfold served, sw. cbn [CAGContextManagerMCPLoaders.loaded
                                  CAGCacheWarmerMCP.experience_text].
        destruct mcp_available; vm_compute; reflexivity. }
      assert (Hstr : CAGCacheWarmerMCP.strategic_insights_text served
                     = "No strategic insights available"%string).
      { unfold served, sw. cbn [CAGContextManagerMCPLoaders.loaded
                                  CAGCacheWarmerMCP.strategic_insights_text].
        unfold CAGContextManagerMCPLoaders.load_strategic_insights.
        rewrite stock_search_items. cbn [result_bind or_error_text].
        rewrite mock_search_importance. reflexivity. }
      rewrite mcp_context_dict in Hcontext.
      rewrite Hexp, Hstr in Hcontext. clearbody served.
      destruct (CAGCacheWarmerMCP.project_context_text served) as [project|ex];
        [|discriminate Hcontext].
      cbn [result_bind] in Hcontext. injection Hcontext as <-.
      split.
      * match goal with
        | |- contains (CAGContextManagerMCP.compile_context ?c) _ = true =>
            exact (compiled_contains_block CAGContextManagerMCP.header c
                     EXPERIENCE eq_refl)
        end.
      * match goal with
        | |- contains (CAGContextManagerMCP.compile_context ?c) _ = true =>
            exact (compiled_contains_block CAGContextManagerMCP.header c
                     STRATEGIC eq_refl)
        end.
  - exfalso. rewrite mcp_context_dict in Hcontext.
    unfold served at 1 in Hcontext.
    cbn [CAGContextManagerMCPLoaders.loaded CAGCacheWarmerMCP.project_context_text]
      in Hcontext.
    unfold CAGContextManagerMCPLoaders.load_project_context, gsc,
      MCPKnowledgeClient.get_session_context in Hcontext.
    destruct (negb mcp_available); discriminate Hcontext.
Qed.

Lemma stock_first_query_witness :
  exists resp e',
    CAGContextManagerMCPLoaders.process_query
      (MCPKnowledgeClient.stock false still_clock 0 empty_client_world)
      (MCPKnowledgeClient.get_session_context false still_clock)
      "How is the cache warmed?" "s1" None (CAGEngineMCP.new 128000)
    = (Ok resp, e') /\
    cached_knowledge_items resp = 13.
Proof.
  assert (Hfresh : fresh still_clock empty_client_world).
  { intros call i. unfold still_clock, microseconds_per_day. simpl. lia. }
  destruct (stock_first_query false still_clock 0 empty_client_world
              "How is the cache warmed?" "s1" None 128000 Hfresh)
    as (resp & e' & stats & Hq & Hitems & _).
  exists resp, e'. split; [exact Hq|exact Hitems].
Defined.

(** *** Retrieval by layer, ranked *)

(** C8, as stated, fails: with eleven entries under 'domain:' the default
    call returns ten of them, and the entry 'domain:10' is left out. *)
Lemma layer_query_omits_an_entry :
  In ("domain:10"%string, domain_entry) (warm_cache crowded_warmer) /\
  startswith "domain:10" "domain:" = true /\
  ~ In ("domain:10"%string, domain_entry)
      (CacheWarmingEngine.get_cached_knowledge (Some "domain"%string)
         CacheWarmingEngine.default_limit crowded_warmer).
Proof.
  split; [|split].
  - vm_compute. do 10 right. left. reflexivity.
  - reflexivity.
  - intros H. apply (in_map fst) in H. vm_compute in H.
    repeat (destruct H as [H|H]; [discriminate H|]). exact H.
Qed.

(** C8, amended: for every non-empty layer name L, every limit (10 when the
    caller gives none) and every warm-cache state, the entries
    get_cached_knowledge returns are cache entries whose keys begin with
    "L:", and they are the head of a ranking of all the entries of that
    layer: followed by the entries left out they make up the layer, each
    entry exactly once, with no entry immediately followed by one of greater
    priority, and, when no priority of the layer is a NaN, with no entry
    less than any later one. For a limit that is not negative their number is
    the smaller of the limit and of the number of entries of the layer, and
    when the layer has at most [limit] entries none of them is omitted; a
    negative limit leaves out the last -limit entries of the ranking. *)
Theorem get_cached_knowledge_by_layer
    (L : string) (limit : Z) (wm : warmer) :
  truthy L = true ->
  let returned := CacheWarmingEngine.get_cached_knowledge (Some L) limit wm in
  let of_layer :=
    List.filter (fun kv => startswith (fst kv) (L +:+ ":")) (warm_cache wm) in
  let by_priority := fun kv : string * cache_entry => priority (snd kv) in
  (forall kv, In kv returned ->
     In kv (warm_cache wm) /\ startswith (fst kv) (L +:+ ":") = true) /\
  (exists left_out,
     Permutation (returned ++ left_out) of_layer /\
     descending by_priority (returned ++ left_out) /\
     (Forall (fun kv => is_number (by_priority kv) = true) of_layer ->
      ranked by_priority (returned ++ left_out))) /\
  (0 <= limit -> len returned = Z.min limit (len of_layer)) /\
  (limit < 0 -> len returned = Z.max 0 (len of_layer + limit)) /\
  (len of_layer <= limit -> Permutation returned of_layer).
Proof.
  intros HL returned of_layer by_priority.
  set (sorted := sorted_desc by_priority of_layer).
  assert (Hdef : returned = slice_to limit sorted).
  { unfold returned, CacheWarmingEngine.get_cached_knowledge. now rewrite HL. }
  assert (Hperm : Permutation sorted of_layer) by apply sorted_desc_perm.
  assert (Hsorted : len sorted = len of_layer).
  { unfold len. now rewrite (Permutation_length Hperm). }
  destruct (len_slice_to limit sorted) as [Hpos Hneg].
  destruct (slice_to_firstn limit sorted) as [k [Hk [Hkpos _]]].
  rewrite Hdef. split; [|split; [|split; [|split]]].
  - intros kv Hin. rewrite Hk in Hin. apply In_firstn in Hin.
    apply (Permutation_in _ Hperm) in Hin.
    unfold of_layer in Hin. apply filter_In in Hin. exact Hin.
  - exists (skipn k sorted). rewrite Hk, firstn_skipn.
    split; [exact Hperm|]. split; [apply sorted_desc_descending|].
    intros Hnum. apply descending_ranked; [|apply sorted_desc_descending].
    apply List.Forall_forall. intros kv Hin.
    apply (Permutation_in _ Hperm) in Hin.
    exact (proj1 (List.Forall_forall _ _) Hnum kv Hin).
  - intros H. rewrite (Hpos H), Hsorted. reflexivity.
  - intros H. rewrite (Hneg H), Hsorted. reflexivity.
  - intros Hle. rewrite Hk, firstn_all2; [exact Hperm|].
    assert (H0 : 0 <= limit) by (unfold len in Hle; lia).
    rewrite (Hkpos H0). unfold len in Hsorted, Hle. lia.
Qed.

Lemma get_cached_knowledge_by_layer_witness :
  truthy "domain" = true /\
  map fst (CacheWarmingEngine.get_cached_knowledge (Some "domain"%string) 2
             ranked_warmer)
  = ["domain:b"; "domain:c"]%string /\
  len (CacheWarmingEngine.get_cached_knowledge (Some "domain"%string) 2
         ranked_warmer) = 2 /\
  len (CacheWarmingEngine.get_cached_knowledge (Some "domain"%string) (-1)
         ranked_warmer) = 2.
Proof.
  split; [reflexivity|]. split; [vm_compute; reflexivity|]. split.
  - exact (proj1 (proj2 (proj2
      (get_cached_knowledge_by_layer "domain" 2 ranked_warmer eq_refl)))
      ltac:(lia)).
  - exact (proj1 (proj2 (proj2 (proj2
      (get_cached_knowledge_by_layer "domain" (-1) ranked_warmer eq_refl))))
      ltac:(lia)).
Defined.

(** *** Warming after a failure *)

Lemma count_started_after_failure (L : list warming_event)
    (session_id : string) :
  count_occ warming_event_eq_dec (L ++ [WarmingStarted session_id])
    (WarmingStarted session_id)
  = S (count_occ warming_event_eq_dec L (WarmingStarted session_id)).
Proof.
  rewrite count_occ_app, count_occ_cons_eq by reflexivity.
  rewrite count_occ_nil. lia.
Qed.

(** A query whose warming raises: the exception is the query's, the session
    stays unrecorded and the warmer was entered once more. *)
Lemma direct_failed_warming w query session_id uc e ex e1 :
  is_warmed session_id e = false ->
  CAGEngine.ensure_cache_warmed w session_id uc e = (Raise ex, e1) ->
  CAGEngine.process_query w query session_id uc e = (Raise ex, e1) /\
  is_warmed session_id e1 = false /\
  started_warmings session_id e1 = S (started_warmings session_id e) /\
  completed_warmings session_id e1 = completed_warmings session_id e.
Proof.
  intros Hw Hensure. split.
  { unfold CAGEngine.process_query. unfold mbind at 1, M_bind at 1, bind at 1.
    now rewrite Hensure. }
  revert Hensure.
  unfold CAGEngine.ensure_cache_warmed, mbind, M_bind, bind, get, zoom.
  rewrite Hw.
  pose proof (direct_warm_log w session_id
                (Some (default CAGEngine.default_user_context uc))
                (cache_warmer e)) as Hlog.
  destruct (CacheWarmingEngine.warm_cache_for_session _ _ _ _) as [[stats|ex'] wm'];
    [discriminate|].
  intros [= _ <-]. split; [exact Hw|].
  unfold started_warmings, completed_warmings. cbn [cache_warmer set_cache_warmer].
  rewrite Hlog. split.
  - apply count_started_after_failure.
  - apply count_completed_after_failure.
Qed.

Lemma mcp_failed_warming w query session_id uc e ex e1 :
  is_warmed session_id e = false ->
  CAGEngineMCP.ensure_cache_warmed w session_id uc e = (Raise ex, e1) ->
  CAGEngineMCP.process_query w query session_id uc e = (Raise ex, e1) /\
  is_warmed session_id e1 = false /\
  started_warmings session_id e1 = S (started_warmings session_id e) /\
  completed_warmings session_id e1 = completed_warmings session_id e.
Proof.
  intros Hw Hensure. split.
  { unfold CAGEngineMCP.process_query. unfold mbind at 1, M_bind at 1, bind at 1.
    now rewrite Hensure. }
  revert Hensure.
  unfold CAGEngineMCP.ensure_cache_warmed, mbind, M_bind, bind, get, zoom.
  rewrite Hw.
  pose proof (mcp_warm_log w session_id
                (Some (default CAGEngineMCP.default_user_context uc))
                (cache_warmer e)) as Hlog.
  destruct (CAGCacheWarmerMCP.warm_cache_for_session _ _ _ _) as [[stats|ex'] wm'];
    [discriminate|].
  intros [= _ <-]. split; [exact Hw|].
  unfold started_warmings, completed_warmings. cbn [cache_warmer set_cache_warmer].
  rewrite Hlog. split.
  - apply count_started_after_failure.
  - apply count_completed_after_failure.
Qed.

Lemma is_warmed_new_direct (session_id : string) (max_tokens : Z) :
  is_warmed session_id (CAGEngine.new max_tokens) = false.
Proof.
  unfold is_warmed, CAGEngine.new. cbn [session_cache_warmed].
  rewrite lookup_empty. apply bool_decide_eq_false. intros [x Hx]. discriminate Hx.
Qed.

Lemma direct_failing_core_raises session_id uc e :
  is_warmed session_id e = false ->
  exists e1,
    CAGEngine.ensure_cache_warmed failing_core_world session_id uc e
    = (Raise (ClientError "connection refused"), e1).
Proof.
  intros Hw.
  unfold CAGEngine.ensure_cache_warmed, mbind, M_bind, bind, get, zoom.
  rewrite Hw. eexists. reflexivity.
Qed.

Lemma mcp_failing_core_raises session_id uc e :
  is_warmed session_id e = false ->
  exists e1,
    CAGEngineMCP.ensure_cache_warmed failing_core_client_world session_id uc e
    = (Raise (ClientError "tool unavailable"), e1).
Proof.
  intros Hw.
  unfold CAGEngineMCP.ensure_cache_warmed, mbind, M_bind, bind, get, zoom.
  rewrite Hw. eexists. reflexivity.
Qed.

Lemma direct_failing_run (n : nat) (e : engine) :
  is_warmed "S1" e = false ->
  let e' :=
    snd (DirectRun.run
           (repeat (DirectRun.ProcessQuery failing_core_world "q" "S1" None) n)
           e) in
  started_warmings "S1" e' = (started_warmings "S1" e + n)%nat /\
  completed_warmings "S1" e' = completed_warmings "S1" e /\
  is_warmed "S1" e' = false.
Proof.
  revert e. induction n as [|n IH]; intros e Hw.
  - cbn. split; [lia|]. now split.
  - cbn [repeat DirectRun.run DirectRun.exec].
    destruct (direct_failing_core_raises "S1" None e Hw) as [e1 Hensure].
    destruct (direct_failed_warming failing_core_world "q" "S1" None e _ e1
                Hw Hensure) as (Hq & Hw1 & Hs1 & Hc1).
    rewrite Hq. cbn [envelope_of].
    specialize (IH e1 Hw1). cbv zeta in IH.
    destruct (DirectRun.run _ e1) as [rs e2]. cbn [snd] in *.
    destruct IH as (Hs & Hc & Hw2).
    split; [lia|]. split; [congruence|exact Hw2].
Qed.

Lemma mcp_failing_run (n : nat) (e : engine) :
  is_warmed "S1" e = false ->
  let e' :=
    snd (McpRun.run
           (repeat (McpRun.ProcessQuery failing_core_client_world "q" "S1" None) n)
           e) in
  started_warmings "S1" e' = (started_warmings "S1" e + n)%nat /\
  completed_warmings "S1" e' = completed_warmings "S1" e /\
  is_warmed "S1" e' = false.
Proof.
  revert e. induction n as [|n IH]; intros e Hw.
  - cbn. split; [lia|]. now split.
  - cbn [repeat McpRun.run McpRun.exec].
    destruct (mcp_failing_core_raises "S1" None e Hw) as [e1 Hensure].
    destruct (mcp_failed_warming failing_core_client_world "q" "S1" None e _ e1
                Hw Hensure) as (Hq & Hw1 & Hs1 & Hc1).
    rewrite Hq. cbn [envelope_of].
    specialize (IH e1 Hw1). cbv zeta in IH.
    destruct (McpRun.run _ e1) as [rs e2]. cbn [snd] in *.
    destruct IH as (Hs & Hc & Hw2).
    split; [lia|]. split; [congruence|exact Hw2].
Qed.

(** C4: the warmer can run more than once for a session. On a freshly
    constructed engine of either variant whose Phase 1 fetch fails, n calls
    of process_query for the session "S1" enter warm_cache_for_session n
    times, none of them completes and the session is never recorded. In
    general a process_query whose warming raises raises the same exception,
    leaves the session out of the warming registry and has entered the warmer
    once more, so the next call enters it again. What holds is the rest of
    the claim: for every session the warmer runs to completion at most once,
    and once the session is recorded process_query leaves the warmer and the
    registry untouched. *)
Theorem warming_runs_again_after_a_failure :
  (forall n : nat,
     let e :=
       snd (DirectRun.run
              (repeat (DirectRun.ProcessQuery failing_core_world "q" "S1" None) n)
              (CAGEngine.new CAGEngine.default_max_tokens)) in
     started_warmings "S1" e = n /\ completed_warmings "S1" e = 0%nat /\
     is_warmed "S1" e = false) /\
  (forall n : nat,
     let e :=
       snd (McpRun.run
              (repeat (McpRun.ProcessQuery failing_core_client_world "q" "S1" None)
                 n)
              (CAGEngineMCP.new CAGEngineMCP.default_max_tokens)) in
     started_warmings "S1" e = n /\ completed_warmings "S1" e = 0%nat /\
     is_warmed "S1" e = false) /\
  (forall w query session_id uc e ex e1,
     is_warmed session_id e = false ->
     CAGEngine.ensure_cache_warmed w session_id uc e = (Raise ex, e1) ->
     CAGEngine.process_query w query session_id uc e = (Raise ex, e1) /\
     is_warmed session_id e1 = false /\
     started_warmings session_id e1 = S (started_warmings session_id e) /\
     completed_warmings session_id e1 = completed_warmings session_id e) /\
  (forall w query session_id uc e ex e1,
     is_warmed session_id e = false ->
     CAGEngineMCP.ensure_cache_warmed w session_id uc e = (Raise ex, e1) ->
     CAGEngineMCP.process_query w query session_id uc e = (Raise ex, e1) /\
     is_warmed session_id e1 = false /\
     started_warmings session_id e1 = S (started_warmings session_id e) /\
     completed_warmings session_id e1 = completed_warmings session_id e) /\
  (forall (session_id : string) (max_tokens : Z) (calls : list DirectRun.call),
     (completed_warmings session_id
        (snd (DirectRun.run calls (CAGEngine.new max_tokens))) <= 1)%nat) /\
  (forall (session_id : string) (max_tokens : Z) (calls : list McpRun.call),
     (completed_warmings session_id
        (snd (McpRun.run calls (CAGEngineMCP.new max_tokens))) <= 1)%nat) /\
  (forall w query session_id uc e,
     is_warmed session_id e = true ->
     same_warming_state e
       (snd (CAGEngine.process_query w query session_id uc e))) /\
  (forall w query session_id uc e,
     is_warmed session_id e = true ->
     same_warming_state e
       (snd (CAGEngineMCP.process_query w query session_id uc e))).
Proof.
  split; [|split; [|split; [|split; [|split; [|split; [|split]]]]]].
  - intros n.
    exact (direct_failing_run n (CAGEngine.new CAGEngine.default_max_tokens)
             (is_warmed_new_direct "S1" _)).
  - intros n.
    exact (mcp_failing_run n (CAGEngineMCP.new CAGEngineMCP.default_max_tokens)
             (is_warmed_new "S1" _)).
  - intros. now apply direct_failed_warming.
  - intros. now apply mcp_failed_warming.
  - intros session_id max_tokens calls.
    apply (direct_run_tracks calls (CAGEngine.new max_tokens)).
    now apply new_engine_tracks.
  - intros session_id max_tokens calls.
    apply (mcp_run_tracks calls (CAGEngineMCP.new max_tokens)).
    now apply new_engine_tracks.
  - intros. now apply direct_recorded_session_short_circuits.
  - intros. now apply mcp_recorded_session_short_circuits.
Qed.
